(** * comfyui-api: a shallow embedding of the ComfyUI client

    The development follows the three source files:
    - [utils.py]        : configuration helpers, the two node patchers,
                          the S3 upload helper, artifact retrieval;
    - [comfy_client.py] : [ComfyUIClient] (submit, poll, fetch, save);
    - [main.py]         : the pipeline and the top-level handler.

    Python values that come from JSON are modelled by the type [json];
    a [dict] is an association list in insertion order.  Effects (HTTP,
    clock, logging, file system, object store) are threaded through an
    explicit world with a trace of events; exceptions are values. *)

From Stdlib Require Import String Ascii List ZArith NArith Lia Bool.
From Stdlib Require Import DecimalString.
From Stdlib Require QArith_base.
Import ListNotations.

Local Open Scope string_scope.
Local Open Scope Z_scope.

Set Warnings "-register-all".

(* ================================================================= *)
(** ** Python strings *)

Module Str.

(** [c.lower()] on one code unit.  Only ASCII letters matter for the
    literals the program compares against ("negative", "yes", ...):
    no non-ASCII character lower-cases to a string that could complete
    one of those ASCII words. *)
Definition lower_ascii (c : ascii) : ascii :=
  let n := nat_of_ascii c in
  if andb (Nat.leb 65 n) (Nat.leb n 90) then ascii_of_nat (n + 32) else c.

Fixpoint lower (s : string) : string :=
  match s with
  | EmptyString => EmptyString
  | String c t => String (lower_ascii c) (lower t)
  end.

(** [needle in hay] for two strings. *)
Fixpoint contains (needle hay : string) : bool :=
  if String.prefix needle hay then true
  else match hay with
       | EmptyString => false
       | String _ t => contains needle t
       end.

Definition starts_with (p s : string) : bool := String.prefix p s.

Fixpoint ends_with_char (c : ascii) (s : string) : bool :=
  match s with
  | EmptyString => false
  | String d EmptyString => Ascii.eqb c d
  | String _ t => ends_with_char c t
  end.

(** [str(n)] for a non-negative index and for an integer. *)
Definition of_nat (n : nat) : string := NilEmpty.string_of_uint (Nat.to_uint n).
Definition of_Z (z : Z) : string := NilZero.string_of_int (Z.to_int z).

(** [str(x)] where [x] is a string or [None]. *)
Definition of_opt (o : option string) : string :=
  match o with Some s => s | None => "None" end.

Fixpoint mem (s : string) (l : list string) : bool :=
  match l with
  | [] => false
  | x :: r => if String.eqb s x then true else mem s r
  end.

End Str.

(** Raw bytes ([bytes] objects) are byte strings. *)
Definition bytes := string.

(* ================================================================= *)
(** ** JSON values and Python containers *)

Inductive json : Type :=
| JNull
| JBool (b : bool)
| JInt (n : Z)
| JFloat (q : QArith_base.Q)
| JStr (s : string)
| JList (l : list json)
| JDict (d : list (string * json)).

(** A [dict] with string keys, in insertion order. *)
Definition pydict (V : Type) := list (string * V).

Module Dict.
Section Ops.
Context {V : Type}.

(** [d.get(k)] / lookup of [d[k]]. *)
Fixpoint get (d : pydict V) (k : string) : option V :=
  match d with
  | [] => None
  | (k', v) :: r => if String.eqb k k' then Some v else get r k
  end.

(** [k in d]. *)
Definition has (d : pydict V) (k : string) : bool :=
  match get d k with Some _ => true | None => false end.

(** [d[k] = v]: an existing key keeps its position, a new key goes last. *)
Fixpoint set (d : pydict V) (k : string) (v : V) : pydict V :=
  match d with
  | [] => [(k, v)]
  | (k', v') :: r =>
      if String.eqb k k' then (k', v) :: r else (k', v') :: set r k v
  end.

Definition keys (d : pydict V) : list string := map fst d.

End Ops.
End Dict.

Module Py.

(** Truth value of a JSON-born Python object. *)
Definition truthy (v : json) : bool :=
  match v with
  | JNull => false
  | JBool b => b
  | JInt n => negb (n =? 0)
  | JFloat q => negb (QArith_base.Qnum q =? 0)
  | JStr s => negb (String.eqb s "")
  | JList l => match l with [] => false | _ => true end
  | JDict d => match d with [] => false | _ => true end
  end.

(** [v == s] for a string literal [s]. *)
Definition eq_str (v : json) (s : string) : bool :=
  match v with JStr t => String.eqb t s | _ => false end.

(** The number a value is in a comparison: [True == 1], [1 == 1.0]. *)
Definition number (v : json) : option QArith_base.Q :=
  match v with
  | JBool b => Some (QArith_base.inject_Z (if b then 1 else 0))
  | JInt n => Some (QArith_base.inject_Z n)
  | JFloat q => Some q
  | _ => None
  end.

(** [a == b]: numbers by value, strings and lists element by element,
    mappings by their items whatever the order. *)
Fixpoint eq (a b : json) {struct a} : bool :=
  match a, b with
  | JNull, JNull => true
  | JStr s, JStr t => String.eqb s t
  | JList l, JList m =>
      (fix all2 (l m : list json) {struct l} : bool :=
         match l, m with
         | [], [] => true
         | x :: l', y :: m' => eq x y && all2 l' m'
         | _, _ => false
         end) l m
  | JDict d, JDict e =>
      Nat.eqb (length d) (length e)
      && (fix sub (d : list (string * json)) {struct d} : bool :=
            match d with
            | [] => true
            | (k, v) :: d' =>
                match Dict.get e k with
                | Some v' => eq v v'
                | None => false
                end && sub d'
            end) d
  | _, _ =>
      match number a, number b with
      | Some p, Some q => QArith_base.Qeq_bool p q
      | _, _ => false
      end
  end.

(** Truth value of a string ([if args.prompt:]). *)
Definition truthy_str (s : string) : bool := negb (String.eqb s "").

End Py.

(* ================================================================= *)
(** ** Exceptions *)

(** The exception classes the program can meet, with the class each
    one derives from (builtins, [urllib.error], [json], [PIL],
    [botocore.exceptions], [requests]). *)
Inductive pyclass : Type :=
| BaseException | Exception | KeyboardInterrupt | SystemExit
| ValueError | JSONDecodeError | UnicodeError | UnicodeDecodeError
| RuntimeError | RecursionError
| AttributeError | TypeError | LookupError | KeyError | IndexError
| OSError | FileNotFoundError | TimeoutError | URLError | HTTPError
| UnidentifiedImageError | RequestException
| BotoCoreError | NoCredentialsError | EndpointConnectionError
| ParamValidationError | ClientError.

Definition pyclass_eqb (a b : pyclass) : bool :=
  match a, b with
  | BaseException, BaseException | Exception, Exception
  | KeyboardInterrupt, KeyboardInterrupt | SystemExit, SystemExit
  | ValueError, ValueError | JSONDecodeError, JSONDecodeError
  | UnicodeError, UnicodeError | UnicodeDecodeError, UnicodeDecodeError
  | RuntimeError, RuntimeError | RecursionError, RecursionError
  | AttributeError, AttributeError | TypeError, TypeError
  | LookupError, LookupError | KeyError, KeyError | IndexError, IndexError
  | OSError, OSError | FileNotFoundError, FileNotFoundError
  | TimeoutError, TimeoutError | URLError, URLError | HTTPError, HTTPError
  | UnidentifiedImageError, UnidentifiedImageError
  | RequestException, RequestException
  | BotoCoreError, BotoCoreError | NoCredentialsError, NoCredentialsError
  | EndpointConnectionError, EndpointConnectionError
  | ParamValidationError, ParamValidationError
  | ClientError, ClientError => true
  | _, _ => false
  end.

(** Direct base class. *)
Definition base_class (c : pyclass) : option pyclass :=
  match c with
  | BaseException => None
  | Exception | KeyboardInterrupt | SystemExit => Some BaseException
  | ValueError | RuntimeError | AttributeError | TypeError | LookupError
  | OSError | BotoCoreError | ClientError => Some Exception
  | JSONDecodeError | UnicodeError => Some ValueError
  | UnicodeDecodeError => Some UnicodeError
  | RecursionError => Some RuntimeError
  | KeyError | IndexError => Some LookupError
  | FileNotFoundError | TimeoutError | URLError
  | UnidentifiedImageError | RequestException => Some OSError
  | HTTPError => Some URLError
  | NoCredentialsError | EndpointConnectionError
  | ParamValidationError => Some BotoCoreError
  end.

(** [issubclass(c, d)]; the hierarchy above is five levels deep. *)
Fixpoint issubclass_upto (depth : nat) (c d : pyclass) : bool :=
  if pyclass_eqb c d then true
  else match depth with
       | O => false
       | S k => match base_class c with
                | Some b => issubclass_upto k b d
                | None => false
                end
       end.

Definition issubclass (c d : pyclass) : bool := issubclass_upto 5 c d.

(** An exception object.  [HTTPErr] is [urllib.error.HTTPError]: it is
    the response itself, so it carries the status code, the reason and
    the body stream [fp]; reading the stream consumes it. *)
Inductive exn : Type :=
| Exn (c : pyclass) (msg : string)
| HTTPErr (code : Z) (reason : string) (fp : string).

Definition class_of (e : exn) : pyclass :=
  match e with
  | Exn c _ => c
  | HTTPErr _ _ _ => HTTPError
  end.

Definition isinstance (e : exn) (c : pyclass) : bool :=
  issubclass (class_of e) c.

(** [str(e)]. *)
Definition exn_str (e : exn) : string :=
  match e with
  | Exn _ msg => msg
  | HTTPErr code reason _ =>
      "HTTP Error " ++ Str.of_Z code ++ ": " ++ reason
  end.



(* ================================================================= *)
(** ** Results of a Python computation *)

(** A computation returns, raises, or (for the polling loop, which need
    not terminate) exhausts the fuel of the model. *)
Inductive outcome (A : Type) : Type :=
| Return (a : A)
| Raise (e : exn)
| OutOfFuel.

Arguments Return {A} a.
Arguments Raise {A} e.
Arguments OutOfFuel {A}.

Definition obind {A B : Type} (c : outcome A) (k : A -> outcome B) : outcome B :=
  match c with
  | Return a => k a
  | Raise e => Raise e
  | OutOfFuel => OutOfFuel
  end.

Notation "'let*' x ':=' c 'in' k" := (obind c (fun x => k))
  (at level 61, x pattern, c at next level, right associativity).

Module PyOps.

Definition type_name (v : json) : string :=
  match v with
  | JNull => "NoneType" | JBool _ => "bool" | JInt _ => "int"
  | JFloat _ => "float" | JStr _ => "str" | JList _ => "list"
  | JDict _ => "dict"
  end.

Definition no_attribute {A} (v : json) (attr : string) : outcome A :=
  Raise (Exn AttributeError
           ("'" ++ type_name v ++ "' object has no attribute '" ++ attr ++ "'")).

Definition type_error {A} (msg : string) : outcome A := Raise (Exn TypeError msg).

(** [x.get(k, default)]. *)
Definition get (x : json) (k : string) (default : json) : outcome json :=
  match x with
  | JDict d => Return (match Dict.get d k with Some v => v | None => default end)
  | _ => no_attribute x "get"
  end.

(** [x.lower()]. *)
Definition lower (x : json) : outcome string :=
  match x with
  | JStr s => Return (Str.lower s)
  | _ => no_attribute x "lower"
  end.

(** [k in x] for a string [k]. *)
Definition contains (k : string) (x : json) : outcome bool :=
  match x with
  | JDict d => Return (Dict.has d k)
  | JList l => Return (existsb (fun v => Py.eq_str v k) l)
  | JStr s => Return (Str.contains k s)
  | _ => type_error ("argument of type '" ++ type_name x ++ "' is not iterable")
  end.

(** [x[k]] for a string [k]. *)
Definition getitem (x : json) (k : string) : outcome json :=
  match x with
  | JDict d => match Dict.get d k with
               | Some v => Return v
               | None => Raise (Exn KeyError ("'" ++ k ++ "'"))
               end
  | JList _ => type_error "list indices must be integers or slices, not str"
  | JStr _ => type_error "string indices must be integers, not 'str'"
  | _ => type_error ("'" ++ type_name x ++ "' object is not subscriptable")
  end.

(** [k in x] for any [k].  The keys of a mapping born from JSON are
    strings, so a hashable [k] of another type is in none. *)
Definition member (k x : json) : outcome bool :=
  match x with
  | JDict d =>
      match k with
      | JStr s => Return (Dict.has d s)
      | JList _ | JDict _ => type_error ("unhashable type: '" ++ type_name k ++ "'")
      | _ => Return false
      end
  | JList l => Return (existsb (fun v => Py.eq v k) l)
  | JStr s =>
      match k with
      | JStr t => Return (Str.contains t s)
      | _ => type_error ("'in <string>' requires string as left operand, not "
                         ++ type_name k)
      end
  | _ => type_error ("argument of type '" ++ type_name x ++ "' is not iterable")
  end.

(** The integer an index stands for ([bool] is an [int]). *)
Definition index_of (k : json) : option Z :=
  match k with
  | JInt n => Some n
  | JBool b => Some (if b then 1 else 0)
  | _ => None
  end.

(** The position index [i] names in a sequence of length [len]; a
    negative index counts from the end. *)
Definition position (len : nat) (i : Z) : option nat :=
  if (0 <=? i) && (i <? Z.of_nat len) then Some (Z.to_nat i)
  else if (i <? 0) && (0 <=? Z.of_nat len + i) then Some (Z.to_nat (Z.of_nat len + i))
  else None.

Fixpoint chars (s : string) : list json :=
  match s with
  | EmptyString => []
  | String c t => JStr (String c EmptyString) :: chars t
  end.

(** [x[k]] for any [k]; [repr] gives the text of a [KeyError]. *)
Definition subscript (repr : json -> string) (x k : json) : outcome json :=
  match x with
  | JDict d =>
      match k with
      | JStr s => match Dict.get d s with
                  | Some v => Return v
                  | None => Raise (Exn KeyError (repr k))
                  end
      | JList _ | JDict _ => type_error ("unhashable type: '" ++ type_name k ++ "'")
      | _ => Raise (Exn KeyError (repr k))
      end
  | JList l =>
      match index_of k with
      | Some i => match position (length l) i with
                  | Some n => match nth_error l n with
                              | Some v => Return v
                              | None => Raise (Exn IndexError "list index out of range")
                              end
                  | None => Raise (Exn IndexError "list index out of range")
                  end
      | None => type_error ("list indices must be integers or slices, not "
                            ++ type_name k)
      end
  | JStr s =>
      match index_of k with
      | Some i => match position (length (chars s)) i with
                  | Some n => match nth_error (chars s) n with
                              | Some v => Return v
                              | None => Raise (Exn IndexError "string index out of range")
                              end
                  | None => Raise (Exn IndexError "string index out of range")
                  end
      | None => type_error ("string indices must be integers, not '"
                            ++ type_name k ++ "'")
      end
  | _ => type_error ("'" ++ type_name x ++ "' object is not subscriptable")
  end.

(** [x[k] = v] for a string [k]; returns the object after the store. *)
Definition setitem (x : json) (k : string) (v : json) : outcome json :=
  match x with
  | JDict d => Return (JDict (Dict.set d k v))
  | JList _ => type_error "list indices must be integers or slices, not str"
  | _ => type_error ("'" ++ type_name x ++ "' object does not support item assignment")
  end.

(** [x.items()]. *)
Definition items (x : json) : outcome (pydict json) :=
  match x with
  | JDict d => Return d
  | _ => no_attribute x "items"
  end.

(** The elements visited by [for y in x]. *)
Definition iter (x : json) : outcome (list json) :=
  match x with
  | JList l => Return l
  | JDict d => Return (map (fun kv => JStr (fst kv)) d)
  | JStr s => Return (chars s)
  | _ => type_error ("'" ++ type_name x ++ "' object is not iterable")
  end.

End PyOps.

(* ================================================================= *)
(** ** utils.py: the node patchers (pure part)

    A patcher walks [workflow.items()] and mutates the first node it
    accepts.  The walk is modelled on the list of items; the store
    [inputs["text"] = ...] reaches the document through the node that
    owns [inputs], so the walk returns the document after the store.
    The log line of a patcher is written between the test that accepts
    the node and the store, so a store that raises leaves the line. *)

Module Patch.

(** What one loop iteration does with the node it visits: it goes on
    to the next node, or it has found its node.  In the second case the
    caller logs the patch and the store follows; [Store] is a store
    that went through, [Fails] one that raised after the log line. *)
Inductive visit : Type :=
| Skip
| Store (node' : json) (title : string)
| Fails (e : exn) (title : string).

(** Body of the loop of [patch_prompt_text_node] for one node. *)
Definition prompt_visit (node : json) (prompt_text : string) : outcome visit :=
  match node with
  | JDict fields =>
      let* class_type := PyOps.get node "class_type" JNull in
      if Py.eq_str class_type "CLIPTextEncode" then
        let* meta := PyOps.get node "_meta" (JDict []) in
        let* title0 := PyOps.get meta "title" (JStr "") in
        let* title := PyOps.lower title0 in
        if Str.contains "negative" title then Return Skip
        else
          let* inputs := PyOps.get node "inputs" (JDict []) in
          let* has_text := PyOps.contains "text" inputs in
          if has_text then
            match PyOps.setitem inputs "text" (JStr prompt_text) with
            | Return inputs' =>
                Return (Store (JDict (Dict.set fields "inputs" inputs')) title)
            | Raise e => Return (Fails e title)
            | OutOfFuel => OutOfFuel
            end
          else Return Skip
      else Return Skip
  | _ => Return Skip
  end.

(** Body of the loop of [patch_load_image_node] for one node. *)
Definition image_visit (node : json) (image_info : json) : outcome visit :=
  let* class_type := PyOps.get node "class_type" JNull in
  if Py.eq_str class_type "LoadImage" then
    let* inputs := PyOps.get node "inputs" (JDict []) in
    let* has_image := PyOps.contains "image" inputs in
    if has_image then
      match (let* name := PyOps.getitem image_info "name" in
             let* inputs0 := PyOps.getitem node "inputs" in
             let* inputs' := PyOps.setitem inputs0 "image" name in
             PyOps.setitem node "inputs" inputs') with
      | Return node' => Return (Store node' "")
      | Raise e => Return (Fails e "")
      | OutOfFuel => OutOfFuel
      end
    else Return Skip
  else Return Skip.

(** Result of a whole walk: no node was accepted, or the node
    [node_id] was, and the store left [workflow'] or raised [e]. *)
Inductive walk : Type :=
| NoMatch
| Patched (node_id : string) (title : string) (workflow' : pydict json)
| Failed (node_id : string) (title : string) (e : exn).

Section Walk.
Variable visit_node : json -> outcome visit.

Fixpoint scan (items : pydict json) : outcome walk :=
  match items with
  | [] => Return NoMatch
  | (node_id, node) :: rest =>
      let* v := visit_node node in
      match v with
      | Store node' title => Return (Patched node_id title ((node_id, node') :: rest))
      | Fails e title => Return (Failed node_id title e)
      | Skip =>
          let* r := scan rest in
          match r with
          | NoMatch => Return NoMatch
          | Patched i t rest' => Return (Patched i t ((node_id, node) :: rest'))
          | Failed i t e => Return (Failed i t e)
          end
      end
  end.
End Walk.

Definition prompt_scan (workflow : pydict json) (prompt_text : string) : outcome walk :=
  scan (fun node => prompt_visit node prompt_text) workflow.

Definition image_scan (workflow : pydict json) (image_info : json) : outcome walk :=
  scan (fun node => image_visit node image_info) workflow.

End Patch.

(* ================================================================= *)
(** ** utils.py: uploading an input image

    [prepare_image_for_upload] and [upload_input_image], on the files
    that exist and with the list of what they did. *)

(** [s.rstrip("/")]. *)
Fixpoint rstrip_slash (s : string) : string :=
  match s with
  | EmptyString => EmptyString
  | String c t =>
      let t' := rstrip_slash t in
      if Ascii.eqb c "/" && String.eqb t' "" then EmptyString else String c t'
  end.

Module Upload.

(** [os.path.basename(p)] (POSIX): what follows the last ["/"]. *)
Fixpoint basename_from (acc s : string) : string :=
  match s with
  | EmptyString => acc
  | String c t =>
      if Ascii.eqb c "/" then basename_from "" t
      else basename_from (acc ++ String c "") t
  end.

Definition basename (p : string) : string := basename_from "" p.

(** [os.path.splitext(p)[-1]]: from the last dot of the base name on,
    unless only dots precede it. *)
Fixpoint ext_from (stem_seen : bool) (ext s : string) : string :=
  match s with
  | EmptyString => ext
  | String c t =>
      if Ascii.eqb c "." then ext_from stem_seen (if stem_seen then "." else "") t
      else ext_from true (if String.eqb ext "" then "" else ext ++ String c "") t
  end.

Definition splitext_ext (p : string) : string := ext_from false "" (basename p).

(** What the libraries answer: [urlparse], the download, the name of
    the temporary file for a suffix, and the multipart POST followed
    by [raise_for_status()] and [json()]. *)
Record Host : Type := mkHost {
  scheme_of : string -> string;
  url_path_of : string -> string;
  url_open : string -> option exn;
  url_read : string -> outcome bytes;
  temp_name : string -> string;
  post : string -> string -> string -> outcome json
}.

Inductive action : Type :=
| CreateTemp (path : string)
| Post (url filename mime : string)
| LogUploaded (result : json)
| Unlink (path : string).

(** The files that exist and what has been done so far. *)
Record Disk : Type := mkDisk {
  files : list string;
  actions : list action
}.

Definition act (a : action) (d : Disk) : Disk :=
  mkDisk (files d) (actions d ++ [a]).

Fixpoint remove (path : string) (l : list string) : list string :=
  match l with
  | [] => []
  | x :: r => if String.eqb path x then remove path r else x :: remove path r
  end.

Section Functions.
Variable host : Host.

(** [prepare_image_for_upload(image_path)]. *)
Definition prepare_image_for_upload (image_path : string) (d : Disk)
    : outcome (string * string * string) * Disk :=
  let is_url := Str.mem (scheme_of host image_path) ["http"; "https"] in
  if is_url then
    match url_open host image_path with
    | Some e => (Raise e, d)
    | None =>
        let ext := splitext_ext image_path in
        let suffix := if String.eqb ext "" then ".jpg" else ext in
        let name := temp_name host suffix in
        let d1 := act (CreateTemp name)
                      (mkDisk (if Str.mem name (files d) then files d
                               else name :: files d) (actions d)) in
        match url_read host image_path with
        | Return _ =>
            (Return (name, basename (url_path_of host image_path), "image/png"), d1)
        | Raise e => (Raise e, d1)
        | OutOfFuel => (OutOfFuel, d1)
        end
    end
  else (Return (image_path, basename image_path, "image/png"), d).

(** The [try] block of [upload_input_image]. *)
Definition post_file (url upload_path filename mime : string) (d : Disk)
    : outcome json * Disk :=
  if Str.mem upload_path (files d) then
    let d1 := act (Post url filename mime) d in
    match post host url filename mime with
    | Return result => (Return result, act (LogUploaded result) d1)
    | r => (r, d1)
    end
  else (Raise (Exn FileNotFoundError ("No such file or directory: '" ++ upload_path ++ "'")), d).

(** The [finally] block. *)
Definition clean_up (image_path upload_path : string) (d : Disk) : Disk :=
  if negb (String.eqb upload_path image_path) && Str.mem upload_path (files d)
  then act (Unlink upload_path) (mkDisk (remove upload_path (files d)) (actions d))
  else d.

(** [upload_input_image(image_path, server_address)]. *)
Definition upload_input_image (image_path server_address : string) (d : Disk)
    : outcome json * Disk :=
  match prepare_image_for_upload image_path d with
  | (Return (upload_path, filename, mime_type), d1) =>
      let url := "http://" ++ rstrip_slash server_address ++ "/upload/image" in
      let (r, d2) := post_file url upload_path filename mime_type d1 in
      (r, clean_up image_path upload_path d2)
  | (Raise e, d1) => (Raise e, d1)
  | (OutOfFuel, d1) => (OutOfFuel, d1)
  end.

End Functions.

(** The suffix [prepare_image_for_upload] asks the temporary file for. *)
Definition temp_suffix (image_path : string) : string :=
  if String.eqb (splitext_ext image_path) "" then ".jpg"
  else splitext_ext image_path.

Definition is_remote (host : Host) (image_path : string) : bool :=
  Str.mem (scheme_of host image_path) ["http"; "https"].

Definition posts (l : list action) : list (string * string * string) :=
  flat_map (fun a => match a with Post u f m => [(u, f, m)] | _ => [] end) l.

(** A host for the examples: URLs are recognised by their first four
    letters, the download works, the server stores the file. *)
Definition sample_host (answer : outcome json) : Host :=
  mkHost (fun p => if String.prefix "http" p then "https" else "")
         (fun p => "/art/cat.jpeg")
         (fun _ => None) (fun _ => Return "JPEG-bytes")
         (fun suffix => "/tmp/tmpq1w2" ++ suffix)
         (fun _ _ _ => answer).

(** The same host, with a download that breaks off. *)
Definition broken_host : Host :=
  mkHost (fun p => if String.prefix "http" p then "https" else "")
         (fun p => "/art/cat.jpeg")
         (fun _ => None)
         (fun _ => Raise (Exn OSError "Connection reset by peer"))
         (fun suffix => "/tmp/tmpq1w2" ++ suffix)
         (fun _ _ _ => Return JNull).

Definition sample_disk : Disk := mkDisk ["/home/u/dog.png"] [].

End Upload.

(* ================================================================= *)
(** ** The outside world *)

Inductive level : Type := INFO | WARNING | ERROR.

(** The three calls of [urllib.request.urlopen]:
    [POST http://{server}/prompt] with body [{"prompt": workflow}],
    [GET http://{server}/history/{prompt_id}] and
    [GET http://{server}/view?filename=..&subfolder=..&type=..]. *)
Inductive request : Type :=
| PostPrompt (server : string) (workflow : json)
| GetHistory (server : string) (prompt_id : string)
| GetView (server : string) (filename subfolder folder_type : json).

(** What the transport delivers: a final HTTP response, or nothing. *)
Inductive http_reply : Type :=
| Reply (status : Z) (reason : string) (body : string)
| Unreachable (reason : string).

(** Arguments of one [upload_to_s3] call. *)
Record s3_put : Type := mkPut {
  put_bucket : option string;
  put_key : string;
  put_body : bytes;
  put_region : option string;
  put_access_key : option string;
  put_secret_key : option string;
  put_endpoint : option string
}.

(** A decoded [PIL.Image]. *)
Definition image := string.

(** Why [json.loads] rejects its argument: the text is not JSON
    ([JSONDecodeError]), the bytes are not text ([UnicodeDecodeError]),
    or the nesting is too deep for the decoder ([RecursionError]); each
    with the message of the library. *)
Inductive loads_error : Type :=
| NotJSON (msg : string)
| NotText (msg : string)
| TooDeep (msg : string).

Definition loads_exn (err : loads_error) : exn :=
  match err with
  | NotJSON msg => Exn JSONDecodeError msg
  | NotText msg => Exn UnicodeDecodeError msg
  | TooDeep msg => Exn RecursionError msg
  end.

Inductive event : Type :=
| Log (lvl : level) (msg : string)
| Http (req : request)
| Sleep (ticks : Z)
| Makedirs (path : string)
| SaveImage (path : string) (content : bytes)
| PutObject (put : s3_put)
| ShowImage (img : image)
| CreateTemp (path : string)
| PostImage (url filename mime : string)
| Unlink (path : string).

(** Command-line arguments after [parse_arguments(get_env_defaults())]:
    a command line that [argparse] accepts, defaults filled in. *)
Record Args : Type := mkArgs {
  arg_workflow : string;
  arg_prompt : option string;
  arg_server : string;
  arg_save : bool;
  arg_upload_image : option string
}.

(** Everything the program does not control.  Oracles indexed by a
    [nat] answer the n-th interaction of the run.  Time is counted in
    clock ticks; durations are naturals, so the clock never runs
    backwards.  [json_loads] is [json.loads]; [utf8_decode] is
    [bytes.decode()], which gives the text or the message of its
    [UnicodeDecodeError]; [py_repr] is [repr] on values born from
    JSON.  [makedirs_error] is the error of [os.makedirs] on a path, if
    any; [image_open] is [Image.open] on the bytes, the image or the
    error it raises; [save_error] is the error of [image.save] to a
    path, if any, and [png_encode] the bytes it writes otherwise.
    [upload_host] answers the download and the POST of an input
    image. *)
Record Env : Type := mkEnv {
  ticks_per_second : Z;
  getenv : string -> option string;
  parse_arguments : Args;
  file_exists : string -> bool;
  file_text : string -> string;
  json_loads : string -> json + loads_error;
  utf8_decode : bytes -> string + string;
  py_repr : json -> string;
  urlopen_reply : nat -> request -> http_reply;
  urlopen_ticks : nat -> N;
  sleep_late : nat -> N;
  makedirs_error : string -> option exn;
  image_open : bytes -> image + exn;
  png_encode : image -> bytes;
  save_error : string -> image -> option exn;
  s3_reply : nat -> s3_put -> option exn;
  upload_host : Upload.Host;
  uuid4 : string
}.

(** The state threaded through the run: the clock, the number of
    interactions so far, the events so far (oldest first), the
    directories known to exist (those an [os.makedirs] that returned
    has made or found), the workflow document object that
    [load_workflow] created and the patchers mutate, and the files
    known to exist. *)
Record World : Type := mkWorld {
  now : Z;
  calls : nat;
  trace : list event;
  dirs : list string;
  document : json;
  files : list string
}.

Definition emit (ev : event) (w : World) : World :=
  mkWorld (now w) (calls w) (trace w ++ [ev]) (dirs w) (document w) (files w).

Definition interact (ticks : Z) (w : World) : World :=
  mkWorld (now w + ticks) (S (calls w)) (trace w) (dirs w) (document w) (files w).

Definition add_dir (path : string) (w : World) : World :=
  mkWorld (now w) (calls w) (trace w)
          (if Str.mem path (dirs w) then dirs w else path :: dirs w)
          (document w) (files w).

Definition add_dirs (paths : list string) (w : World) : World :=
  fold_left (fun w' path => add_dir path w') paths w.

Definition set_document (d : json) (w : World) : World :=
  mkWorld (now w) (calls w) (trace w) (dirs w) d (files w).

(* ================================================================= *)
(** ** The monad of the program *)

Definition M (A : Type) : Type := World -> outcome A * World.

Definition ret {A} (a : A) : M A := fun w => (Return a, w).

Definition bind {A B} (c : M A) (k : A -> M B) : M B :=
  fun w =>
    match c w with
    | (Return a, w') => k a w'
    | (Raise e, w') => (Raise e, w')
    | (OutOfFuel, w') => (OutOfFuel, w')
    end.

Definition raise {A} (e : exn) : M A := fun w => (Raise e, w).

Definition lift {A} (o : outcome A) : M A := fun w => (o, w).

(** [try: c  except (classes) as e: handler e]. *)
Definition try_except {A} (c : M A) (classes : list pyclass) (handler : exn -> M A) : M A :=
  fun w =>
    match c w with
    | (Raise e, w') =>
        if existsb (isinstance e) classes then handler e w' else (Raise e, w')
    | r => r
    end.

Notation "x <- c ;; k" := (bind c (fun x => k))
  (at level 100, c at next level, right associativity).
Notation "c ;; k" := (bind c (fun _ => k))
  (at level 100, right associativity).

Section Primitives.
Variable env : Env.

(** [logging.info/warning/error]. *)
Definition logging (lvl : level) (msg : string) : M unit :=
  fun w => (Return tt, emit (Log lvl msg) w).

(** [time.time()]. *)
Definition time_time : M Z := fun w => (Return (now w), w).

(** [time.sleep(secs)]: at least the requested time passes. *)
Definition time_sleep (secs : Z) : M unit :=
  fun w =>
    if secs <? 0 then
      (Raise (Exn ValueError "sleep length must be non-negative"), w)
    else
      (Return tt,
       interact (secs + Z.of_N (sleep_late env (calls w))) (emit (Sleep secs) w)).

(** [urllib.request.urlopen(req)] followed by [response.read()]:
    a status outside 200..299 raises [HTTPError], no response at all
    raises [URLError]. *)
Definition urlopen (req : request) : M bytes :=
  fun w =>
    let w' := interact (Z.of_N (urlopen_ticks env (calls w))) (emit (Http req) w) in
    match urlopen_reply env (calls w) req with
    | Reply status reason body =>
        if (200 <=? status) && (status <? 300) then (Return body, w')
        else (Raise (HTTPErr status reason body), w')
    | Unreachable reason =>
        (Raise (Exn URLError ("<urlopen error " ++ reason ++ ">")), w')
    end.

(** [json.loads(text)]. *)
Definition loads (text : string) : M json :=
  match json_loads env text with
  | inl v => ret v
  | inr err => raise (loads_exn err)
  end.

(** [str(v)], as an f-string formats [v]: a string is itself, any
    other value is its [repr]. *)
Definition py_str (v : json) : string :=
  match v with
  | JStr s => s
  | _ => py_repr env v
  end.

(** [data.decode()]. *)
Definition decode (data : bytes) : M string :=
  match utf8_decode env data with
  | inl text => ret text
  | inr msg => raise (Exn UnicodeDecodeError msg)
  end.

(** [e.read()] on an [HTTPError]: returns the body and leaves the
    stream of [e] at its end. *)
Definition http_error_read (e : exn) : string * exn :=
  match e with
  | HTTPErr code reason fp => (fp, HTTPErr code reason "")
  | Exn c msg => ("", Exn c msg)
  end.

(** [os.path.join(a, b)] (POSIX). *)
Definition path_join (a b : string) : string :=
  if Str.starts_with "/" b then b
  else if String.eqb a "" then b
  else if Str.ends_with_char "/" a then a ++ b
  else a ++ "/" ++ b.

(** The paths that are directories once [os.makedirs(path)] has
    returned: every prefix of [path] that ends where a ["/"] begins,
    and [path] itself. *)
Fixpoint ancestors_from (acc s : string) : list string :=
  match s with
  | EmptyString => [acc]
  | String c t =>
      if Ascii.eqb c "/" then
        ((if String.eqb acc "" then [] else [acc])
         ++ ancestors_from (acc ++ "/") t)%list
      else ancestors_from (acc ++ String c "") t
  end.

Definition ancestors (path : string) : list string := ancestors_from "" path.

(** [os.makedirs(path, exist_ok=True)]: the intermediate directories
    are made too.  When it raises, nothing is recorded of what it may
    have made on the way. *)
Definition ensure_folder (path : string) : M unit :=
  fun w =>
    let w1 := emit (Makedirs path) w in
    match makedirs_error env path with
    | None => (Return tt, add_dirs (ancestors path) w1)
    | Some e => (Raise e, w1)
    end.

(** [get_s3_config()] as far as [save_images] reads it. *)
Record s3_config : Type := mkS3 {
  cfg_bucket : option string;
  cfg_access_key : option string;
  cfg_secret_key : option string;
  cfg_region : option string;
  cfg_endpoint : option string
}.

Definition getenv_default (name default : string) : string :=
  match getenv env name with Some v => v | None => default end.

Definition get_s3_config : s3_config :=
  mkS3 (getenv env "S3_BUCKET_NAME") (getenv env "S3_ACCESS_KEY")
       (getenv env "S3_SECRET_KEY")
       (Some (getenv_default "AWS_REGION" "us-west-2"))
       (getenv env "S3_ENDPOINT_URL").

(** [str2bool(value)]. *)
Definition str2bool (value : string) : bool :=
  Str.mem (Str.lower value) ["yes"; "true"; "1"; "y"].

End Primitives.

(* ================================================================= *)
(** ** utils.py *)

Section Utils.
Variable env : Env.

(** [load_workflow(path)]. *)
Definition load_workflow (path : string) : M json :=
  if file_exists env path then loads env (file_text env path)
  else raise (Exn FileNotFoundError ("Workflow file not found: " ++ path)).

(** The two [ValueError]s of the patchers. *)
Definition no_prompt_node : exn :=
  Exn ValueError
    "No suitable CLIPTextEncode node (non-negative) with 'text' input found in workflow.".

Definition no_image_node : exn :=
  Exn ValueError "No LoadImage node with 'image' input found in workflow.".

(** [patch_prompt_text_node(workflow, prompt_text)], where [workflow]
    is the document object of the world. *)
Definition patch_prompt_text_node (prompt_text : string) : M unit :=
  fun w =>
    let patching node_id title :=
      emit (Log INFO ("Patching CLIPTextEncode node " ++ node_id
                      ++ " (title: " ++ title ++ ") with new prompt.")) w in
    match (let* items := PyOps.items (document w) in
           Patch.prompt_scan items prompt_text) with
    | Return (Patch.Patched node_id title workflow') =>
        (Return tt, set_document (JDict workflow') (patching node_id title))
    | Return (Patch.Failed node_id title e) => (Raise e, patching node_id title)
    | Return Patch.NoMatch => (Raise no_prompt_node, w)
    | Raise e => (Raise e, w)
    | OutOfFuel => (OutOfFuel, w)
    end.

(** [patch_load_image_node(workflow, image_info)]. *)
Definition patch_load_image_node (image_info : json) : M unit :=
  fun w =>
    let patching node_id :=
      emit (Log INFO ("Patching LoadImage node " ++ node_id
                      ++ " with uploaded image filename.")) w in
    match (let* items := PyOps.items (document w) in
           Patch.image_scan items image_info) with
    | Return (Patch.Patched node_id _ workflow') =>
        (Return tt, set_document (JDict workflow') (patching node_id))
    | Return (Patch.Failed node_id _ e) => (Raise e, patching node_id)
    | Return Patch.NoMatch => (Raise no_image_node, w)
    | Raise e => (Raise e, w)
    | OutOfFuel => (OutOfFuel, w)
    end.

(** The body of the [try] of [upload_to_s3]: session, client and
    [put_object], answered by the object store. *)
Definition boto3_put_object (put : s3_put) : M unit :=
  fun w =>
    let w' := interact 0 (emit (PutObject put) w) in
    match s3_reply env (calls w) put with
    | None => (Return tt, w')
    | Some e => (Raise e, w')
    end.

(** [upload_to_s3(...)]. *)
Definition upload_to_s3 (put : s3_put) : M unit :=
  try_except
    (boto3_put_object put ;;
     logging INFO ("Uploaded to S3: s3://" ++ Str.of_opt (put_bucket put)
                   ++ "/" ++ put_key put))
    [BotoCoreError; NoCredentialsError]
    (fun e => logging ERROR ("Failed to upload to S3: " ++ exn_str e)).

(** [get_image_file(server_address, filename, subfolder, folder_type)]. *)
Definition get_image_file (server_address : string)
    (filename subfolder folder_type : json) : M bytes :=
  urlopen env (GetView server_address filename subfolder folder_type).

(** What an action of the upload leaves in the trace. *)
Definition upload_event (a : Upload.action) : event :=
  match a with
  | Upload.CreateTemp path => CreateTemp path
  | Upload.Post url filename mime => PostImage url filename mime
  | Upload.LogUploaded result =>
      Log INFO ("Uploaded image to ComfyUI: " ++ py_str env result)
  | Upload.Unlink path => Unlink path
  end.

(** [upload_input_image(image_path, server_address)], run on the files
    of the world; what it did goes to the trace, in order. *)
Definition upload_input_image (image_path server_address : string) : M json :=
  fun w =>
    let r := Upload.upload_input_image (upload_host env) image_path server_address
               (Upload.mkDisk (files w) []) in
    (fst r,
     mkWorld (now w) (calls w)
             (trace w ++ map upload_event (Upload.actions (snd r)))
             (dirs w) (document w) (Upload.files (snd r))).

End Utils.

(* ================================================================= *)
(** ** comfy_client.py *)

Record ComfyUIClient : Type := mkClient {
  server_address : string;
  client_id : string
}.

Definition count_polls (evs : list event) : nat :=
  length (filter (fun ev => match ev with
                            | Http (GetHistory _ _) => true
                            | _ => false
                            end) evs).

(** [TimeoutError("Prompt execution timed out.")]. *)
Definition timed_out : exn := Exn TimeoutError "Prompt execution timed out.".

Section Client.
Variable env : Env.

(** [ComfyUIClient.__init__]. *)
Definition new_client (server : string) : ComfyUIClient :=
  mkClient (rstrip_slash server) (uuid4 env).

Definition exn_code_str (e : exn) : string :=
  match e with HTTPErr code _ _ => Str.of_Z code | Exn _ _ => "" end.

Definition exn_reason (e : exn) : string :=
  match e with HTTPErr _ reason _ => reason | Exn _ msg => msg end.

(** [queue_prompt(prompt)].  In the handler [e.read()] empties the
    stream of the error and [decode()] can fail in its turn; the error
    of the decoding then takes the place of the [HTTPError]. *)
Definition queue_prompt (self : ComfyUIClient) (prompt : json) : M json :=
  try_except
    (body <- urlopen env (PostPrompt (server_address self) prompt) ;;
     reply <- loads env body ;;
     lift (PyOps.getitem reply "prompt_id"))
    [HTTPError]
    (fun e =>
       let (raw, e') := http_error_read e in
       error_body <- decode env raw ;;
       logging ERROR ("HTTP " ++ exn_code_str e ++ ": " ++ exn_reason e
                      ++ " | " ++ error_body) ;;
       raise e').

(** [get_history(prompt_id)]; the identifier is formatted into the
    URL, whatever its type. *)
Definition get_history (self : ComfyUIClient) (prompt_id : json) : M json :=
  body <- urlopen env (GetHistory (server_address self) (py_str env prompt_id)) ;;
  loads env body.

(** The test [prompt_id in history and history[prompt_id].get("outputs")]
    and, when it holds, the value [history[prompt_id]["outputs"]]. *)
Definition completed (history prompt_id : json) : outcome (option json) :=
  let* present := PyOps.member prompt_id history in
  if present then
    let* entry := PyOps.subscript (py_repr env) history prompt_id in
    let* outputs := PyOps.get entry "outputs" JNull in
    if Py.truthy outputs then
      let* entry' := PyOps.subscript (py_repr env) history prompt_id in
      let* result := PyOps.getitem entry' "outputs" in
      Return (Some result)
    else Return None
  else Return None.

(** One pass through the [try] of the polling loop: [Some outputs]
    when the function returns from inside it. *)
Definition poll_once (self : ComfyUIClient) (prompt_id : json) : M (option json) :=
  try_except
    (history <- get_history self prompt_id ;;
     done <- lift (completed history prompt_id) ;;
     match done with
     | Some outputs => logging INFO "Prompt execution completed." ;; ret (Some outputs)
     | None => ret None
     end)
    [Exception]
    (fun e => logging WARNING ("Polling error: " ++ exn_str e) ;; ret None).

(** The [while] loop of [wait_for_execution]. *)
Fixpoint wait_loop (fuel : nat) (self : ComfyUIClient) (prompt_id : json)
    (start_time timeout interval : Z) : M json :=
  match fuel with
  | O => fun w => (OutOfFuel, w)
  | S fuel' =>
      t <- time_time ;;
      if t - start_time <? timeout then
        r <- poll_once self prompt_id ;;
        match r with
        | Some outputs => ret outputs
        | None =>
            time_sleep env interval ;;
            wait_loop fuel' self prompt_id start_time timeout interval
        end
      else raise timed_out
  end.

(** [wait_for_execution(prompt_id, timeout, interval)], in clock ticks. *)
Definition wait_for_execution (fuel : nat) (self : ComfyUIClient)
    (prompt_id : json) (timeout interval : Z) : M json :=
  start_time <- time_time ;;
  logging INFO ("Waiting for prompt " ++ py_str env prompt_id ++ " to complete...") ;;
  wait_loop fuel self prompt_id start_time timeout interval.

(** Inner loop of [get_images]: one retrieval per descriptor. *)
Fixpoint fetch_node_images (self : ComfyUIClient) (todo : list json)
    (node_images : list bytes) : M (list bytes) :=
  match todo with
  | [] => ret node_images
  | image :: rest =>
      filename <- lift (PyOps.getitem image "filename") ;;
      subfolder <- lift (PyOps.getitem image "subfolder") ;;
      folder_type <- lift (PyOps.getitem image "type") ;;
      image_data <- get_image_file env (server_address self) filename subfolder folder_type ;;
      fetch_node_images self rest (node_images ++ [image_data])
  end.

(** Outer loop of [get_images]. *)
Fixpoint fetch_outputs (self : ComfyUIClient) (todo : pydict json)
    (images : pydict (list bytes)) : M (pydict (list bytes)) :=
  match todo with
  | [] => ret images
  | (node_id, output) :: rest =>
      listed <- lift (PyOps.get output "images" (JList [])) ;;
      descriptors <- lift (PyOps.iter listed) ;;
      node_images <- fetch_node_images self descriptors [] ;;
      fetch_outputs self rest (Dict.set images node_id node_images)
  end.

(** [get_images(prompt)]; the defaults of [wait_for_execution] are
    300 and 5 seconds.  [prompt_id] is whatever the reply held under
    ["prompt_id"]; nothing checks that it is a string. *)
Definition get_images (fuel : nat) (self : ComfyUIClient) (prompt : json)
    : M (pydict (list bytes) * json) :=
  prompt_id <- queue_prompt self prompt ;;
  outputs <- wait_for_execution fuel self prompt_id
               (300 * ticks_per_second env) (5 * ticks_per_second env) ;;
  items <- lift (PyOps.items outputs) ;;
  images <- fetch_outputs self items [] ;;
  ret (images, prompt_id).

(** [Image.open(io.BytesIO(data))]. *)
Definition pil_open (data : bytes) : M image :=
  match image_open env data with
  | inl img => ret img
  | inr e => raise e
  end.

(** [image.save(local_path)]: the [.png] suffix selects the encoder.
    A [SaveImage] event is a file that was written; a save that raises
    leaves no event. *)
Definition pil_save (img : image) (local_path : string) : M unit :=
  fun w =>
    match save_error env local_path img with
    | None => (Return tt, emit (SaveImage local_path (png_encode env img)) w)
    | Some e => (Raise e, w)
    end.

(** [display_images(images)]; [idx] counts from 1. *)
Fixpoint display_node_images (node_id : string) (todo : list bytes) (idx : nat) : M unit :=
  match todo with
  | [] => ret tt
  | data :: rest =>
      img <- pil_open data ;;
      logging INFO ("Displaying image " ++ Str.of_nat idx ++ " from node " ++ node_id) ;;
      (fun w => (Return tt, emit (ShowImage img) w)) ;;
      display_node_images node_id rest (S idx)
  end.

Fixpoint display_images (images : pydict (list bytes)) : M unit :=
  match images with
  | [] => ret tt
  | (node_id, image_list) :: rest =>
      display_node_images node_id image_list 1 ;;
      display_images rest
  end.

(** Inner loop of [save_images] over [enumerate(image_list, 1)]. *)
Fixpoint save_node_images (output_dir prompt_id node_id : string)
    (s3 : option s3_config) (todo : list bytes) (idx : nat) : M unit :=
  match todo with
  | [] => ret tt
  | data :: rest =>
      let filename := node_id ++ "_" ++ Str.of_nat idx ++ ".png" in
      let local_path := path_join output_dir filename in
      img <- pil_open data ;;
      pil_save img local_path ;;
      logging INFO ("Saved image: " ++ local_path) ;;
      match s3 with
      | Some cfg =>
          upload_to_s3 env
            (mkPut (cfg_bucket cfg) ("comfyui/" ++ prompt_id ++ "/" ++ filename) data
                   (cfg_region cfg) (cfg_access_key cfg) (cfg_secret_key cfg)
                   (cfg_endpoint cfg))
      | None => ret tt
      end ;;
      save_node_images output_dir prompt_id node_id s3 rest (S idx)
  end.

Fixpoint save_all (output_dir prompt_id : string) (s3 : option s3_config)
    (images : pydict (list bytes)) : M unit :=
  match images with
  | [] => ret tt
  | (node_id, image_list) :: rest =>
      save_node_images output_dir prompt_id node_id s3 image_list 1 ;;
      save_all output_dir prompt_id s3 rest
  end.

(** [save_images(images, prompt_id)].  [os.path.join] takes strings
    only (the [TypeError] has the text of CPython 3.11), so past the
    first line [prompt_id] is a string.  [s3_config] is a non-empty
    dict whenever it is not [None], so [s3_enabled and s3_config] holds
    exactly when [s3_enabled] does. *)
Definition save_images (images : pydict (list bytes)) (prompt_id : json) : M unit :=
  match prompt_id with
  | JStr run_id =>
      let output_dir := path_join "saved_images" run_id in
      ensure_folder env output_dir ;;
      let s3_enabled := str2bool (getenv_default env "UPLOAD_TO_S3" "no") in
      let s3 := if s3_enabled then Some (get_s3_config env) else None in
      save_all output_dir run_id s3 images
  | _ =>
      raise (Exn TypeError
               ("join() argument must be str, bytes, or os.PathLike object, not '"
                ++ PyOps.type_name prompt_id ++ "'"))
  end.

End Client.

(* ================================================================= *)
(** ** main.py *)

Section Main.
Variable env : Env.

(** [run_prompt_pipeline(args)]; [if args.prompt:] and
    [if args.upload_image:] test for a non-empty string. *)
Definition run_prompt_pipeline (fuel : nat) (args : Args) : M unit :=
  workflow <- load_workflow env (arg_workflow args) ;;
  (fun w => (Return tt, set_document workflow w)) ;;
  let client := new_client env (arg_server args) in
  match arg_upload_image args with
  | Some path =>
      if Py.truthy_str path then
        upload_info <- upload_input_image env path (server_address client) ;;
        patch_load_image_node upload_info
      else ret tt
  | None => ret tt
  end ;;
  match arg_prompt args with
  | Some text => if Py.truthy_str text then patch_prompt_text_node text else ret tt
  | None => ret tt
  end ;;
  prompt <- (fun w => (Return (document w), w)) ;;
  result <- get_images env fuel client prompt ;;
  (if arg_save args then save_images env (fst result) (snd result) else ret tt) ;;
  display_images env (fst result).

(** [main()]. *)
Definition main (fuel : nat) : M unit :=
  try_except
    (args <- ret (parse_arguments env) ;;
     run_prompt_pipeline fuel args)
    [Exception]
    (fun e => logging ERROR ("Execution failed: " ++ exn_str e)).

(** Exit status of the interpreter running [main()] as the script:
    0 when [main] returns, 1 when an exception escapes it. *)
Definition exit_status (r : outcome unit) : option Z :=
  match r with
  | Return _ => Some 0
  | Raise _ => Some 1
  | OutOfFuel => None
  end.

End Main.

(* ================================================================= *)
(** ** The workflow document as the data model describes it *)

Module Doc.

Definition field (node : json) (k : string) : option json :=
  match node with JDict fields => Dict.get fields k | _ => None end.

(** The optional display title, [""] when there is none. *)
Definition title_of (node : json) : string :=
  match field node "_meta" with
  | Some meta => match field meta "title" with Some (JStr t) => t | _ => "" end
  | None => ""
  end.

(** The [inputs] mapping, empty when there is none. *)
Definition inputs_of (node : json) : pydict json :=
  match field node "inputs" with Some (JDict i) => i | _ => [] end.

Definition input (node : json) (k : string) : option json :=
  Dict.get (inputs_of node) k.

Definition has_class (node : json) (role : string) : bool :=
  match field node "class_type" with Some v => Py.eq_str v role | None => false end.

(** Typing of the optional parts of a node record: [_meta], when
    present, is a mapping whose [title], when present, is a string;
    [inputs], when present, is a mapping. *)
Definition well_typed_fields (node : json) : bool :=
  match field node "_meta" with
  | None => true
  | Some (JDict meta) =>
      match Dict.get meta "title" with
      | None | Some (JStr _) => true
      | Some _ => false
      end
  | Some _ => false
  end
  &&
  match field node "inputs" with
  | None | Some (JDict _) => true
  | Some _ => false
  end.

Definition is_record (node : json) : bool :=
  match node with JDict _ => true | _ => false end.

(** A node record of the data model. *)
Definition node_record (node : json) : bool :=
  is_record node && well_typed_fields node.

(** An entry the prompt patcher can walk over: a node record, or a
    value that is not a mapping at all (which it skips). *)
Definition record_or_scalar (node : json) : bool :=
  negb (is_record node) || well_typed_fields node.

(** The nodes the two patchers look for, in the words of the
    specification. *)
Definition prompt_target (node : json) : bool :=
  is_record node
  && has_class node "CLIPTextEncode"
  && negb (Str.contains "negative" (Str.lower (title_of node)))
  && Dict.has (inputs_of node) "text".

Definition image_target (node : json) : bool :=
  is_record node
  && has_class node "LoadImage"
  && Dict.has (inputs_of node) "image".

(** The node with input [k] overwritten by [v]. *)
Definition with_input (node : json) (k : string) (v : json) : json :=
  match node with
  | JDict fields => JDict (Dict.set fields "inputs" (JDict (Dict.set (inputs_of node) k v)))
  | _ => node
  end.

Definition nodes (doc : pydict json) : list json := map snd doc.

End Doc.

(* ================================================================= *)
(** ** Reading the patchers *)

(** The document with its first node accepted by [target] replaced by
    [update] of that node; [None] when no node is accepted. *)
Fixpoint patch_first (target : json -> bool) (update : json -> json)
    (doc : pydict json) : option (pydict json) :=
  match doc with
  | [] => None
  | (node_id, node) :: rest =>
      if target node then Some ((node_id, update node) :: rest)
      else match patch_first target update rest with
           | Some rest' => Some ((node_id, node) :: rest')
           | None => None
           end
  end.

Definition set_prompt (prompt_text : string) (node : json) : json :=
  Doc.with_input node "text" (JStr prompt_text).

Definition set_image (name : json) (node : json) : json :=
  Doc.with_input node "image" name.

(* ================================================================= *)
(** ** Reading the polling loop

    What the n-th interaction answers when it is a poll of the history
    endpoint, seen from [wait_for_execution]. *)

Inductive poll_view : Type :=
| Outputs (outputs : json)
| Pending
| PollError (e : exn).

(** An outcome that [except Exception] lets through only as a value:
    it returns, or raises an instance of [Exception]. *)
Definition catchable {A : Type} (o : outcome A) : Prop :=
  match o with
  | Return _ => True
  | Raise e => isinstance e Exception = true
  | OutOfFuel => False
  end.

Section PollView.
Variable env : Env.
Variable self : ComfyUIClient.
Variable prompt_id : json.

Definition classify_poll (n : nat) : poll_view :=
  match urlopen_reply env n (GetHistory (server_address self)
                                        (py_str env prompt_id)) with
  | Reply status reason body =>
      if (200 <=? status) && (status <? 300) then
        match json_loads env body with
        | inl history =>
            match completed env history prompt_id with
            | Return (Some outputs) => Outputs outputs
            | Return None => Pending
            | Raise e => PollError e
            | OutOfFuel => Pending
            end
        | inr err => PollError (loads_exn err)
        end
      else PollError (HTTPErr status reason body)
  | Unreachable reason => PollError (Exn URLError ("<urlopen error " ++ reason ++ ">"))
  end.

Definition history_request : event :=
  Http (GetHistory (server_address self) (py_str env prompt_id)).

Definition reports_outputs (n : nat) : bool :=
  match classify_poll n with Outputs _ => true | _ => false end.

(** What one pass through the [try] yields and logs. *)
Definition poll_value (v : poll_view) : option json :=
  match v with Outputs o => Some o | _ => None end.

Definition poll_log (v : poll_view) : list event :=
  match v with
  | Outputs _ => [Log INFO "Prompt execution completed."]
  | Pending => []
  | PollError e => [Log WARNING ("Polling error: " ++ exn_str e)]
  end.

(** Events of one loop iteration that does not return: the poll, its
    warning if any, the sleep. *)
Definition pending_events (interval : Z) (n : nat) : list event :=
  (history_request :: poll_log (classify_poll n) ++ [Sleep interval])%list.

(** Clock ticks of the iteration that starts at interaction [n]: the
    poll, then the sleep. *)
Definition iteration_ticks (interval : Z) (n : nat) : Z :=
  Z.of_N (urlopen_ticks env n) + (interval + Z.of_N (sleep_late env (S n))).

(** Ticks spent by [k] consecutive iterations from interaction [n]. *)
Fixpoint elapsed_after (interval : Z) (n k : nat) : Z :=
  match k with
  | O => 0
  | S k' => iteration_ticks interval n + elapsed_after interval (S (S n)) k'
  end.

(** The world after an iteration that did not return. *)
Definition after_pending (interval : Z) (w : World) : World :=
  mkWorld (now w + iteration_ticks interval (calls w)) (S (S (calls w)))
          (trace w ++ pending_events interval (calls w))
          (dirs w) (document w) (files w).

End PollView.

(** The files written by [image.save], in order. *)
Fixpoint saves (evs : list event) : list (string * bytes) :=
  match evs with
  | [] => []
  | SaveImage path content :: rest => (path, content) :: saves rest
  | _ :: rest => saves rest
  end.

Fixpoint shows (evs : list event) : list image :=
  match evs with
  | [] => []
  | ShowImage img :: rest => img :: shows rest
  | _ :: rest => shows rest
  end.

Fixpoint logged (lvl : level) (evs : list event) : list string :=
  match evs with
  | [] => []
  | Log INFO msg :: rest =>
      match lvl with INFO => msg :: logged lvl rest | _ => logged lvl rest end
  | Log WARNING msg :: rest =>
      match lvl with WARNING => msg :: logged lvl rest | _ => logged lvl rest end
  | Log ERROR msg :: rest =>
      match lvl with ERROR => msg :: logged lvl rest | _ => logged lvl rest end
  | _ :: rest => logged lvl rest
  end.

(** The [ValueError] of [time.sleep] for a negative argument. *)
Definition sleep_error : exn := Exn ValueError "sleep length must be non-negative".

Definition count_posts (evs : list event) : nat :=
  length (filter (fun ev => match ev with
                            | Http (PostPrompt _ _) => true
                            | _ => false
                            end) evs).

Definition count_sleeps (evs : list event) : nat :=
  length (filter (fun ev => match ev with Sleep _ => true | _ => false end) evs).

(* ================================================================= *)
(** ** Reading the artifact fetch *)

Section FetchView.
Variable env : Env.
Variable server : string.






(** What [urlopen] makes of the answer to the n-th interaction. *)
Definition retrieve (n : nat) (req : request) : bytes + exn :=
  match urlopen_reply env n req with
  | Reply status reason body =>
      if (200 <=? status) && (status <? 300) then inl body
      else inr (HTTPErr status reason body)
  | Unreachable reason => inr (Exn URLError ("<urlopen error " ++ reason ++ ">"))
  end.






End FetchView.

(* ================================================================= *)
(** ** Reading the artifact sink *)

Section SinkView.
Variable env : Env.

(** The bytes [image.save] writes for the bytes [Image.open] read. *)
Definition reencode (data : bytes) : bytes :=
  match image_open env data with
  | inl img => png_encode env img
  | inr _ => ""
  end.

Definition decodable (data : bytes) : bool :=
  match image_open env data with inl _ => true | inr _ => false end.

(** [image.save] does not fail on the artifacts of one node, written
    into [dir], the first one under [index]. *)
Fixpoint node_writable (dir node_id : string) (image_list : list bytes)
    (index : nat) : Prop :=
  match image_list with
  | [] => True
  | data :: rest =>
      (forall img,
          image_open env data = inl img ->
          save_error env (path_join dir (node_id ++ "_" ++ Str.of_nat index ++ ".png"))
                     img = None)
      /\ node_writable dir node_id rest (S index)
  end.

(** [image.save] does not fail on the artifacts of a run. *)
Fixpoint writable (dir : string) (images : pydict (list bytes)) : Prop :=
  match images with
  | [] => True
  | (node_id, image_list) :: rest =>
      node_writable dir node_id image_list 1 /\ writable dir rest
  end.

(** [saved_images/{prompt_id}/{node_id}_{index}.png]. *)
Definition local_layout (prompt_id node_id : string) (index : nat) : string :=
  "saved_images/" ++ prompt_id ++ "/" ++ node_id ++ "_" ++ Str.of_nat index ++ ".png".

(** The files of one node, the first artifact at [index]. *)
Fixpoint node_files (prompt_id node_id : string) (image_list : list bytes)
    (index : nat) : list (string * bytes) :=
  match image_list with
  | [] => []
  | data :: rest =>
      (local_layout prompt_id node_id index, reencode data)
      :: node_files prompt_id node_id rest (S index)
  end.

Fixpoint expected_files (prompt_id : string) (images : pydict (list bytes))
    : list (string * bytes) :=
  match images with
  | [] => []
  | (node_id, image_list) :: rest =>
      (node_files prompt_id node_id image_list 1 ++ expected_files prompt_id rest)%list
  end.

(** Every failure of the object store is of a class that
    [upload_to_s3] catches. *)
Definition contained_uploads : Prop :=
  forall n put e,
    s3_reply env n put = Some e ->
    existsb (isinstance e) [BotoCoreError; NoCredentialsError] = true.

End SinkView.

(** The arguments of the calls of [put_object], in order, whatever
    the store answered. *)
Fixpoint puts (evs : list event) : list s3_put :=
  match evs with
  | [] => []
  | PutObject put :: rest => put :: puts rest
  | _ :: rest => puts rest
  end.

(** [comfyui/{prompt_id}/{node_id}_{index}.png]. *)
Definition object_key (prompt_id node_id : string) (index : nat) : string :=
  "comfyui/" ++ prompt_id ++ "/" ++ node_id ++ "_" ++ Str.of_nat index ++ ".png".

Fixpoint node_puts (cfg : s3_config) (prompt_id node_id : string)
    (image_list : list bytes) (index : nat) : list s3_put :=
  match image_list with
  | [] => []
  | data :: rest =>
      mkPut (cfg_bucket cfg) (object_key prompt_id node_id index) data
            (cfg_region cfg) (cfg_access_key cfg) (cfg_secret_key cfg)
            (cfg_endpoint cfg)
      :: node_puts cfg prompt_id node_id rest (S index)
  end.

Fixpoint expected_puts (cfg : s3_config) (prompt_id : string)
    (images : pydict (list bytes)) : list s3_put :=
  match images with
  | [] => []
  | (node_id, image_list) :: rest =>
      (node_puts cfg prompt_id node_id image_list 1
       ++ expected_puts cfg prompt_id rest)%list
  end.



(** A run of ["/"]. *)
Fixpoint slashes (n : nat) : string :=
  match n with
  | O => ""
  | S k => String "/" (slashes k)
  end.



(** The path of the entry [name] of the directory [dir]. *)
Definition child (dir name : string) : string :=
  if Str.ends_with_char "/" dir then dir ++ name else dir ++ "/" ++ name.

(** A written file that is an entry of [dir], named after one of the
    nodes [names] and an index. *)
Definition entry_of (dir : string) (names : list string)
    (file : string * bytes) : Prop :=
  exists node_id idx,
    In node_id names
    /\ fst file = child dir (node_id ++ "_" ++ Str.of_nat idx ++ ".png").

(** The line [upload_to_s3] logs for an object the store took. *)
Definition uploaded_line (put : s3_put) : string :=
  "Uploaded to S3: s3://" ++ Str.of_opt (put_bucket put) ++ "/" ++ put_key put.

(** Every call of [put_object] among the events has its "Uploaded to
    S3" line among them. *)
Definition reported (evs : list event) : Prop :=
  forall put, In put (puts evs) -> In (Log INFO (uploaded_line put)) evs.

(** An identifier that is one path component: not empty, no "/". *)
Definition plain_name (s : string) : bool :=
  negb (String.eqb s "") && negb (Str.contains "/" s).

(* ================================================================= *)
(** ** Sample data *)

Module Sample.

Definition positive_node : json :=
  JDict [("class_type", JStr "CLIPTextEncode");
         ("_meta", JDict [("title", JStr "Positive Prompt")]);
         ("inputs", JDict [("text", JStr "a cat"); ("clip", JList [JStr "4"; JInt 1])])].

Definition negative_node : json :=
  JDict [("class_type", JStr "CLIPTextEncode");
         ("_meta", JDict [("title", JStr "NEGATIVE Prompt")]);
         ("inputs", JDict [("text", JStr "blurry"); ("clip", JList [JStr "4"; JInt 1])])].

Definition sampler_node : json :=
  JDict [("class_type", JStr "KSampler");
         ("inputs", JDict [("seed", JInt 5); ("positive", JList [JStr "6"; JInt 0])])].

Definition load_node : json :=
  JDict [("class_type", JStr "LoadImage");
         ("inputs", JDict [("image", JStr "example.png")])].

(** Two text-encoding nodes, the negative one first, and a second
    positive one after the target. *)
Definition workflow : pydict json :=
  [("3", sampler_node); ("7", negative_node); ("6", positive_node);
   ("8", positive_node)].

(** No node either patcher accepts. *)
Definition bare_workflow : pydict json :=
  [("3", sampler_node); ("7", negative_node)].

Definition world_with (doc : json) : World := mkWorld 0 0 [] [] doc [].

(** A workflow with an image-load node between the prompts. *)
Definition image_workflow : pydict json :=
  [("7", negative_node); ("10", load_node); ("6", positive_node)].

Definition upload_info : json :=
  JDict [("name", JStr "upload.png"); ("subfolder", JStr ""); ("type", JStr "input")].

(** A text-encoding node exported with ["_meta": null]. *)
Definition null_meta_node : json :=
  JDict [("class_type", JStr "CLIPTextEncode"); ("_meta", JNull);
         ("inputs", JDict [("text", JStr "a cat")])].

Definition client : ComfyUIClient := mkClient "127.0.0.1:8188" "client-0".

Definition args : Args := mkArgs "workflow1.json" None "127.0.0.1:8188" true None.

(** A finished history entry for handle "p1": node "9" produced one image. *)
Definition outputs : json :=
  JDict [("9", JDict [("images",
            JList [JDict [("filename", JStr "a.png"); ("subfolder", JStr "");
                          ("type", JStr "output")]])])].

Definition descriptor (filename : string) : json :=
  JDict [("filename", JStr filename); ("subfolder", JStr ""); ("type", JStr "output")].

(** Two nodes with images: two of node "9", one of node "12". *)
Definition gallery : pydict json :=
  [("9", JDict [("images", JList [descriptor "a.png"; descriptor "b.png"])]);
   ("12", JDict [("images", JList [descriptor "c.png"])])].

(** Execution Outputs in the shape of the data model of the
    specification: node id to list of descriptors. *)
Definition listing : pydict json :=
  [("9", JList [descriptor "a.png"])].

(** The few texts the sample servers send, as [json.loads] reads them. *)
Definition parse (text : string) : json + loads_error :=
  if String.eqb text "{}" then inl (JDict [])
  else if String.eqb text "queued" then inl (JDict [("prompt_id", JStr "p1")])
  else if String.eqb text "running" then inl (JDict [("p1", JDict [("outputs", JDict [])])])
  else if String.eqb text "finished" then inl (JDict [("p1", JDict [("outputs", outputs)])])
  else if String.eqb text "gallery"
       then inl (JDict [("p1", JDict [("outputs", JDict gallery)])])
  else if String.eqb text "listing"
       then inl (JDict [("p1", JDict [("outputs", JDict listing)])])
  else if String.eqb text "workflow" then inl (JDict workflow)
  else inr (NotJSON "Expecting value: line 1 column 1 (char 0)").

(** The sample servers send ASCII. *)
Definition ascii_text (data : bytes) : string + string := inl data.

(** [repr] on the few values the samples print. *)
Definition repr (v : json) : string :=
  match v with
  | JNull => "None"
  | JBool true => "True"
  | JBool false => "False"
  | JInt n => Str.of_Z n
  | JStr s => "'" ++ s ++ "'"
  | _ => "..."
  end.

(** Every request is answered by [reply]; a request takes
    [request_ticks] and sleeps are exact. *)
Definition env_with (reply : nat -> request -> http_reply) (request_ticks : N)
    (vars : string -> option string) (s3 : nat -> s3_put -> option exn)
    (exists_file : string -> bool) : Env :=
  mkEnv 1 vars args exists_file (fun _ => "workflow") parse ascii_text repr reply
        (fun _ => request_ticks) (fun _ => 0%N)
        (fun _ => None) (fun data => inl data) (fun img => img) (fun _ _ => None)
        s3 (Upload.sample_host (Return (JDict [("name", JStr "upload.png")])))
        "client-0".

Definition no_vars : string -> option string := fun _ => None.
Definition s3_ok : nat -> s3_put -> option exn := fun _ _ => None.

(** A server that never knows the handle; each request takes 20 ticks. *)
Definition slow_env : Env :=
  env_with (fun _ _ => Reply 200 "OK" "{}") 20 no_vars s3_ok (fun _ => true).

(** The same server answering at once. *)
Definition idle_env : Env :=
  env_with (fun _ _ => Reply 200 "OK" "{}") 0 no_vars s3_ok (fun _ => true).

(** Polls: a network failure, a body that is not JSON, a running job,
    then the finished job. *)
Definition flaky_reply (n : nat) (req : request) : http_reply :=
  match n with
  | 0%nat => Unreachable "Connection refused"
  | 2%nat => Reply 200 "OK" "<html>"
  | 4%nat => Reply 200 "OK" "running"
  | _ => Reply 200 "OK" "finished"
  end.

Definition flaky_env : Env := env_with flaky_reply 1 no_vars s3_ok (fun _ => true).

Definition waiting : event := Log INFO "Waiting for prompt p1 to complete...".





(** A server that runs the job at once and serves its image. *)
Definition serving_reply (n : nat) (req : request) : http_reply :=
  match req with
  | PostPrompt _ _ => Reply 200 "OK" "queued"
  | GetHistory _ _ => Reply 200 "OK" "finished"
  | GetView _ _ _ _ => Reply 200 "OK" "PNG-bytes"
  end.

Definition s3_vars (name : string) : option string :=
  if String.eqb name "UPLOAD_TO_S3" then Some "yes"
  else if String.eqb name "S3_BUCKET_NAME" then Some "renders"
  else if String.eqb name "S3_ACCESS_KEY" then Some "AKIA-revoked"
  else if String.eqb name "S3_SECRET_KEY" then Some "secret"
  else None.

(** The object store rejects the credentials: [put_object] raises
    [botocore.exceptions.ClientError]. *)
Definition access_denied : exn :=
  Exn ClientError
      "An error occurred (InvalidAccessKeyId) when calling the PutObject operation".

Definition denied_env : Env :=
  env_with serving_reply 0 s3_vars (fun _ _ => Some access_denied) (fun _ => true).

(** No credentials can be found locally: [NoCredentialsError]. *)
Definition no_credentials : exn :=
  Exn NoCredentialsError "Unable to locate credentials".

Definition unsigned_env : Env :=
  env_with serving_reply 0 s3_vars (fun _ _ => Some no_credentials) (fun _ => true).

Definition serving_env : Env :=
  env_with serving_reply 0 s3_vars s3_ok (fun _ => true).

Definition two_images : pydict (list bytes) := [("9", ["first"; "second"])].

(** The worlds of a run against [serving_env]: after the submission
    and after the wait. *)
Definition submitted : World :=
  Eval vm_compute in
    snd (queue_prompt serving_env client (JDict workflow) (world_with JNull)).

Definition finished : World :=
  Eval vm_compute in
    snd (wait_for_execution serving_env 10 client (JStr "p1") 300 5 submitted).

Definition view_a : request :=
  GetView "127.0.0.1:8188" (JStr "a.png") (JStr "") (JStr "output").









(** The same server, except that the artifact is gone. *)
Definition missing_reply (n : nat) (req : request) : http_reply :=
  match req with
  | GetView _ _ _ _ => Reply 404 "Not Found" "no such file"
  | _ => serving_reply n req
  end.

Definition missing_env : Env :=
  env_with missing_reply 0 s3_vars s3_ok (fun _ => true).

(** [Image.open] on bytes that are no image. *)
Definition unidentified : exn :=
  Exn UnidentifiedImageError
      "cannot identify image file <_io.BytesIO object at 0x7f3a5c0b2d40>".

(** A server whose empty artifacts do not decode as images. *)
Definition corrupt_env : Env :=
  mkEnv 1 no_vars args (fun _ => true) (fun _ => "workflow") parse ascii_text
        repr serving_reply
        (fun _ => 0%N) (fun _ => 0%N) (fun _ => None)
        (fun data => if String.eqb data "" then inr unidentified else inl data)
        (fun img => img) (fun _ _ => None) s3_ok
        (Upload.sample_host (Return (JDict [("name", JStr "upload.png")])))
        "client-0".

(** Ctrl-C while the first object is being uploaded. *)
Definition interrupted : exn := Exn KeyboardInterrupt "".

Definition interrupted_env : Env :=
  env_with serving_reply 0 s3_vars (fun _ _ => Some interrupted) (fun _ => true).

(** The user asks for a new prompt, and the file on disk has no
    text-encoding node to take it. *)
Definition prompt_args : Args :=
  mkArgs "workflow1.json" (Some "a dog") "127.0.0.1:8188" true None.

Definition bare_parse (text : string) : json + loads_error :=
  if String.eqb text "workflow" then inl (JDict bare_workflow) else parse text.

Definition bare_env : Env :=
  mkEnv 1 no_vars prompt_args (fun _ => true) (fun _ => "workflow") bare_parse
        ascii_text repr serving_reply (fun _ => 0%N) (fun _ => 0%N) (fun _ => None)
        (fun data => inl data) (fun img => img) (fun _ _ => None) s3_ok
        (Upload.sample_host (Return (JDict [("name", JStr "upload.png")])))
        "client-0".

(** No workflow file on disk. *)
Definition no_file_env : Env :=
  env_with (fun _ _ => Reply 200 "OK" "{}") 0 no_vars s3_ok (fun _ => false).

End Sample.

(* ================================================================= *)
(** * Properties *)

(** Case analysis on the scrutinee of a [match] in the goal or in a
    hypothesis, keeping the equation. *)
Ltac case_match :=
  match goal with
  | H : context [match ?x with _ => _ end] |- _ => destruct x eqn:?
  | |- context [match ?x with _ => _ end] => destruct x eqn:?
  end.

(** Injectivity of [Return], [Raise] and [Some] on the hypotheses. *)
Ltac inject_outcomes :=
  repeat match goal with
         | H : Return _ = Return _ |- _ => injection H as H; try subst
         | H : Raise _ = Raise _ |- _ => injection H as H; try subst
         | H : Some _ = Some _ |- _ => injection H as H; try subst
         end.

(** ** Dictionaries *)

Section DictFacts.
Context {V : Type}.

Lemma dict_get_set_same (d : pydict V) (k : string) (v : V) :
  Dict.get (Dict.set d k v) k = Some v.
Proof.
  induction d as [|[k' v'] r IH]; simpl.
  - now rewrite String.eqb_refl.
  - destruct (String.eqb k k') eqn:E; simpl; rewrite E; auto.
Qed.

Lemma dict_get_set_other (d : pydict V) (k k0 : string) (v : V) :
  k0 <> k -> Dict.get (Dict.set d k v) k0 = Dict.get d k0.
Proof.
  intros Hne. induction d as [|[k' v'] r IH]; simpl.
  - destruct (String.eqb k0 k) eqn:E; auto.
    apply String.eqb_eq in E. contradiction.
  - destruct (String.eqb k k') eqn:E; simpl.
    + apply String.eqb_eq in E. subst k'.
      destruct (String.eqb k0 k) eqn:E0; auto.
      apply String.eqb_eq in E0. contradiction.
    + now rewrite IH.
Qed.

Lemma dict_keys_set_present (d : pydict V) (k : string) (v : V) :
  Dict.has d k = true -> Dict.keys (Dict.set d k v) = Dict.keys d.
Proof.
  unfold Dict.has, Dict.keys.
  induction d as [|[k' v'] r IH]; simpl; [discriminate|].
  destruct (String.eqb k k') eqn:E; simpl; intros H; auto.
  f_equal. auto.
Qed.

Lemma dict_get_middle_other (pre post : pydict V) (k k0 : string) (v v' : V) :
  k0 <> k ->
  Dict.get (pre ++ (k, v') :: post)%list k0 = Dict.get (pre ++ (k, v) :: post)%list k0.
Proof.
  intros Hne. induction pre as [|[k1 v1] r IH]; simpl.
  - destruct (String.eqb k0 k) eqn:E; auto.
    apply String.eqb_eq in E. contradiction.
  - now rewrite IH.
Qed.

Lemma dict_keys_middle (pre post : pydict V) (k : string) (v v' : V) :
  Dict.keys (pre ++ (k, v') :: post)%list = Dict.keys (pre ++ (k, v) :: post)%list.
Proof.
  unfold Dict.keys. now rewrite !map_app.
Qed.

End DictFacts.

(** ** The node patchers *)

Section PatcherFacts.

(** On a typed entry the loop body of the prompt patcher does what the
    specification says: it stores into a target and skips the rest. *)
Lemma prompt_visit_typed (node : json) (prompt_text : string) :
  Doc.record_or_scalar node = true ->
  Patch.prompt_visit node prompt_text =
  Return (if Doc.prompt_target node
          then Patch.Store (Doc.with_input node "text" (JStr prompt_text))
                           (Str.lower (Doc.title_of node))
          else Patch.Skip).
Proof.
  destruct node as [| | | | |l|fields]; try reflexivity.
  cbv [Doc.record_or_scalar Doc.well_typed_fields Doc.prompt_target
       Doc.has_class Doc.title_of Doc.inputs_of Doc.with_input Doc.field
       Doc.is_record Patch.prompt_visit PyOps.get PyOps.lower PyOps.contains
       PyOps.setitem obind negb orb andb].
  intros Htyped.
  repeat (first [ reflexivity | discriminate | congruence | case_match ]).
Qed.

(** The same for the image-reference patcher, on node records. *)
Lemma image_visit_typed (node image_info : json) :
  Doc.node_record node = true ->
  Patch.image_visit node image_info =
  if Doc.image_target node
  then match PyOps.getitem image_info "name" with
       | Return name => Return (Patch.Store (Doc.with_input node "image" name) "")
       | Raise e => Return (Patch.Fails e "")
       | OutOfFuel => OutOfFuel
       end
  else Return Patch.Skip.
Proof.
  destruct node as [| | | | |l|fields]; try discriminate.
  cbv [Doc.node_record Doc.well_typed_fields Doc.image_target
       Doc.has_class Doc.title_of Doc.inputs_of Doc.with_input Doc.field
       Doc.is_record Patch.image_visit PyOps.get PyOps.contains
       PyOps.setitem obind negb orb andb].
  intros Htyped.
  repeat (first [ reflexivity | discriminate | congruence | case_match ]).
  all: unfold PyOps.getitem in *;
    repeat (first [ reflexivity | discriminate | congruence | case_match ]).
Qed.

Section Scan.
Variable visit_node : json -> outcome Patch.visit.

Lemma scan_all_skipped (items : pydict json) :
  (forall node, In node (Doc.nodes items) -> visit_node node = Return Patch.Skip) ->
  Patch.scan visit_node items = Return Patch.NoMatch.
Proof.
  induction items as [|[node_id node] rest IH]; simpl; intros Hskip; [reflexivity|].
  rewrite (Hskip node) by now left. simpl.
  rewrite IH; [reflexivity|]. intros n Hn. apply Hskip. now right.
Qed.

Lemma scan_first_store (pre post : pydict json) (node_id title : string)
    (node node' : json) :
  (forall n, In n (Doc.nodes pre) -> visit_node n = Return Patch.Skip) ->
  visit_node node = Return (Patch.Store node' title) ->
  Patch.scan visit_node (pre ++ (node_id, node) :: post)%list =
  Return (Patch.Patched node_id title (pre ++ (node_id, node') :: post)%list).
Proof.
  intros Hskip Hstore.
  induction pre as [|[i n] pre IH]; simpl.
  - now rewrite Hstore.
  - rewrite (Hskip n) by now left. simpl.
    rewrite IH; [reflexivity|]. intros m Hm. apply Hskip. now right.
Qed.

Lemma scan_first_raise (pre post : pydict json) (node_id : string)
    (node : json) (e : exn) :
  (forall n, In n (Doc.nodes pre) -> visit_node n = Return Patch.Skip) ->
  visit_node node = Raise e ->
  Patch.scan visit_node (pre ++ (node_id, node) :: post)%list = Raise e.
Proof.
  intros Hskip Hraise.
  induction pre as [|[i n] pre IH]; simpl.
  - now rewrite Hraise.
  - rewrite (Hskip n) by now left. simpl.
    rewrite IH; [reflexivity|]. intros m Hm. apply Hskip. now right.
Qed.

Lemma scan_first_fails (pre post : pydict json) (node_id title : string)
    (node : json) (e : exn) :
  (forall n, In n (Doc.nodes pre) -> visit_node n = Return Patch.Skip) ->
  visit_node node = Return (Patch.Fails e title) ->
  Patch.scan visit_node (pre ++ (node_id, node) :: post)%list =
  Return (Patch.Failed node_id title e).
Proof.
  intros Hskip Hfails.
  induction pre as [|[i n] pre IH]; simpl.
  - now rewrite Hfails.
  - rewrite (Hskip n) by now left. simpl.
    rewrite IH; [reflexivity|]. intros m Hm. apply Hskip. now right.
Qed.

(** A walk never adds, removes or reorders node identifiers. *)
Lemma scan_keeps_keys (items items' : pydict json) (node_id title : string) :
  Patch.scan visit_node items = Return (Patch.Patched node_id title items') ->
  Dict.keys items' = Dict.keys items.
Proof.
  revert items'.
  induction items as [|[i n] rest IH]; simpl; intros items' H; [discriminate|].
  destruct (visit_node n) as [[|node' t|e t]| |]; simpl in H; try discriminate.
  - destruct (Patch.scan visit_node rest) as [[|i' t' rest'|i' t' e]| |];
      simpl in H; try discriminate.
    injection H as <- <- <-. simpl. f_equal. now apply (IH rest').
  - injection H as <- <- <-. reflexivity.
Qed.

End Scan.

Lemma forallb_nodes (p : json -> bool) (items : pydict json) :
  forallb p (Doc.nodes items) = true ->
  forall n, In n (Doc.nodes items) -> p n = true.
Proof. intros H. now apply forallb_forall. Qed.

Lemma existsb_nodes_false (p : json -> bool) (items : pydict json) :
  existsb p (Doc.nodes items) = false ->
  forall n, In n (Doc.nodes items) -> p n = false.
Proof.
  intros H n Hn. destruct (p n) eqn:E; [|reflexivity].
  assert (existsb p (Doc.nodes items) = true) by (apply existsb_exists; eauto).
  congruence.
Qed.

(** Overwriting an input touches nothing else in the node. *)
Lemma with_input_fields (node : json) (k : string) (v : json) :
  Doc.is_record node = true ->
  Dict.has (Doc.inputs_of node) k = true ->
  Doc.input (Doc.with_input node k v) k = Some v
  /\ (forall k', k' <> k ->
        Doc.input (Doc.with_input node k v) k' = Doc.input node k')
  /\ (forall f, f <> "inputs" ->
        Doc.field (Doc.with_input node k v) f = Doc.field node f)
  /\ Dict.keys (Doc.inputs_of (Doc.with_input node k v)) = Dict.keys (Doc.inputs_of node)
  /\ (forall fields fields', node = JDict fields ->
        Doc.with_input node k v = JDict fields' ->
        Dict.keys fields' = Dict.keys fields).
Proof.
  destruct node as [| | | | |l|fields]; try discriminate.
  intros _ Hhas.
  assert (Hin : Doc.inputs_of (Doc.with_input (JDict fields) k v)
                = Dict.set (Doc.inputs_of (JDict fields)) k v).
  { unfold Doc.inputs_of at 1. simpl. now rewrite dict_get_set_same. }
  repeat split.
  - unfold Doc.input. rewrite Hin. apply dict_get_set_same.
  - intros k' Hk'. unfold Doc.input. rewrite Hin. now apply dict_get_set_other.
  - intros f Hf. simpl. now apply dict_get_set_other.
  - rewrite Hin. now apply dict_keys_set_present.
  - intros fs fs' Hfs Hfs'. injection Hfs as <-. simpl in Hfs'.
    injection Hfs' as <-. apply dict_keys_set_present.
    unfold Doc.inputs_of, Doc.field in Hhas. unfold Dict.has.
    destruct (Dict.get fields "inputs"); [reflexivity|discriminate].
Qed.

End PatcherFacts.

Section PatcherTheorems.

(** C4. On a workflow document, the prompt patcher takes the first
    node, in iteration order, that is a text-encoding node whose title
    does not contain "negative" (in any case) and whose inputs have a
    [text] field: it overwrites that node's [text] input with the
    supplied string and stops.  The chosen node is not negative-titled,
    the nodes before and after it (later candidates included) are left
    as they were, and within the chosen node every other input, every
    other field and the order of keys are unchanged. *)
Theorem prompt_patcher_first_target
    (pre post : pydict json) (node_id : string) (node : json)
    (prompt_text : string) (w : World) :
  document w = JDict (pre ++ (node_id, node) :: post)%list ->
  forallb Doc.record_or_scalar (Doc.nodes (pre ++ [(node_id, node)])%list) = true ->
  existsb Doc.prompt_target (Doc.nodes pre) = false ->
  Doc.prompt_target node = true ->
  let node' := Doc.with_input node "text" (JStr prompt_text) in
  let workflow' := (pre ++ (node_id, node') :: post)%list in
  (exists msg,
      patch_prompt_text_node prompt_text w =
      (Return tt, set_document (JDict workflow') (emit (Log INFO msg) w)))
  /\ document (snd (patch_prompt_text_node prompt_text w)) = JDict workflow'
  /\ Str.contains "negative" (Str.lower (Doc.title_of node)) = false
  /\ Doc.input node' "text" = Some (JStr prompt_text)
  /\ (forall k, k <> "text" -> Doc.input node' k = Doc.input node k)
  /\ (forall f, f <> "inputs" -> Doc.field node' f = Doc.field node f)
  /\ Dict.keys (Doc.inputs_of node') = Dict.keys (Doc.inputs_of node)
  /\ (forall i, i <> node_id ->
        Dict.get workflow' i = Dict.get (pre ++ (node_id, node) :: post)%list i)
  /\ Dict.keys workflow' = Dict.keys (pre ++ (node_id, node) :: post)%list.
Proof.
  intros Hdoc Htyped Hpre Htarget node' workflow'.
  unfold Doc.nodes in Htyped. rewrite map_app, forallb_app in Htyped.
  apply andb_prop in Htyped as [Htpre Htnode]. simpl in Htnode.
  rewrite andb_true_r in Htnode.
  assert (Hrec : Doc.is_record node = true /\
                 Str.contains "negative" (Str.lower (Doc.title_of node)) = false /\
                 Dict.has (Doc.inputs_of node) "text" = true).
  { unfold Doc.prompt_target in Htarget.
    repeat (apply andb_prop in Htarget as [Htarget ?]).
    repeat split; auto. now apply negb_true_iff. }
  destruct Hrec as (Hrec & Hneg & Hhas).
  destruct (with_input_fields node "text" (JStr prompt_text) Hrec Hhas)
    as (Hset & Hothers & Hfields & Hkeys & _).
  assert (Hrun : patch_prompt_text_node prompt_text w =
                 (Return tt,
                  set_document (JDict workflow')
                    (emit (Log INFO ("Patching CLIPTextEncode node " ++ node_id
                                     ++ " (title: " ++ Str.lower (Doc.title_of node)
                                     ++ ") with new prompt.")) w))).
  { unfold patch_prompt_text_node. rewrite Hdoc. simpl.
    unfold Patch.prompt_scan.
    rewrite (scan_first_store _ pre post node_id
               (Str.lower (Doc.title_of node)) node node').
    + reflexivity.
    + intros n Hn. rewrite prompt_visit_typed.
      * now rewrite (existsb_nodes_false _ _ Hpre n Hn).
      * now apply (forallb_nodes _ pre).
    + rewrite prompt_visit_typed by assumption. now rewrite Htarget. }
  split; [eexists; exact Hrun|].
  split; [now rewrite Hrun|].
  repeat split; auto.
  - intros i Hi. now apply dict_get_middle_other.
  - apply dict_keys_middle.
Qed.

(** C4, on the sample workflow: node "7" is negative-titled, node "6"
    is patched, node "8" is an untouched later candidate. *)
Lemma prompt_patcher_first_target_witness :
  let node' := Doc.with_input Sample.positive_node "text" (JStr "a dog") in
  let workflow' :=
    [("3", Sample.sampler_node); ("7", Sample.negative_node); ("6", node');
     ("8", Sample.positive_node)] in
  (exists msg,
      patch_prompt_text_node "a dog" (Sample.world_with (JDict Sample.workflow)) =
      (Return tt, set_document (JDict workflow')
                    (emit (Log INFO msg) (Sample.world_with (JDict Sample.workflow)))))
  /\ document (snd (patch_prompt_text_node "a dog"
                      (Sample.world_with (JDict Sample.workflow))))
     = JDict workflow'
  /\ Str.contains "negative" (Str.lower (Doc.title_of Sample.positive_node)) = false
  /\ Doc.input node' "text" = Some (JStr "a dog")
  /\ (forall k, k <> "text" -> Doc.input node' k = Doc.input Sample.positive_node k)
  /\ (forall f, f <> "inputs" -> Doc.field node' f = Doc.field Sample.positive_node f)
  /\ Dict.keys (Doc.inputs_of node') = Dict.keys (Doc.inputs_of Sample.positive_node)
  /\ (forall i, i <> "6" -> Dict.get workflow' i = Dict.get Sample.workflow i)
  /\ Dict.keys workflow' = Dict.keys Sample.workflow.
Proof.
  exact (prompt_patcher_first_target
           [("3", Sample.sampler_node); ("7", Sample.negative_node)]
           [("8", Sample.positive_node)] "6" Sample.positive_node "a dog"
           (Sample.world_with (JDict Sample.workflow))
           eq_refl eq_refl eq_refl eq_refl).
Defined.

(** C5. On a workflow document with no eligible node, each patcher
    raises its [ValueError] (the NodeNotFound error) and the world,
    the document included, is exactly what it was.  Whatever a patcher
    does, the document keeps its node identifiers: no node is created. *)
Theorem patchers_not_found_atomic
    (doc : pydict json) (prompt_text : string) (image_info : json) (w : World) :
  document w = JDict doc ->
  (forallb Doc.record_or_scalar (Doc.nodes doc) = true ->
   existsb Doc.prompt_target (Doc.nodes doc) = false ->
   patch_prompt_text_node prompt_text w = (Raise no_prompt_node, w))
  /\ (forallb Doc.node_record (Doc.nodes doc) = true ->
      existsb Doc.image_target (Doc.nodes doc) = false ->
      patch_load_image_node image_info w = (Raise no_image_node, w))
  /\ (forall r w', patch_prompt_text_node prompt_text w = (r, w') ->
      exists doc', document w' = JDict doc' /\ Dict.keys doc' = Dict.keys doc)
  /\ (forall r w', patch_load_image_node image_info w = (r, w') ->
      exists doc', document w' = JDict doc' /\ Dict.keys doc' = Dict.keys doc).
Proof.
  intros Hdoc. repeat split.
  - intros Htyped Hnone. unfold patch_prompt_text_node. rewrite Hdoc. simpl.
    unfold Patch.prompt_scan. rewrite scan_all_skipped; [reflexivity|].
    intros n Hn. rewrite prompt_visit_typed.
    + now rewrite (existsb_nodes_false _ _ Hnone n Hn).
    + now apply (forallb_nodes _ doc).
  - intros Htyped Hnone. unfold patch_load_image_node. rewrite Hdoc. simpl.
    unfold Patch.image_scan. rewrite scan_all_skipped; [reflexivity|].
    intros n Hn. rewrite image_visit_typed.
    + now rewrite (existsb_nodes_false _ _ Hnone n Hn).
    + now apply (forallb_nodes _ doc).
  - intros r w'. unfold patch_prompt_text_node. rewrite Hdoc. simpl.
    destruct (Patch.prompt_scan doc prompt_text) as [[|i t doc'|i t e]| |] eqn:E;
      intros H; injection H as <- <-; simpl; eauto.
    exists doc'. split; [reflexivity|].
    now apply (scan_keeps_keys _ _ _ _ _ E).
  - intros r w'. unfold patch_load_image_node. rewrite Hdoc. simpl.
    destruct (Patch.image_scan doc image_info) as [[|i t doc'|i t e]| |] eqn:E;
      intros H; injection H as <- <-; simpl; eauto.
    exists doc'. split; [reflexivity|].
    now apply (scan_keeps_keys _ _ _ _ _ E).
Qed.

(** C5, on a workflow with a sampler and a negative prompt only. *)
Lemma patchers_not_found_atomic_witness :
  let w := Sample.world_with (JDict Sample.bare_workflow) in
  let info := JDict [("name", JStr "upload.png")] in
  patch_prompt_text_node "a dog" w = (Raise no_prompt_node, w)
  /\ patch_load_image_node info w = (Raise no_image_node, w)
  /\ (forall r w', patch_prompt_text_node "a dog" w = (r, w') ->
      exists doc', document w' = JDict doc'
                   /\ Dict.keys doc' = Dict.keys Sample.bare_workflow)
  /\ (forall r w', patch_load_image_node info w = (r, w') ->
      exists doc', document w' = JDict doc'
                   /\ Dict.keys doc' = Dict.keys Sample.bare_workflow).
Proof.
  intros w info.
  destruct (patchers_not_found_atomic Sample.bare_workflow "a dog" info w eq_refl)
    as (Hprompt & Himage & Hkeys1 & Hkeys2).
  split; [|split; [|split]].
  - apply Hprompt; reflexivity.
  - apply Himage; reflexivity.
  - exact Hkeys1.
  - exact Hkeys2.
Defined.

End PatcherTheorems.

(** ** The polling loop *)

Section PollingFacts.
Variable env : Env.
Variable self : ComfyUIClient.
Variable prompt_id : json.

Lemma catchable_bind {A B : Type} (c : outcome A) (k : A -> outcome B) :
  catchable c -> (forall a, catchable (k a)) -> catchable (obind c k).
Proof. destruct c; simpl; auto. Qed.

Lemma catchable_member (k x : json) : catchable (PyOps.member k x).
Proof. destruct x; destruct k; simpl; first [exact I | reflexivity]. Qed.

Lemma catchable_subscript (repr : json -> string) (x k : json) :
  catchable (PyOps.subscript repr x k).
Proof.
  unfold PyOps.subscript, PyOps.type_error.
  repeat (first [ exact I | reflexivity | case_match ]).
Qed.

Lemma catchable_get (x : json) (k : string) (default : json) :
  catchable (PyOps.get x k default).
Proof. destruct x; simpl; first [exact I | reflexivity]. Qed.

Lemma catchable_getitem (x : json) (k : string) : catchable (PyOps.getitem x k).
Proof.
  unfold PyOps.getitem, PyOps.type_error.
  repeat (first [ exact I | reflexivity | case_match ]).
Qed.

Lemma completed_catchable (history : json) :
  catchable (completed env history prompt_id).
Proof.
  unfold completed.
  apply catchable_bind; [apply catchable_member|]. intros [|]; [|exact I].
  apply catchable_bind; [apply catchable_subscript|]. intros entry.
  apply catchable_bind; [apply catchable_get|]. intros outputs.
  destruct (Py.truthy outputs); [|exact I].
  apply catchable_bind; [apply catchable_subscript|]. intros entry'.
  apply catchable_bind; [apply catchable_getitem|]. intros result. exact I.
Qed.

(** Whatever [completed] raises is caught by [except Exception]. *)
Lemma completed_raises_exception (history : json) (e : exn) :
  completed env history prompt_id = Raise e -> isinstance e Exception = true.
Proof.
  intros H. pose proof (completed_catchable history) as Hc.
  now rewrite H in Hc.
Qed.

Lemma completed_has_fuel (history : json) :
  completed env history prompt_id <> OutOfFuel.
Proof.
  intros H. pose proof (completed_catchable history) as Hc.
  now rewrite H in Hc.
Qed.

(** What [completed] returns passed the truth test. *)
Lemma completed_truthy (history outputs : json) :
  completed env history prompt_id = Return (Some outputs) ->
  Py.truthy outputs = true.
Proof.
  unfold completed.
  destruct (PyOps.member prompt_id history) as [[|]| |]; simpl; try discriminate.
  destruct (PyOps.subscript (py_repr env) history prompt_id) as [entry| |];
    simpl; try discriminate.
  destruct entry as [| | | | | |d]; simpl; try discriminate.
  destruct (Dict.get d "outputs") as [v|]; simpl; [|discriminate].
  destruct (Py.truthy v) eqn:T; [|discriminate].
  intros H. injection H as <-. exact T.
Qed.

(** One pass through the [try]: one request, the clock advanced by the
    time the request took, and the value and log of [classify_poll]. *)
Lemma poll_once_view (w : World) :
  poll_once env self prompt_id w =
  (Return (poll_value (classify_poll env self prompt_id (calls w))),
   mkWorld (now w + Z.of_N (urlopen_ticks env (calls w))) (S (calls w))
           (trace w ++ history_request env self prompt_id
                       :: poll_log (classify_poll env self prompt_id (calls w)))
           (dirs w) (document w) (files w)).
Proof.
  unfold poll_once, try_except, get_history, bind, urlopen, classify_poll, loads.
  destruct (urlopen_reply env (calls w) _) as [status reason body|reason]; simpl.
  - destruct ((200 <=? status) && (status <? 300)); simpl.
    + destruct (json_loads env body) as [history|err]; simpl.
      * unfold ret, lift. simpl.
        destruct (completed env history prompt_id) as [[o|]|e|] eqn:E; simpl.
        -- unfold logging, emit, interact. simpl. now rewrite <- app_assoc.
        -- reflexivity.
        -- rewrite (completed_raises_exception _ _ E). simpl.
           unfold logging, emit, interact. simpl. now rewrite <- app_assoc.
        -- now apply completed_has_fuel in E.
      * unfold raise. destruct err; simpl; unfold logging, emit, interact, ret;
          simpl; now rewrite <- app_assoc.
    + unfold logging, emit, interact, ret. simpl. now rewrite <- app_assoc.
  - unfold logging, emit, interact, ret. simpl. now rewrite <- app_assoc.
Qed.

Lemma wait_loop_deadline (fuel : nat) (start_time timeout interval : Z) (w : World) :
  timeout <= now w - start_time ->
  wait_loop env (S fuel) self prompt_id start_time timeout interval w =
  (Raise timed_out, w).
Proof.
  intros H. simpl. unfold bind, time_time. simpl.
  destruct (now w - start_time <? timeout) eqn:E; [|reflexivity].
  apply Z.ltb_lt in E. lia.
Qed.

Lemma wait_loop_done (fuel : nat) (start_time timeout interval : Z) (w : World)
    (outputs : json) :
  now w - start_time < timeout ->
  classify_poll env self prompt_id (calls w) = Outputs outputs ->
  wait_loop env (S fuel) self prompt_id start_time timeout interval w =
  (Return outputs,
   mkWorld (now w + Z.of_N (urlopen_ticks env (calls w))) (S (calls w))
           (trace w ++ [history_request env self prompt_id;
                        Log INFO "Prompt execution completed."])
           (dirs w) (document w) (files w)).
Proof.
  intros Ht Hc. simpl. unfold bind at 1, time_time. simpl.
  apply Z.ltb_lt in Ht. rewrite Ht.
  unfold bind. rewrite poll_once_view, Hc. reflexivity.
Qed.

Lemma wait_loop_pending (fuel : nat) (start_time timeout interval : Z) (w : World) :
  now w - start_time < timeout ->
  0 <= interval ->
  reports_outputs env self prompt_id (calls w) = false ->
  wait_loop env (S fuel) self prompt_id start_time timeout interval w =
  wait_loop env fuel self prompt_id start_time timeout interval
            (after_pending env self prompt_id interval w).
Proof.
  intros Ht Hi Hc. simpl. unfold bind at 1, time_time. simpl.
  apply Z.ltb_lt in Ht. rewrite Ht.
  unfold bind at 1. rewrite poll_once_view.
  unfold reports_outputs in Hc.
  assert (Hv : poll_value (classify_poll env self prompt_id (calls w)) = None).
  { destruct (classify_poll env self prompt_id (calls w)); [discriminate| |]; reflexivity. }
  rewrite Hv. unfold bind at 1, time_sleep.
  assert (Hs : (interval <? 0) = false) by (apply Z.ltb_ge; lia).
  rewrite Hs. unfold after_pending, pending_events, iteration_ticks, interact, emit.
  simpl. rewrite <- app_assoc. simpl.
  do 2 f_equal. lia.
Qed.

Lemma count_polls_app (a b : list event) :
  count_polls (a ++ b) = (count_polls a + count_polls b)%nat.
Proof. unfold count_polls. now rewrite filter_app, length_app. Qed.

Lemma count_sleeps_app (a b : list event) :
  count_sleeps (a ++ b) = (count_sleeps a + count_sleeps b)%nat.
Proof. unfold count_sleeps. now rewrite filter_app, length_app. Qed.

Lemma count_polls_pending (interval : Z) (n : nat) :
  count_polls (pending_events env self prompt_id interval n) = 1%nat.
Proof.
  unfold pending_events, history_request, poll_log.
  destruct (classify_poll env self prompt_id n); reflexivity.
Qed.

Lemma count_sleeps_pending (interval : Z) (n : nat) :
  count_sleeps (pending_events env self prompt_id interval n) = 1%nat.
Proof.
  unfold pending_events, history_request, poll_log.
  destruct (classify_poll env self prompt_id n); reflexivity.
Qed.

Lemma iteration_ticks_lower (interval : Z) (n : nat) :
  interval <= iteration_ticks env interval n.
Proof. unfold iteration_ticks. lia. Qed.

Lemma elapsed_after_nonneg (interval : Z) (n k : nat) :
  0 <= interval -> 0 <= elapsed_after env interval n k.
Proof.
  intros Hi. revert n. induction k as [|k IH]; intros n; simpl; [lia|].
  pose proof (iteration_ticks_lower interval n). pose proof (IH (S (S n))). lia.
Qed.

(** Against a source that never reports outputs the loop ends in
    [TimeoutError], once the deadline has passed; every iteration
    issues exactly one poll. *)
Lemma wait_loop_times_out (start_time timeout interval : Z) :
  0 < interval ->
  (forall n, reports_outputs env self prompt_id n = false) ->
  forall (fuel : nat) (w : World),
    timeout - (now w - start_time) <= Z.of_nat fuel * interval ->
    exists w' evs,
      wait_loop env (S fuel) self prompt_id start_time timeout interval w
      = (Raise timed_out, w')
      /\ trace w' = (trace w ++ evs)%list
      /\ timeout <= now w' - start_time
      /\ now w <= now w'
      /\ (now w - start_time < timeout -> (1 <= count_polls evs)%nat)
      /\ (forall D, (forall n, iteration_ticks env interval n <= D) ->
                    timeout - (now w - start_time) <= Z.of_nat (count_polls evs) * D).
Proof.
  intros Hi Hnever fuel.
  induction fuel as [|fuel IH]; intros w Hfuel.
  - exists w, []. rewrite wait_loop_deadline by lia.
    rewrite app_nil_r. repeat split; try lia. intros D _. simpl. lia.
  - destruct (Z_lt_le_dec (now w - start_time) timeout) as [Hlt|Hge].
    + rewrite wait_loop_pending by (auto; lia).
      pose proof (iteration_ticks_lower interval (calls w)) as Hlow.
      destruct (IH (after_pending env self prompt_id interval w))
        as (w' & evs & Hrun & Htr & Hdl & Hmono & _ & Hcount).
      { change (now (after_pending env self prompt_id interval w))
          with (now w + iteration_ticks env interval (calls w)). lia. }
      exists w', (pending_events env self prompt_id interval (calls w) ++ evs)%list.
      assert (Hnow : now (after_pending env self prompt_id interval w)
                     = now w + iteration_ticks env interval (calls w)) by reflexivity.
      assert (Htrace : trace (after_pending env self prompt_id interval w)
                       = (trace w ++ pending_events env self prompt_id interval (calls w))%list)
        by reflexivity.
      rewrite Htrace in Htr. rewrite Hnow in Hmono, Hcount.
      rewrite count_polls_app, count_polls_pending.
      split; [exact Hrun|]. split; [now rewrite Htr, app_assoc|].
      repeat split; try lia.
      intros D HD. specialize (Hcount D HD). specialize (HD (calls w)). lia.
    + exists w, []. rewrite wait_loop_deadline by lia.
      rewrite app_nil_r. repeat split; try lia. intros D _. simpl. lia.
Qed.

End PollingFacts.

Section PollingTheorems.
Variable env : Env.
Variable self : ComfyUIClient.
Variable prompt_id : json.

Lemma wait_loop_returns (start_time timeout interval : Z) (outputs : json) :
  0 <= interval ->
  forall (k : nat) (w : World) (fuel : nat),
    (forall j, (j < k)%nat ->
               reports_outputs env self prompt_id (calls w + 2 * j) = false) ->
    classify_poll env self prompt_id (calls w + 2 * k) = Outputs outputs ->
    now w - start_time + elapsed_after env interval (calls w) k < timeout ->
    (k < fuel)%nat ->
    exists w' evs,
      wait_loop env fuel self prompt_id start_time timeout interval w
      = (Return outputs, w')
      /\ trace w' = (trace w ++ evs ++ [history_request env self prompt_id;
                                        Log INFO "Prompt execution completed."])%list
      /\ count_polls evs = k
      /\ count_sleeps evs = k
      /\ (forall j e, (j < k)%nat ->
            classify_poll env self prompt_id (calls w + 2 * j) = PollError e ->
            In (Log WARNING ("Polling error: " ++ exn_str e)) evs).
Proof.
  intros Hi. induction k as [|k IH]; intros w fuel Hpend Hdone Htime Hfuel.
  - destruct fuel as [|fuel]; [lia|].
    replace (calls w + 2 * 0)%nat with (calls w) in Hdone by lia.
    simpl in Htime.
    eexists. exists [].
    rewrite (wait_loop_done env self prompt_id fuel _ _ _ w outputs) by (auto; lia).
    repeat split; try reflexivity. intros j e Hj. lia.
  - destruct fuel as [|fuel]; [lia|].
    simpl in Htime.
    pose proof (elapsed_after_nonneg env interval (S (S (calls w))) k Hi) as Hnn.
    pose proof (iteration_ticks_lower env interval (calls w)) as Hlow.
    assert (H0 : reports_outputs env self prompt_id (calls w) = false).
    { replace (calls w) with (calls w + 2 * 0)%nat by lia. apply Hpend. lia. }
    rewrite wait_loop_pending by (auto; lia).
    assert (Hcalls : calls (after_pending env self prompt_id interval w)
                     = S (S (calls w))) by reflexivity.
    assert (Hnow : now (after_pending env self prompt_id interval w)
                   = now w + iteration_ticks env interval (calls w)) by reflexivity.
    assert (Htrace : trace (after_pending env self prompt_id interval w)
                     = (trace w ++ pending_events env self prompt_id interval (calls w))%list)
      by reflexivity.
    destruct (IH (after_pending env self prompt_id interval w) fuel)
      as (w' & evs & Hrun & Htr & Hp & Hs & Hwarn).
    + intros j Hj. rewrite Hcalls.
      replace (S (S (calls w)) + 2 * j)%nat with (calls w + 2 * S j)%nat by lia.
      apply Hpend. lia.
    + rewrite Hcalls.
      replace (S (S (calls w)) + 2 * k)%nat with (calls w + 2 * S k)%nat by lia.
      exact Hdone.
    + rewrite Hcalls, Hnow. lia.
    + lia.
    + exists w', (pending_events env self prompt_id interval (calls w) ++ evs)%list.
      rewrite Htrace in Htr.
      split; [exact Hrun|].
      split; [rewrite Htr; now rewrite <- !app_assoc|].
      split; [rewrite count_polls_app, count_polls_pending; lia|].
      split; [rewrite count_sleeps_app, count_sleeps_pending; lia|].
      intros j e Hj Hje. apply in_or_app.
      destruct j as [|j].
      * left. replace (calls w + 2 * 0)%nat with (calls w) in Hje by lia.
        unfold pending_events. rewrite Hje. simpl. auto.
      * right. apply (Hwarn j e); [lia|]. rewrite Hcalls.
        replace (S (S (calls w)) + 2 * j)%nat with (calls w + 2 * S j)%nat by lia.
        exact Hje.
Qed.

Lemma classified_outputs_truthy (n : nat) (outputs : json) :
  classify_poll env self prompt_id n = Outputs outputs -> Py.truthy outputs = true.
Proof.
  unfold classify_poll.
  destruct (urlopen_reply env n _) as [status reason body|reason]; [|discriminate].
  destruct ((200 <=? status) && (status <? 300)); [|discriminate].
  destruct (json_loads env body) as [history|err]; [|discriminate].
  destruct (completed env history prompt_id) as [[o|]| |] eqn:E; try discriminate.
  intros H. injection H as <-. now apply (completed_truthy env prompt_id history).
Qed.

(** C7. A poll and a sleep alternate, so the polls of a run that starts
    at interaction [calls w] are the interactions [calls w + 2 j].
    When the polls before the (k+1)-th report no outputs, the (k+1)-th
    reports a non-empty [outputs] and starts within the deadline, then
    [wait_for_execution] returns exactly that value on that poll:
    it issued k+1 polls and k sleeps, and nothing follows the last
    poll but the completion log.  Every earlier poll that failed
    (network failure, malformed response, ill-shaped history) left a
    warning in the log and the loop went on. *)
Theorem wait_returns_on_first_outputs
    (timeout interval : Z) (w : World) (k fuel : nat) (outputs : json) :
  0 <= interval ->
  (forall j, (j < k)%nat ->
             reports_outputs env self prompt_id (calls w + 2 * j) = false) ->
  classify_poll env self prompt_id (calls w + 2 * k) = Outputs outputs ->
  elapsed_after env interval (calls w) k < timeout ->
  (k < fuel)%nat ->
  exists w' evs,
    wait_for_execution env fuel self prompt_id timeout interval w
    = (Return outputs, w')
    /\ Py.truthy outputs = true
    /\ trace w' = (trace w ++ evs ++ [history_request env self prompt_id;
                                      Log INFO "Prompt execution completed."])%list
    /\ count_polls evs = k
    /\ count_sleeps evs = k
    /\ (forall j e, (j < k)%nat ->
          classify_poll env self prompt_id (calls w + 2 * j) = PollError e ->
          In (Log WARNING ("Polling error: " ++ exn_str e)) evs).
Proof.
  intros Hi Hpend Hdone Htime Hfuel.
  set (w1 := emit (Log INFO ("Waiting for prompt " ++ py_str env prompt_id ++ " to complete...")) w).
  destruct (wait_loop_returns (now w) timeout interval outputs Hi k w1 fuel)
    as (w' & evs & Hrun & Htr & Hp & Hs & Hwarn); auto.
  - simpl. lia.
  - exists w', (Log INFO ("Waiting for prompt " ++ py_str env prompt_id ++ " to complete...") :: evs).
    split; [exact Hrun|].
    split; [now apply (classified_outputs_truthy (calls w + 2 * k))|].
    split; [rewrite Htr; simpl; now rewrite <- app_assoc|].
    split; [exact Hp|]. split; [exact Hs|].
    intros j e Hj Hje. right. now apply (Hwarn j e).
Qed.

(** C10. With a timeout that is zero or negative the loop condition
    fails at once: [TimeoutError] is raised, the clock has not moved,
    and the only event is the log line written before the loop, so the
    history endpoint is never polled. *)
Theorem wait_nonpositive_timeout
    (timeout interval : Z) (w : World) (fuel : nat) :
  timeout <= 0 ->
  let w' := emit (Log INFO ("Waiting for prompt " ++ py_str env prompt_id ++ " to complete...")) w in
  wait_for_execution env (S fuel) self prompt_id timeout interval w
  = (Raise timed_out, w')
  /\ class_of timed_out = TimeoutError
  /\ now w' = now w
  /\ calls w' = calls w
  /\ count_polls (trace w') = count_polls (trace w).
Proof.
  intros Ht w'. split; [|repeat split].
  - unfold wait_for_execution, bind, time_time, logging. simpl.
    apply wait_loop_deadline. simpl. lia.
  - unfold w', emit. cbn [trace]. rewrite count_polls_app.
    apply Nat.add_0_r.
Qed.

(** C3 (as amended). For T > 0 and I > 0, against a source that never
    reports outputs, [wait_for_execution] raises [TimeoutError], not
    before T ticks have passed since the call, after at least one
    poll.  The number of polls is bounded below by the clock, not by
    T/I: if no iteration (poll plus sleep) takes more than D ticks,
    then polls * D >= T; so at least floor(T/I) polls are issued when
    requests take no time and sleeps are exact. *)
Theorem wait_times_out_after_deadline
    (timeout interval : Z) (w : World) (fuel : nat) :
  0 < timeout ->
  0 < interval ->
  (forall n, reports_outputs env self prompt_id n = false) ->
  timeout <= Z.of_nat fuel * interval ->
  exists w' evs,
    wait_for_execution env (S fuel) self prompt_id timeout interval w
    = (Raise timed_out, w')
    /\ class_of timed_out = TimeoutError
    /\ trace w' = (trace w ++ evs)%list
    /\ timeout <= now w' - now w
    /\ (1 <= count_polls evs)%nat
    /\ (forall D, (forall n, iteration_ticks env interval n <= D) ->
                  timeout <= Z.of_nat (count_polls evs) * D)
    /\ ((forall n, urlopen_ticks env n = 0%N /\ sleep_late env n = 0%N) ->
        timeout / interval <= Z.of_nat (count_polls evs)).
Proof.
  intros Ht Hi Hnever Hfuel.
  set (w1 := emit (Log INFO ("Waiting for prompt " ++ py_str env prompt_id ++ " to complete...")) w).
  destruct (wait_loop_times_out env self prompt_id (now w) timeout interval Hi Hnever fuel w1)
    as (w' & evs & Hrun & Htr & Hdl & _ & Hone & Hcount).
  { simpl. lia. }
  simpl in Hone, Hcount.
  rewrite Z.sub_diag in Hone, Hcount. rewrite Z.sub_0_r in Hcount.
  exists w', (Log INFO ("Waiting for prompt " ++ py_str env prompt_id ++ " to complete...") :: evs).
  change (count_polls (Log INFO ("Waiting for prompt " ++ py_str env prompt_id ++ " to complete...") :: evs))
    with (count_polls evs).
  split; [exact Hrun|]. split; [reflexivity|].
  split; [rewrite Htr; simpl; now rewrite <- app_assoc|].
  split; [exact Hdl|]. split; [now apply Hone|]. split; [exact Hcount|].
  intros Hexact. apply Z.div_le_upper_bound; [lia|].
  rewrite Z.mul_comm. apply Hcount.
  intros n. unfold iteration_ticks.
  destruct (Hexact n) as [-> _]. destruct (Hexact (S n)) as [_ ->]. simpl. lia.
Qed.

End PollingTheorems.

Section PollingExamples.

(** C7, on the flaky server: a refused connection, a body that is not
    JSON and a running job come first, the fourth poll reports node
    "9"; the two failures are in the log as warnings. *)
Lemma wait_returns_on_first_outputs_witness :
  exists w' evs,
    wait_for_execution Sample.flaky_env 4 Sample.client (JStr "p1") 300 5
                       (Sample.world_with JNull)
    = (Return Sample.outputs, w')
    /\ Py.truthy Sample.outputs = true
    /\ trace w' = ([] ++ evs ++ [history_request Sample.flaky_env Sample.client (JStr "p1");
                                 Log INFO "Prompt execution completed."])%list
    /\ count_polls evs = 3%nat
    /\ count_sleeps evs = 3%nat
    /\ (forall j e, (j < 3)%nat ->
          classify_poll Sample.flaky_env Sample.client (JStr "p1") (0 + 2 * j) = PollError e ->
          In (Log WARNING ("Polling error: " ++ exn_str e)) evs).
Proof.
  apply (wait_returns_on_first_outputs Sample.flaky_env Sample.client (JStr "p1")
           300 5 (Sample.world_with JNull) 3 4 Sample.outputs).
  - lia.
  - intros j Hj. destruct j as [|[|[|j]]]; [reflexivity | reflexivity | reflexivity | lia].
  - reflexivity.
  - reflexivity.
  - lia.
Defined.

(** C10, with the timeout at zero. *)
Lemma wait_nonpositive_timeout_witness :
  let w := Sample.world_with JNull in
  let w' := emit Sample.waiting w in
  wait_for_execution Sample.idle_env 1 Sample.client (JStr "p1") 0 5 w
  = (Raise timed_out, w')
  /\ class_of timed_out = TimeoutError
  /\ now w' = now w
  /\ calls w' = calls w
  /\ count_polls (trace w') = count_polls (trace w).
Proof.
  exact (wait_nonpositive_timeout Sample.idle_env Sample.client (JStr "p1") 0 5
           (Sample.world_with JNull) 0 (Z.le_refl 0)).
Defined.

(** C3 (as amended), on the idle server with T = 10 and I = 5. *)
Lemma wait_times_out_after_deadline_witness :
  exists w' evs,
    wait_for_execution Sample.idle_env 3 Sample.client (JStr "p1") 10 5
                       (Sample.world_with JNull)
    = (Raise timed_out, w')
    /\ class_of timed_out = TimeoutError
    /\ trace w' = ([] ++ evs)%list
    /\ 10 <= now w' - 0
    /\ (1 <= count_polls evs)%nat
    /\ (forall D, (forall n, iteration_ticks Sample.idle_env 5 n <= D) ->
                  10 <= Z.of_nat (count_polls evs) * D)
    /\ ((forall n, urlopen_ticks Sample.idle_env n = 0%N
                   /\ sleep_late Sample.idle_env n = 0%N) ->
        10 / 5 <= Z.of_nat (count_polls evs)).
Proof.
  apply (wait_times_out_after_deadline Sample.idle_env Sample.client (JStr "p1")
           10 5 (Sample.world_with JNull) 2).
  - lia.
  - lia.
  - intros n. reflexivity.
  - simpl. lia.
Defined.

(** C3 as stated fails: T = 10, I = 1, a source that never reports
    outputs and takes 20 ticks to answer.  The first poll alone
    outlasts the deadline, so one poll is issued, not floor(10/1). *)
Lemma wait_poll_count_counterexample :
  0 < 10 /\ 0 < 1
  /\ (forall n, reports_outputs Sample.slow_env Sample.client (JStr "p1") n = false)
  /\ exists w',
       wait_for_execution Sample.slow_env 11 Sample.client (JStr "p1") 10 1
                          (Sample.world_with JNull)
       = (Raise timed_out, w')
       /\ count_polls (trace w') = 1%nat
       /\ ~ (10 / 1 <= Z.of_nat (count_polls (trace w'))).
Proof.
  split; [lia|]. split; [lia|]. split; [intros n; reflexivity|].
  eexists. split; [vm_compute; reflexivity|].
  split; [reflexivity|].
  vm_compute. intros H. apply H. reflexivity.
Qed.

End PollingExamples.

(** ** Submission *)

Section SubmissionTheorems.
Variable env : Env.


End SubmissionTheorems.



(** ** The top level *)

Section TopLevelTheorems.
Variable env : Env.

(** C2 (as amended). Every failure of the pipeline that is an
    [Exception] (which the error kinds of the specification all are)
    is caught by [main]: one error line "Execution failed: ..." is
    logged after whatever the pipeline did, nothing is raised further,
    and [main] returns, so the process ends with exit status 0, the
    status of a successful run. *)
Theorem main_logs_and_returns (fuel : nat) (w w' : World) (e : exn) :
  run_prompt_pipeline env fuel (parse_arguments env) w = (Raise e, w') ->
  isinstance e Exception = true ->
  main env fuel w
  = (Return tt, emit (Log ERROR ("Execution failed: " ++ exn_str e)) w')
  /\ exit_status (fst (main env fuel w)) = Some 0
  /\ (issubclass FileNotFoundError Exception = true
      /\ issubclass ValueError Exception = true
      /\ issubclass HTTPError Exception = true
      /\ issubclass TimeoutError Exception = true
      /\ issubclass URLError Exception = true).
Proof.
  intros Hrun Hexc.
  assert (Hmain : main env fuel w
                  = (Return tt, emit (Log ERROR ("Execution failed: " ++ exn_str e)) w')).
  { unfold main, try_except, bind, ret. rewrite Hrun. simpl.
    rewrite Hexc. reflexivity. }
  split; [exact Hmain|]. split; [now rewrite Hmain|].
  repeat split; reflexivity.
Qed.

End TopLevelTheorems.

(** C2 (as amended), when the workflow file does not exist. *)
Lemma main_logs_and_returns_witness :
  let w := Sample.world_with JNull in
  let e := Exn FileNotFoundError "Workflow file not found: workflow1.json" in
  main Sample.no_file_env 10 w
  = (Return tt, emit (Log ERROR ("Execution failed: " ++ exn_str e)) w)
  /\ exit_status (fst (main Sample.no_file_env 10 w)) = Some 0
  /\ (issubclass FileNotFoundError Exception = true
      /\ issubclass ValueError Exception = true
      /\ issubclass HTTPError Exception = true
      /\ issubclass TimeoutError Exception = true
      /\ issubclass URLError Exception = true).
Proof.
  apply (main_logs_and_returns Sample.no_file_env 10 (Sample.world_with JNull)
           (Sample.world_with JNull)
           (Exn FileNotFoundError "Workflow file not found: workflow1.json")).
  - reflexivity.
  - reflexivity.
Defined.

(** C2 as stated fails: with the workflow file missing the pipeline
    fails at the top level, and the exit status is 0. *)
Lemma main_exit_status_counterexample :
  (exists e w', run_prompt_pipeline Sample.no_file_env 10
                  (parse_arguments Sample.no_file_env) (Sample.world_with JNull)
                = (Raise e, w')
                /\ class_of e = FileNotFoundError)
  /\ ~ (exists code,
          exit_status (fst (main Sample.no_file_env 10 (Sample.world_with JNull)))
          = Some code
          /\ code <> 0).
Proof.
  split.
  - eexists. eexists. split; reflexivity.
  - intros (code & Hcode & Hnz). vm_compute in Hcode.
    injection Hcode as <-. now apply Hnz.
Qed.

(** ** Uploads *)

(** C1 fails on the code: the object store rejects the credentials
    while [save_images] uploads the first of two images.  The
    [ClientError] is not among the classes [upload_to_s3] catches, so
    it leaves [save_images]: the first image is on disk, the second
    is never saved. *)
Theorem upload_client_error_escapes :
  exists w',
    save_images Sample.denied_env Sample.two_images (JStr "p1") (Sample.world_with JNull)
    = (Raise Sample.access_denied, w')
    /\ existsb (isinstance Sample.access_denied) [BotoCoreError; NoCredentialsError] = false
    /\ saves (trace w') = [("saved_images/p1/9_1.png", "first")]
    /\ logged ERROR (trace w') = [].
Proof.
  eexists. split; [vm_compute; reflexivity|].
  split; [reflexivity|]. split; reflexivity.
Qed.

(** The same run from the top: the failure surfaces in [main] as
    "Execution failed", and no image is displayed. *)
Lemma upload_client_error_fails_run :
  exists w',
    main Sample.denied_env 10 (Sample.world_with JNull) = (Return tt, w')
    /\ logged ERROR (trace w')
       = ["Execution failed: " ++ exn_str Sample.access_denied]
    /\ shows (trace w') = [].
Proof.
  eexists. split; [vm_compute; reflexivity|]. split; reflexivity.
Qed.

(** The sibling case the handler covers: credentials that cannot be
    found locally are logged and the run goes on. *)
Lemma upload_no_credentials_contained :
  exists w',
    save_images Sample.unsigned_env Sample.two_images (JStr "p1") (Sample.world_with JNull)
    = (Return tt, w')
    /\ saves (trace w') = [("saved_images/p1/9_1.png", "first");
                           ("saved_images/p1/9_2.png", "second")]
    /\ logged ERROR (trace w')
       = ["Failed to upload to S3: Unable to locate credentials";
          "Failed to upload to S3: Unable to locate credentials"].
Proof.
  eexists. split; [vm_compute; reflexivity|]. split; reflexivity.
Qed.

(** ** The artifact sink *)

Section PathFacts.

Lemma contains_unfold (needle hay : string) :
  Str.contains needle hay =
  if String.prefix needle hay then true
  else match hay with
       | EmptyString => false
       | String _ t => Str.contains needle t
       end.
Proof. destruct hay; reflexivity. Qed.

Lemma no_slash_no_prefix (s : string) :
  Str.contains "/" s = false -> Str.starts_with "/" s = false.
Proof.
  unfold Str.starts_with. rewrite contains_unfold.
  destruct (String.prefix "/" s); [discriminate|reflexivity].
Qed.

Lemma prefix_slash (c : ascii) (t : string) :
  String.prefix "/" (String c t) = Ascii.eqb "/" c.
Proof.
  change (String.prefix "/" (String c t))
    with (if Ascii.ascii_dec "/" c then String.prefix "" t else false).
  destruct (Ascii.ascii_dec "/" c) as [Heq|Hne].
  - rewrite <- Heq. destruct t; reflexivity.
  - symmetry. now apply Ascii.eqb_neq.
Qed.

Lemma no_slash_no_suffix (s : string) :
  Str.contains "/" s = false -> Str.ends_with_char "/" s = false.
Proof.
  induction s as [|c t IH]; [reflexivity|].
  rewrite contains_unfold, prefix_slash.
  destruct (Ascii.eqb "/" c) eqn:E; [discriminate|].
  intros H. simpl. destruct t as [|d t'].
  - exact E.
  - now apply IH.
Qed.

Lemma ends_with_char_append (c : ascii) (a b : string) :
  b <> "" -> Str.ends_with_char c (a ++ b) = Str.ends_with_char c b.
Proof.
  intros Hb. induction a as [|x a IH]; [reflexivity|].
  simpl. destruct (a ++ b) eqn:E.
  - destruct a; simpl in E; [contradiction|discriminate].
  - exact IH.
Qed.

Lemma starts_with_slash_append (a b : string) :
  a <> "" -> Str.starts_with "/" (a ++ b) = Str.starts_with "/" a.
Proof.
  unfold Str.starts_with. destruct a as [|c t]; [contradiction|].
  intros _. change (String c t ++ b) with (String c (t ++ b)).
  now rewrite !prefix_slash.
Qed.

Lemma plain_name_parts (s : string) :
  plain_name s = true -> s <> "" /\ Str.contains "/" s = false.
Proof.
  unfold plain_name. intros H. apply andb_prop in H as [H1 H2].
  apply negb_true_iff in H1, H2. split; [|exact H2].
  now apply String.eqb_neq.
Qed.

(** For plain identifiers the two [os.path.join] calls of
    [save_images] produce the documented layout. *)
Lemma path_join_layout (prompt_id node_id : string) (index : nat) :
  plain_name prompt_id = true ->
  plain_name node_id = true ->
  path_join (path_join "saved_images" prompt_id)
            (node_id ++ "_" ++ Str.of_nat index ++ ".png")
  = local_layout prompt_id node_id index.
Proof.
  intros Hp Hn.
  apply plain_name_parts in Hp as [Hp1 Hp2].
  apply plain_name_parts in Hn as [Hn1 Hn2].
  assert (Hdir : path_join "saved_images" prompt_id = "saved_images/" ++ prompt_id).
  { unfold path_join. now rewrite (no_slash_no_prefix _ Hp2). }
  rewrite Hdir. unfold path_join.
  rewrite starts_with_slash_append by assumption.
  rewrite (no_slash_no_prefix _ Hn2).
  rewrite ends_with_char_append by assumption.
  rewrite (no_slash_no_suffix _ Hp2). simpl.
  unfold local_layout. reflexivity.
Qed.

End PathFacts.

Section SinkFacts.
Variable env : Env.

Lemma saves_app (a b : list event) : saves (a ++ b) = (saves a ++ saves b)%list.
Proof. induction a as [|[] a IH]; simpl; congruence. Qed.

(** An upload whose failures are all of a caught class returns, and
    writes no file. *)
Lemma upload_to_s3_contained (put : s3_put) (w : World) :
  contained_uploads env ->
  exists w' evs,
    upload_to_s3 env put w = (Return tt, w')
    /\ trace w' = (trace w ++ evs)%list
    /\ dirs w' = dirs w
    /\ saves evs = [].
Proof.
  intros Hc. unfold upload_to_s3, try_except, bind, boto3_put_object.
  destruct (s3_reply env (calls w) put) as [e|] eqn:E.
  - rewrite (Hc _ _ _ E). unfold logging, emit, interact. simpl.
    eexists. eexists. split; [reflexivity|]. simpl.
    rewrite <- app_assoc. simpl. repeat split; reflexivity.
  - unfold logging, emit, interact. simpl.
    eexists. eexists. split; [reflexivity|]. simpl.
    rewrite <- app_assoc. simpl. repeat split; reflexivity.
Qed.

(** A failure of any other class leaves [upload_to_s3] unlogged. *)
Lemma upload_to_s3_escape (put : s3_put) (w : World) (e : exn) :
  s3_reply env (calls w) put = Some e ->
  existsb (isinstance e) [BotoCoreError; NoCredentialsError] = false ->
  upload_to_s3 env put w = (Raise e, interact 0 (emit (PutObject put) w)).
Proof.
  intros Hreply Hclass.
  unfold upload_to_s3, try_except, bind, boto3_put_object.
  now rewrite Hreply, Hclass.
Qed.

Lemma save_node_images_layout
    (prompt_id node_id : string) (s3 : option s3_config) :
  s3 = None \/ contained_uploads env ->
  plain_name prompt_id = true ->
  plain_name node_id = true ->
  forall (image_list : list bytes) (idx : nat) (w : World),
    node_writable env (path_join "saved_images" prompt_id) node_id image_list idx ->
    forallb (decodable env) image_list = true ->
    exists w' evs,
      save_node_images env (path_join "saved_images" prompt_id) prompt_id node_id
                       s3 image_list idx w
      = (Return tt, w')
      /\ trace w' = (trace w ++ evs)%list
      /\ dirs w' = dirs w
      /\ saves evs = node_files env prompt_id node_id image_list idx.
Proof.
  intros Hc Hp Hn. induction image_list as [|data rest IH]; intros idx w Hw Hdec.
  - exists w, []. simpl. rewrite app_nil_r. repeat split; reflexivity.
  - simpl in Hdec. apply andb_prop in Hdec as [Hd Hrest].
    unfold decodable in Hd.
    destruct (image_open env data) as [img|] eqn:Himg; [|discriminate].
    cbn [node_writable] in Hw. destruct Hw as [Hsave Hw].
    pose proof (Hsave img Himg) as Hs.
    rewrite path_join_layout in Hs by assumption.
    cbn [save_node_images]. rewrite path_join_layout by assumption.
    unfold bind at 1. unfold pil_open. rewrite Himg. unfold ret at 1.
    unfold bind at 1. unfold pil_save at 1. rewrite Hs.
    unfold bind at 1. unfold logging at 1.
    unfold bind at 1.
    set (w2 := emit (Log INFO ("Saved image: " ++ local_layout prompt_id node_id idx))
                    (emit (SaveImage (local_layout prompt_id node_id idx)
                                     (png_encode env img)) w)).
    assert (Hup : exists w3 evs3,
               match s3 with
               | Some cfg =>
                   upload_to_s3 env
                     (mkPut (cfg_bucket cfg)
                            ("comfyui/" ++ prompt_id ++ "/" ++ node_id ++ "_"
                                        ++ Str.of_nat idx ++ ".png")
                            data (cfg_region cfg) (cfg_access_key cfg)
                            (cfg_secret_key cfg) (cfg_endpoint cfg))
               | None => ret tt
               end w2 = (Return tt, w3)
               /\ trace w3 = (trace w2 ++ evs3)%list
               /\ dirs w3 = dirs w2
               /\ saves evs3 = []).
    { destruct s3 as [cfg|].
      - destruct Hc as [Hnone|Hc]; [discriminate|].
        now apply upload_to_s3_contained.
      - exists w2, []. rewrite app_nil_r. repeat split; reflexivity. }
    destruct Hup as (w3 & evs3 & Hrun3 & Htr3 & Hdirs3 & Hsaves3).
    rewrite Hrun3.
    destruct (IH (S idx) w3 Hw Hrest) as (w' & evs & Hrun & Htr & Hdirs & Hsaves).
    exists w', ([SaveImage (local_layout prompt_id node_id idx) (png_encode env img);
                 Log INFO ("Saved image: " ++ local_layout prompt_id node_id idx)]
                ++ evs3 ++ evs)%list.
    split; [exact Hrun|].
    split; [rewrite Htr, Htr3; unfold w2, emit; simpl; now rewrite <- !app_assoc|].
    split; [rewrite Hdirs, Hdirs3; reflexivity|].
    rewrite !saves_app, Hsaves3, Hsaves. simpl.
    unfold reencode. now rewrite Himg.
Qed.









Lemma add_dirs_frame (paths : list string) :
  forall w, trace (add_dirs paths w) = trace w
            /\ now (add_dirs paths w) = now w
            /\ calls (add_dirs paths w) = calls w
            /\ document (add_dirs paths w) = document w
            /\ files (add_dirs paths w) = files w.
Proof.
  induction paths as [|q paths IH]; intros w; [repeat split|].
  unfold add_dirs in *. simpl.
  destruct (IH (add_dir q w)) as (H1 & H2 & H3 & H4 & H5).
  rewrite H1, H2, H3, H4, H5. repeat split.
Qed.


End SinkFacts.



(** ** Fetching the artifacts *)

Section FetchFacts.
Variable env : Env.
Variable self : ComfyUIClient.

Lemma urlopen_retrieve (req : request) (w : World) :
  urlopen env req w =
  (match retrieve env (calls w) req with
   | inl body => Return body
   | inr e => Raise e
   end,
   interact (Z.of_N (urlopen_ticks env (calls w))) (emit (Http req) w)).
Proof.
  unfold urlopen, retrieve.
  destruct (urlopen_reply env (calls w) req) as [status reason body|reason];
    [|reflexivity].
  destruct ((200 <=? status) && (status <? 300)); reflexivity.
Qed.















End FetchFacts.

Section FetchTheorems.
Variable env : Env.
Variable self : ComfyUIClient.








End FetchTheorems.



(** When the artifact is gone the fetch fails as a whole with the
    404 of the only request it made. *)
Lemma fetch_missing_artifact :
  exists w',
    get_images Sample.missing_env 10 Sample.client (JDict Sample.workflow)
               (Sample.world_with JNull)
    = (Raise (HTTPErr 404 "Not Found" "no such file"), w')
    /\ filter (fun ev => match ev with Http (GetView _ _ _ _) => true | _ => false end)
              (trace w')
       = [Http Sample.view_a].
Proof.
  eexists. split; [vm_compute; reflexivity|]. reflexivity.
Qed.

(* ================================================================= *)
(** * Further properties of the code *)

(** ** More on the node patchers *)

Section PatcherExtras.

Lemma getitem_field (x : json) (k : string) (v : json) :
  Doc.field x k = Some v -> PyOps.getitem x k = Return v.
Proof.
  destruct x; simpl; try discriminate. intros H. now rewrite H.
Qed.

Lemma dict_set_set {V : Type} (d : pydict V) (k : string) (v1 v2 : V) :
  Dict.set (Dict.set d k v1) k v2 = Dict.set d k v2.
Proof.
  induction d as [|[k' v'] r IH]; simpl.
  - now rewrite String.eqb_refl.
  - destruct (String.eqb k k') eqn:E; simpl; rewrite E; [reflexivity|].
    now rewrite IH.
Qed.

Lemma with_input_inputs (node : json) (k : string) (v : json) :
  Doc.is_record node = true ->
  Doc.inputs_of (Doc.with_input node k v) = Dict.set (Doc.inputs_of node) k v.
Proof.
  destruct node as [| | | | | |fields]; try discriminate. intros _.
  unfold Doc.inputs_of at 1. simpl. now rewrite dict_get_set_same.
Qed.

Lemma with_input_record (node : json) (k : string) (v : json) :
  Doc.is_record (Doc.with_input node k v) = Doc.is_record node.
Proof. destruct node; reflexivity. Qed.

Lemma with_input_field (node : json) (k f : string) (v : json) :
  f <> "inputs" ->
  Doc.field (Doc.with_input node k v) f = Doc.field node f.
Proof.
  destruct node as [| | | | | |fields]; try reflexivity.
  intros Hf. simpl. now apply dict_get_set_other.
Qed.

Lemma with_input_twice (node : json) (k : string) (v1 v2 : json) :
  Doc.with_input (Doc.with_input node k v1) k v2 = Doc.with_input node k v2.
Proof.
  destruct node as [| | | | | |fields]; try reflexivity.
  unfold Doc.with_input at 1.
  rewrite with_input_inputs by reflexivity.
  unfold Doc.with_input. now rewrite !dict_set_set.
Qed.

Lemma with_input_class (node : json) (k role : string) (v : json) :
  Doc.has_class (Doc.with_input node k v) role = Doc.has_class node role.
Proof.
  unfold Doc.has_class. now rewrite with_input_field by discriminate.
Qed.

Lemma with_input_title (node : json) (k : string) (v : json) :
  Doc.title_of (Doc.with_input node k v) = Doc.title_of node.
Proof.
  unfold Doc.title_of. now rewrite with_input_field by discriminate.
Qed.

Lemma with_input_typed (node : json) (k : string) (v : json) :
  Doc.node_record node = true ->
  Doc.node_record (Doc.with_input node k v) = true.
Proof.
  unfold Doc.node_record, Doc.well_typed_fields.
  intros H. apply andb_prop in H as [Hrec Hty].
  rewrite with_input_record, Hrec. simpl.
  rewrite with_input_field by discriminate.
  apply andb_prop in Hty as [Hmeta _]. rewrite Hmeta. simpl.
  destruct node as [| | | | | |fields]; try discriminate.
  simpl. now rewrite dict_get_set_same.
Qed.

Lemma with_input_has (node : json) (k k' : string) (v : json) :
  Doc.is_record node = true ->
  Dict.has (Doc.inputs_of node) k' = true ->
  Dict.has (Doc.inputs_of (Doc.with_input node k v)) k' = true.
Proof.
  intros Hrec Hhas. rewrite with_input_inputs by assumption.
  unfold Dict.has in *.
  destruct (String.eqb k' k) eqn:E.
  - apply String.eqb_eq in E. subst. now rewrite dict_get_set_same.
  - apply String.eqb_neq in E. now rewrite dict_get_set_other.
Qed.

(** A node cannot be a target of both patchers, before or after either
    of them has written to it. *)
Lemma image_target_not_prompt (node : json) :
  Doc.image_target node = true -> Doc.prompt_target node = false.
Proof.
  unfold Doc.image_target, Doc.prompt_target, Doc.has_class.
  destruct (Doc.is_record node); [|discriminate]. simpl.
  destruct (Doc.field node "class_type") as [[| | | |c| |]|]; simpl;
    try discriminate.
  destruct (String.eqb c "LoadImage") eqn:E; [|discriminate].
  apply String.eqb_eq in E. subst. reflexivity.
Qed.

Lemma prompt_target_not_image (node : json) :
  Doc.prompt_target node = true -> Doc.image_target node = false.
Proof.
  intros H. destruct (Doc.image_target node) eqn:E; [|reflexivity].
  apply image_target_not_prompt in E. congruence.
Qed.

Lemma set_prompt_keeps_image_target (prompt_text : string) (node : json) :
  Doc.prompt_target node = true ->
  Doc.image_target (set_prompt prompt_text node) = false.
Proof.
  intros H. apply prompt_target_not_image in H as Himg.
  unfold Doc.prompt_target in H.
  repeat (apply andb_prop in H as [H ?]).
  unfold Doc.image_target, set_prompt.
  rewrite with_input_record, with_input_class.
  assert (Hc : Doc.has_class node "LoadImage" = false).
  { unfold Doc.has_class in *.
    destruct (Doc.field node "class_type") as [[| | | |c| |]|]; simpl in *;
      try discriminate.
    match goal with H : String.eqb c "CLIPTextEncode" = true |- _ =>
      apply String.eqb_eq in H; subst end. reflexivity. }
  rewrite Hc. now rewrite andb_false_r.
Qed.

Lemma set_image_keeps_prompt_target (name node : json) :
  Doc.image_target node = true ->
  Doc.prompt_target (set_image name node) = false.
Proof.
  intros H. unfold Doc.image_target in H.
  repeat (apply andb_prop in H as [H ?]).
  unfold Doc.prompt_target, set_image.
  rewrite with_input_record, with_input_class.
  assert (Hc : Doc.has_class node "CLIPTextEncode" = false).
  { unfold Doc.has_class in *.
    destruct (Doc.field node "class_type") as [[| | | |c| |]|]; simpl in *;
      try discriminate.
    match goal with H : String.eqb c "LoadImage" = true |- _ =>
      apply String.eqb_eq in H; subst end. reflexivity. }
  rewrite Hc. now rewrite andb_false_r.
Qed.

Lemma set_prompt_stays_target (prompt_text : string) (node : json) :
  Doc.prompt_target node = true ->
  Doc.prompt_target (set_prompt prompt_text node) = true.
Proof.
  intros H. unfold Doc.prompt_target in *.
  repeat (apply andb_prop in H as [H ?]).
  unfold set_prompt.
  rewrite with_input_record, with_input_class, with_input_title.
  rewrite with_input_has by assumption.
  repeat (apply andb_true_intro; split); first [assumption | reflexivity].
Qed.

Section ScanFirst.
Variable visit_node : json -> outcome Patch.visit.
Variable target : json -> bool.
Variable update : json -> json.
Variable title : json -> string.

(** A walk whose loop body stores [update node] into the nodes that
    [target] accepts and skips the others is [patch_first]. *)
Lemma scan_patch_first (doc : pydict json) :
  (forall node, In node (Doc.nodes doc) ->
     visit_node node =
     Return (if target node then Patch.Store (update node) (title node)
             else Patch.Skip)) ->
  match patch_first target update doc with
  | Some doc' =>
      exists node_id t, Patch.scan visit_node doc = Return (Patch.Patched node_id t doc')
  | None => Patch.scan visit_node doc = Return Patch.NoMatch
  end.
Proof.
  induction doc as [|[node_id node] rest IH]; intros Hvisit; [reflexivity|].
  simpl. rewrite (Hvisit node) by now left.
  destruct (target node); simpl.
  - now exists node_id, (title node).
  - assert (Hrest : forall n, In n (Doc.nodes rest) ->
              visit_node n = Return (if target n then Patch.Store (update n) (title n)
                                     else Patch.Skip)).
    { intros n Hn. apply Hvisit. now right. }
    specialize (IH Hrest).
    destruct (patch_first target update rest) as [rest'|].
    + destruct IH as (i & t & ->). simpl. now exists i, t.
    + now rewrite IH.
Qed.

End ScanFirst.

Lemma patch_first_keeps (P : json -> bool) (target : json -> bool)
    (update : json -> json) (doc doc' : pydict json) :
  (forall n, target n = true -> P n = true -> P (update n) = true) ->
  forallb P (Doc.nodes doc) = true ->
  patch_first target update doc = Some doc' ->
  forallb P (Doc.nodes doc') = true.
Proof.
  intros Hupd. revert doc'.
  induction doc as [|[i n] rest IH]; intros doc' Hty H; simpl in *; [discriminate|].
  apply andb_prop in Hty as [Hn Hrest].
  destruct (target n) eqn:E.
  - injection H as <-. simpl. now rewrite (Hupd n E Hn).
  - destruct (patch_first target update rest) as [rest'|]; [|discriminate].
    injection H as <-. simpl. now rewrite Hn, (IH rest').
Qed.

(** Two patches that accept disjoint nodes, neither turning a node into
    a target of the other, can be applied in either order. *)
Lemma patch_first_commute (t1 t2 : json -> bool) (u1 u2 : json -> json)
    (doc : pydict json) :
  (forall n, t1 n = true -> t2 n = false /\ t2 (u1 n) = false) ->
  (forall n, t2 n = true -> t1 n = false /\ t1 (u2 n) = false) ->
  forall d1 d2,
    patch_first t1 u1 doc = Some d1 ->
    patch_first t2 u2 doc = Some d2 ->
    patch_first t2 u2 d1 = patch_first t1 u1 d2
    /\ patch_first t2 u2 d1 <> None.
Proof.
  intros H1 H2. induction doc as [|[i n] rest IH]; intros d1 d2 Hd1 Hd2;
    simpl in *; [discriminate|].
  destruct (t1 n) eqn:E1; destruct (t2 n) eqn:E2.
  - destruct (H1 n E1) as [Hc _]. congruence.
  - injection Hd1 as <-.
    destruct (patch_first t2 u2 rest) as [rest2|] eqn:Er2; [|discriminate].
    injection Hd2 as <-. simpl.
    destruct (H1 n E1) as [_ ->]. rewrite E1, Er2.
    split; [reflexivity|discriminate].
  - injection Hd2 as <-.
    destruct (patch_first t1 u1 rest) as [rest1|] eqn:Er1; [|discriminate].
    injection Hd1 as <-. simpl.
    destruct (H2 n E2) as [_ ->]. rewrite E2, Er1.
    split; [reflexivity|discriminate].
  - destruct (patch_first t1 u1 rest) as [rest1|] eqn:Er1; [|discriminate].
    destruct (patch_first t2 u2 rest) as [rest2|] eqn:Er2; [|discriminate].
    injection Hd1 as <-. injection Hd2 as <-. simpl. rewrite E1, E2.
    destruct (IH rest1 rest2 eq_refl eq_refl) as [Heq Hsome].
    rewrite Heq in *.
    destruct (patch_first t1 u1 rest2); [|contradiction].
    split; [reflexivity|discriminate].
Qed.

Lemma patch_first_found (target : json -> bool) (update : json -> json)
    (doc : pydict json) :
  existsb target (Doc.nodes doc) = true ->
  patch_first target update doc <> None.
Proof.
  induction doc as [|[i n] rest IH]; simpl; [discriminate|].
  destruct (target n); simpl; [discriminate|].
  intros H. specialize (IH H).
  destruct (patch_first target update rest); [discriminate|contradiction].
Qed.

(** Applying the same kind of patch twice: the second write lands on
    the node the first one chose. *)
Lemma patch_first_again (target : json -> bool) (u1 u2 : json -> json)
    (doc d1 : pydict json) :
  (forall n, target n = true -> target (u1 n) = true) ->
  (forall n, u2 (u1 n) = u2 n) ->
  patch_first target u1 doc = Some d1 ->
  patch_first target u2 d1 = patch_first target u2 doc.
Proof.
  intros Hstay Hover. revert d1.
  induction doc as [|[i n] rest IH]; intros d1 H; simpl in *; [discriminate|].
  destruct (target n) eqn:E.
  - injection H as <-. simpl. now rewrite (Hstay n E), Hover.
  - destruct (patch_first target u1 rest) as [rest1|]; [|discriminate].
    injection H as <-. simpl. rewrite E. now rewrite (IH rest1 eq_refl).
Qed.

Lemma node_record_scannable (node : json) :
  Doc.node_record node = true -> Doc.record_or_scalar node = true.
Proof.
  unfold Doc.node_record, Doc.record_or_scalar. intros H.
  apply andb_prop in H as [_ ->]. apply orb_true_r.
Qed.

Lemma records_scannable (doc : pydict json) :
  forallb Doc.node_record (Doc.nodes doc) = true ->
  forallb Doc.record_or_scalar (Doc.nodes doc) = true.
Proof.
  intros H. apply forallb_forall. intros n Hn.
  apply node_record_scannable. now apply (forallb_nodes _ doc).
Qed.

Lemma set_prompt_scannable (prompt_text : string) (node : json) :
  Doc.prompt_target node = true ->
  Doc.record_or_scalar node = true ->
  Doc.record_or_scalar (set_prompt prompt_text node) = true.
Proof.
  intros Ht Hs. apply node_record_scannable, with_input_typed.
  unfold Doc.node_record. unfold Doc.prompt_target in Ht.
  repeat (apply andb_prop in Ht as [Ht ?]).
  unfold Doc.record_or_scalar in Hs. rewrite Ht in *. exact Hs.
Qed.

(** On a typed document the prompt patcher is [patch_first]. *)
Lemma prompt_patch_run (doc : pydict json) (prompt_text : string) (w : World) :
  document w = JDict doc ->
  forallb Doc.record_or_scalar (Doc.nodes doc) = true ->
  match patch_first Doc.prompt_target (set_prompt prompt_text) doc with
  | Some doc' =>
      exists msg,
        patch_prompt_text_node prompt_text w =
        (Return tt, set_document (JDict doc') (emit (Log INFO msg) w))
  | None => patch_prompt_text_node prompt_text w = (Raise no_prompt_node, w)
  end.
Proof.
  intros Hdoc Hty.
  pose proof (scan_patch_first (fun node => Patch.prompt_visit node prompt_text)
                Doc.prompt_target (set_prompt prompt_text)
                (fun node => Str.lower (Doc.title_of node)) doc) as Hscan.
  unfold patch_prompt_text_node. rewrite Hdoc. simpl. unfold Patch.prompt_scan.
  destruct (patch_first Doc.prompt_target (set_prompt prompt_text) doc) as [doc'|].
  - destruct Hscan as (i & t & ->).
    + intros n Hn. apply prompt_visit_typed. now apply (forallb_nodes _ doc).
    + eexists. reflexivity.
  - rewrite Hscan; [reflexivity|].
    intros n Hn. apply prompt_visit_typed. now apply (forallb_nodes _ doc).
Qed.

(** On a document of node records the image-reference patcher is
    [patch_first], given the stored filename. *)
Lemma image_patch_run (doc : pydict json) (image_info name : json) (w : World) :
  document w = JDict doc ->
  forallb Doc.node_record (Doc.nodes doc) = true ->
  Doc.field image_info "name" = Some name ->
  match patch_first Doc.image_target (set_image name) doc with
  | Some doc' =>
      exists msg,
        patch_load_image_node image_info w =
        (Return tt, set_document (JDict doc') (emit (Log INFO msg) w))
  | None => patch_load_image_node image_info w = (Raise no_image_node, w)
  end.
Proof.
  intros Hdoc Hty Hname.
  pose proof (scan_patch_first (fun node => Patch.image_visit node image_info)
                Doc.image_target (set_image name) (fun _ => "") doc) as Hscan.
  assert (Hvisit : forall n, In n (Doc.nodes doc) ->
            Patch.image_visit n image_info =
            Return (if Doc.image_target n then Patch.Store (set_image name n) ""
                    else Patch.Skip)).
  { intros n Hn. rewrite image_visit_typed by now apply (forallb_nodes _ doc).
    rewrite (getitem_field _ _ _ Hname). simpl.
    destruct (Doc.image_target n); reflexivity. }
  unfold patch_load_image_node. rewrite Hdoc. simpl. unfold Patch.image_scan.
  destruct (patch_first Doc.image_target (set_image name) doc) as [doc'|].
  - destruct (Hscan Hvisit) as (i & t & ->). eexists. reflexivity.
  - now rewrite (Hscan Hvisit).
Qed.

End PatcherExtras.

Section PatcherExtraTheorems.

(** X1. The image-reference patcher writes the uploaded file's name
    into the [image] input of the first image-load node that has one,
    after logging the patch, and changes nothing else: the document it
    leaves differs from the one it found in that input only; the other
    nodes, the node's other inputs and fields, and the order of keys
    stay as they were. *)
Theorem image_patcher_first_target
    (pre post : pydict json) (node_id : string) (node image_info name : json)
    (w : World) :
  document w = JDict (pre ++ (node_id, node) :: post)%list ->
  forallb Doc.node_record (Doc.nodes (pre ++ [(node_id, node)])%list) = true ->
  existsb Doc.image_target (Doc.nodes pre) = false ->
  Doc.image_target node = true ->
  Doc.field image_info "name" = Some name ->
  let node' := Doc.with_input node "image" name in
  let workflow' := (pre ++ (node_id, node') :: post)%list in
  patch_load_image_node image_info w =
  (Return tt,
   set_document (JDict workflow')
     (emit (Log INFO ("Patching LoadImage node " ++ node_id
                      ++ " with uploaded image filename.")) w))
  /\ document (snd (patch_load_image_node image_info w)) = JDict workflow'
  /\ Doc.input node' "image" = Some name
  /\ (forall k, k <> "image" -> Doc.input node' k = Doc.input node k)
  /\ (forall f, f <> "inputs" -> Doc.field node' f = Doc.field node f)
  /\ Dict.keys (Doc.inputs_of node') = Dict.keys (Doc.inputs_of node)
  /\ (forall i, i <> node_id ->
        Dict.get workflow' i = Dict.get (pre ++ (node_id, node) :: post)%list i)
  /\ Dict.keys workflow' = Dict.keys (pre ++ (node_id, node) :: post)%list.
Proof.
  intros Hdoc Htyped Hpre Htarget Hname node' workflow'.
  unfold Doc.nodes in Htyped. rewrite map_app, forallb_app in Htyped.
  apply andb_prop in Htyped as [Htpre Htnode]. simpl in Htnode.
  rewrite andb_true_r in Htnode.
  assert (Hrec : Doc.is_record node = true /\
                 Dict.has (Doc.inputs_of node) "image" = true).
  { unfold Doc.image_target in Htarget.
    repeat (apply andb_prop in Htarget as [Htarget ?]). auto. }
  destruct Hrec as (Hrec & Hhas).
  destruct (with_input_fields node "image" name Hrec Hhas)
    as (Hset & Hothers & Hfields & Hkeys & _).
  assert (Hrun : patch_load_image_node image_info w =
                 (Return tt,
                  set_document (JDict workflow')
                    (emit (Log INFO ("Patching LoadImage node " ++ node_id
                                     ++ " with uploaded image filename.")) w))).
  { unfold patch_load_image_node. rewrite Hdoc. simpl. unfold Patch.image_scan.
    rewrite (scan_first_store _ pre post node_id "" node node').
    - reflexivity.
    - intros n Hn. rewrite image_visit_typed by now apply (forallb_nodes _ pre).
      now rewrite (existsb_nodes_false _ _ Hpre n Hn).
    - rewrite image_visit_typed by assumption. rewrite Htarget.
      now rewrite (getitem_field _ _ _ Hname). }
  split; [exact Hrun|]. split; [now rewrite Hrun|].
  repeat split; auto.
  - intros i Hi. now apply dict_get_middle_other.
  - apply dict_keys_middle.
Qed.

Lemma image_patcher_first_target_witness :
  let node' := Doc.with_input Sample.load_node "image" (JStr "upload.png") in
  let workflow' := [("7", Sample.negative_node); ("10", node');
                    ("6", Sample.positive_node)] in
  let w := Sample.world_with (JDict Sample.image_workflow) in
  patch_load_image_node Sample.upload_info w =
  (Return tt,
   set_document (JDict workflow')
     (emit (Log INFO ("Patching LoadImage node " ++ "10"
                      ++ " with uploaded image filename.")) w))
  /\ document (snd (patch_load_image_node Sample.upload_info w)) = JDict workflow'
  /\ Doc.input node' "image" = Some (JStr "upload.png")
  /\ (forall k, k <> "image" -> Doc.input node' k = Doc.input Sample.load_node k)
  /\ (forall f, f <> "inputs" -> Doc.field node' f = Doc.field Sample.load_node f)
  /\ Dict.keys (Doc.inputs_of node') = Dict.keys (Doc.inputs_of Sample.load_node)
  /\ (forall i, i <> "10" -> Dict.get workflow' i = Dict.get Sample.image_workflow i)
  /\ Dict.keys workflow' = Dict.keys Sample.image_workflow.
Proof.
  exact (image_patcher_first_target
           [("7", Sample.negative_node)] [("6", Sample.positive_node)] "10"
           Sample.load_node Sample.upload_info (JStr "upload.png")
           (Sample.world_with (JDict Sample.image_workflow))
           eq_refl eq_refl eq_refl eq_refl eq_refl).
Defined.

(** X2. When the upload answer is a mapping without a ["name"] key,
    the image-reference patcher raises [KeyError] at the first
    image-load node: the patch has been announced in the log, since the
    line is written before [image_info["name"]] is evaluated, but
    nothing has been stored and the document is unchanged. *)
Theorem image_patcher_missing_name
    (pre post : pydict json) (node_id : string) (node image_info : json)
    (w : World) :
  document w = JDict (pre ++ (node_id, node) :: post)%list ->
  forallb Doc.node_record (Doc.nodes (pre ++ [(node_id, node)])%list) = true ->
  existsb Doc.image_target (Doc.nodes pre) = false ->
  Doc.image_target node = true ->
  Doc.is_record image_info = true ->
  Doc.field image_info "name" = None ->
  patch_load_image_node image_info w =
  (Raise (Exn KeyError "'name'"),
   emit (Log INFO ("Patching LoadImage node " ++ node_id
                   ++ " with uploaded image filename.")) w)
  /\ document (snd (patch_load_image_node image_info w)) = document w.
Proof.
  intros Hdoc Htyped Hpre Htarget Hrec Hname.
  unfold Doc.nodes in Htyped. rewrite map_app, forallb_app in Htyped.
  apply andb_prop in Htyped as [Htpre Htnode]. simpl in Htnode.
  rewrite andb_true_r in Htnode.
  assert (Hrun : patch_load_image_node image_info w =
                 (Raise (Exn KeyError "'name'"),
                  emit (Log INFO ("Patching LoadImage node " ++ node_id
                                  ++ " with uploaded image filename.")) w)).
  { unfold patch_load_image_node. rewrite Hdoc. simpl. unfold Patch.image_scan.
    rewrite (scan_first_fails _ pre post node_id "" node (Exn KeyError "'name'")).
    - reflexivity.
    - intros n Hn. rewrite image_visit_typed by now apply (forallb_nodes _ pre).
      now rewrite (existsb_nodes_false _ _ Hpre n Hn).
    - rewrite image_visit_typed by assumption. rewrite Htarget.
      destruct image_info as [| | | | | |d]; try discriminate.
      simpl in Hname. simpl. now rewrite Hname. }
  split; [exact Hrun|]. now rewrite Hrun.
Qed.

Lemma image_patcher_missing_name_witness :
  let w := Sample.world_with (JDict Sample.image_workflow) in
  patch_load_image_node (JDict [("error", JStr "rejected")]) w
  = (Raise (Exn KeyError "'name'"),
     emit (Log INFO ("Patching LoadImage node " ++ "10"
                     ++ " with uploaded image filename.")) w)
  /\ document (snd (patch_load_image_node (JDict [("error", JStr "rejected")]) w))
     = document w.
Proof.
  exact (image_patcher_missing_name
           [("7", Sample.negative_node)] [("6", Sample.positive_node)] "10"
           Sample.load_node (JDict [("error", JStr "rejected")])
           (Sample.world_with (JDict Sample.image_workflow))
           eq_refl eq_refl eq_refl eq_refl eq_refl eq_refl).
Defined.

(** X3. Patching the prompt twice leaves the document that the second
    patch alone would leave: the second call finds the node the first
    one wrote to and overwrites the same input. *)
Theorem prompt_patch_twice
    (doc : pydict json) (first second : string) (w : World) :
  document w = JDict doc ->
  forallb Doc.record_or_scalar (Doc.nodes doc) = true ->
  existsb Doc.prompt_target (Doc.nodes doc) = true ->
  exists w1 w2 w',
    patch_prompt_text_node first w = (Return tt, w1)
    /\ patch_prompt_text_node second w1 = (Return tt, w2)
    /\ patch_prompt_text_node second w = (Return tt, w')
    /\ document w2 = document w'.
Proof.
  intros Hdoc Hty Hex.
  pose proof (prompt_patch_run doc first w Hdoc Hty) as H1.
  pose proof (prompt_patch_run doc second w Hdoc Hty) as H2.
  pose proof (patch_first_found _ (set_prompt first) doc Hex) as Hf1.
  destruct (patch_first Doc.prompt_target (set_prompt first) doc) as [d1|] eqn:E1;
    [|contradiction].
  destruct H1 as (msg1 & H1).
  assert (Hagain : patch_first Doc.prompt_target (set_prompt second) d1
                   = patch_first Doc.prompt_target (set_prompt second) doc).
  { apply (patch_first_again _ (set_prompt first)); auto.
    - intros n. apply set_prompt_stays_target.
    - intros n. unfold set_prompt. apply with_input_twice. }
  pose proof (patch_first_found _ (set_prompt second) doc Hex) as Hf2.
  destruct (patch_first Doc.prompt_target (set_prompt second) doc) as [d2|] eqn:E2;
    [|contradiction].
  destruct H2 as (msg2 & H2).
  assert (Hty1 : forallb Doc.record_or_scalar (Doc.nodes d1) = true).
  { apply (patch_first_keeps _ Doc.prompt_target (set_prompt first) doc); auto.
    intros n. apply set_prompt_scannable. }
  pose proof (prompt_patch_run d1 second
                (set_document (JDict d1) (emit (Log INFO msg1) w)) eq_refl Hty1) as H3.
  rewrite Hagain in H3. destruct H3 as (msg3 & H3).
  eexists. eexists. eexists.
  split; [exact H1|]. split; [exact H3|]. split; [exact H2|]. reflexivity.
Qed.

Lemma prompt_patch_twice_witness :
  exists w1 w2 w',
    patch_prompt_text_node "a dog" (Sample.world_with (JDict Sample.workflow))
    = (Return tt, w1)
    /\ patch_prompt_text_node "a bird" w1 = (Return tt, w2)
    /\ patch_prompt_text_node "a bird" (Sample.world_with (JDict Sample.workflow))
       = (Return tt, w')
    /\ document w2 = document w'.
Proof.
  exact (prompt_patch_twice Sample.workflow "a dog" "a bird"
           (Sample.world_with (JDict Sample.workflow)) eq_refl eq_refl eq_refl).
Defined.

(** X4. The two patchers can be applied in either order: on a
    document that has a target for each, image-then-prompt (the order
    of the pipeline) and prompt-then-image both succeed and leave the
    same document. *)
Theorem patchers_commute
    (doc : pydict json) (prompt_text : string) (image_info name : json) (w : World) :
  document w = JDict doc ->
  forallb Doc.node_record (Doc.nodes doc) = true ->
  existsb Doc.image_target (Doc.nodes doc) = true ->
  existsb Doc.prompt_target (Doc.nodes doc) = true ->
  Doc.field image_info "name" = Some name ->
  exists wi wip wp wpi,
    patch_load_image_node image_info w = (Return tt, wi)
    /\ patch_prompt_text_node prompt_text wi = (Return tt, wip)
    /\ patch_prompt_text_node prompt_text w = (Return tt, wp)
    /\ patch_load_image_node image_info wp = (Return tt, wpi)
    /\ document wip = document wpi.
Proof.
  intros Hdoc Hty Himg Hprm Hname.
  pose proof (records_scannable doc Hty) as Hsc.
  pose proof (image_patch_run doc image_info name w Hdoc Hty Hname) as Hi.
  pose proof (prompt_patch_run doc prompt_text w Hdoc Hsc) as Hp.
  pose proof (patch_first_found _ (set_image name) doc Himg) as Hfi.
  pose proof (patch_first_found _ (set_prompt prompt_text) doc Hprm) as Hfp.
  destruct (patch_first Doc.image_target (set_image name) doc) as [di|] eqn:Ei;
    [|contradiction].
  destruct (patch_first Doc.prompt_target (set_prompt prompt_text) doc) as [dp|] eqn:Ep;
    [|contradiction].
  destruct Hi as (msgi & Hi). destruct Hp as (msgp & Hp).
  destruct (patch_first_commute Doc.image_target Doc.prompt_target
              (set_image name) (set_prompt prompt_text) doc) with (d1 := di) (d2 := dp)
    as [Heq Hsome]; auto.
  { intros n Hn. split; [now apply image_target_not_prompt|].
    now apply set_image_keeps_prompt_target. }
  { intros n Hn. split; [now apply prompt_target_not_image|].
    now apply set_prompt_keeps_image_target. }
  assert (Htyi : forallb Doc.node_record (Doc.nodes di) = true).
  { apply (patch_first_keeps _ Doc.image_target (set_image name) doc); auto.
    intros n _. apply with_input_typed. }
  assert (Htyp : forallb Doc.node_record (Doc.nodes dp) = true).
  { apply (patch_first_keeps _ Doc.prompt_target (set_prompt prompt_text) doc); auto.
    intros n _. apply with_input_typed. }
  pose proof (prompt_patch_run di prompt_text
                (set_document (JDict di) (emit (Log INFO msgi) w)) eq_refl
                (records_scannable di Htyi)) as Hip.
  pose proof (image_patch_run dp image_info name
                (set_document (JDict dp) (emit (Log INFO msgp) w)) eq_refl
                Htyp Hname) as Hpi.
  rewrite <- Heq in Hpi.
  destruct (patch_first Doc.prompt_target (set_prompt prompt_text) di) as [d|];
    [|contradiction].
  destruct Hip as (m1 & Hip). destruct Hpi as (m2 & Hpi).
  eexists. eexists. eexists. eexists.
  split; [exact Hi|]. split; [exact Hip|]. split; [exact Hp|].
  split; [exact Hpi|]. reflexivity.
Qed.

Lemma patchers_commute_witness :
  exists wi wip wp wpi,
    patch_load_image_node Sample.upload_info
      (Sample.world_with (JDict Sample.image_workflow)) = (Return tt, wi)
    /\ patch_prompt_text_node "a dog" wi = (Return tt, wip)
    /\ patch_prompt_text_node "a dog"
         (Sample.world_with (JDict Sample.image_workflow)) = (Return tt, wp)
    /\ patch_load_image_node Sample.upload_info wp = (Return tt, wpi)
    /\ document wip = document wpi.
Proof.
  exact (patchers_commute Sample.image_workflow "a dog" Sample.upload_info
           (JStr "upload.png") (Sample.world_with (JDict Sample.image_workflow))
           eq_refl eq_refl eq_refl eq_refl eq_refl).
Defined.

(** X5. A text-encoding node whose [_meta] is present but not a
    mapping (["_meta": null]) is not skipped: when the walk reaches it
    the prompt patcher raises [AttributeError], even if an eligible
    node follows, and the document is unchanged. *)
Theorem prompt_patcher_bad_meta
    (pre post : pydict json) (node_id prompt_text : string)
    (fields : pydict json) (meta : json) (w : World) :
  document w = JDict (pre ++ (node_id, JDict fields) :: post)%list ->
  forallb Doc.record_or_scalar (Doc.nodes pre) = true ->
  existsb Doc.prompt_target (Doc.nodes pre) = false ->
  Doc.has_class (JDict fields) "CLIPTextEncode" = true ->
  Dict.get fields "_meta" = Some meta ->
  Doc.is_record meta = false ->
  patch_prompt_text_node prompt_text w =
  (Raise (Exn AttributeError
            ("'" ++ PyOps.type_name meta ++ "' object has no attribute 'get'")), w).
Proof.
  intros Hdoc Htpre Hpre Hclass Hmeta Hnot.
  unfold patch_prompt_text_node. rewrite Hdoc. simpl. unfold Patch.prompt_scan.
  rewrite (scan_first_raise _ pre post node_id (JDict fields)
             (Exn AttributeError
                ("'" ++ PyOps.type_name meta ++ "' object has no attribute 'get'"))).
  - reflexivity.
  - intros n Hn. rewrite prompt_visit_typed by now apply (forallb_nodes _ pre).
    now rewrite (existsb_nodes_false _ _ Hpre n Hn).
  - unfold Doc.has_class, Doc.field in Hclass.
    unfold Patch.prompt_visit, PyOps.get at 1. simpl obind.
    destruct (Dict.get fields "class_type") as [c|]; [|discriminate].
    rewrite Hclass. unfold PyOps.get at 1. rewrite Hmeta. simpl obind.
    destruct meta; try discriminate; reflexivity.
Qed.

Lemma prompt_patcher_bad_meta_witness :
  let w := Sample.world_with
             (JDict [("3", Sample.sampler_node); ("5", Sample.null_meta_node);
                     ("6", Sample.positive_node)]) in
  patch_prompt_text_node "a dog" w =
  (Raise (Exn AttributeError "'NoneType' object has no attribute 'get'"), w).
Proof.
  exact (prompt_patcher_bad_meta
           [("3", Sample.sampler_node)] [("6", Sample.positive_node)] "5" "a dog"
           [("class_type", JStr "CLIPTextEncode"); ("_meta", JNull);
            ("inputs", JDict [("text", JStr "a cat")])]
           JNull
           (Sample.world_with
              (JDict [("3", Sample.sampler_node); ("5", Sample.null_meta_node);
                      ("6", Sample.positive_node)]))
           eq_refl eq_refl eq_refl eq_refl eq_refl eq_refl).
Defined.

(** X6. The image-reference patcher has no guard for entries that are
    not mappings: when the walk reaches one before any image-load
    target it raises [AttributeError] and leaves the document as it
    was, where the prompt patcher would have skipped the entry. *)
Theorem image_patcher_non_record
    (pre post : pydict json) (node_id : string) (entry image_info : json)
    (w : World) :
  document w = JDict (pre ++ (node_id, entry) :: post)%list ->
  forallb Doc.node_record (Doc.nodes pre) = true ->
  existsb Doc.image_target (Doc.nodes pre) = false ->
  Doc.is_record entry = false ->
  patch_load_image_node image_info w =
  (Raise (Exn AttributeError
            ("'" ++ PyOps.type_name entry ++ "' object has no attribute 'get'")), w)
  /\ forall prompt_text, Patch.prompt_visit entry prompt_text = Return Patch.Skip.
Proof.
  intros Hdoc Htpre Hpre Hnot. split.
  - unfold patch_load_image_node. rewrite Hdoc. simpl. unfold Patch.image_scan.
    rewrite (scan_first_raise _ pre post node_id entry
               (Exn AttributeError
                  ("'" ++ PyOps.type_name entry ++ "' object has no attribute 'get'"))).
    + reflexivity.
    + intros n Hn. rewrite image_visit_typed by now apply (forallb_nodes _ pre).
      now rewrite (existsb_nodes_false _ _ Hpre n Hn).
    + destruct entry; try discriminate; reflexivity.
  - intros prompt_text. destruct entry; try discriminate; reflexivity.
Qed.

Lemma image_patcher_non_record_witness :
  let w := Sample.world_with
             (JDict [("3", Sample.sampler_node); ("last_node_id", JInt 10);
                     ("10", Sample.load_node)]) in
  patch_load_image_node Sample.upload_info w =
  (Raise (Exn AttributeError "'int' object has no attribute 'get'"), w)
  /\ forall prompt_text,
       Patch.prompt_visit (JInt 10) prompt_text = Return Patch.Skip.
Proof.
  exact (image_patcher_non_record
           [("3", Sample.sampler_node)] [("10", Sample.load_node)] "last_node_id"
           (JInt 10) Sample.upload_info
           (Sample.world_with
              (JDict [("3", Sample.sampler_node); ("last_node_id", JInt 10);
                      ("10", Sample.load_node)]))
           eq_refl eq_refl eq_refl eq_refl).
Defined.

End PatcherExtraTheorems.

(** ** More on the polling loop *)

Section PollingExtras.
Variable env : Env.
Variable self : ComfyUIClient.
Variable prompt_id : json.

Lemma count_posts_app (a b : list event) :
  count_posts (a ++ b) = (count_posts a + count_posts b)%nat.
Proof. unfold count_posts. now rewrite filter_app, length_app. Qed.

Lemma count_posts_pending (interval : Z) (n : nat) :
  count_posts (pending_events env self prompt_id interval n) = 0%nat.
Proof.
  unfold pending_events, history_request, poll_log.
  destruct (classify_poll env self prompt_id n); reflexivity.
Qed.

(** With a negative interval the first poll that does not complete is
    followed by the [ValueError] of [time.sleep]. *)
Lemma wait_loop_negative (fuel : nat) (start_time timeout interval : Z) (w : World) :
  now w - start_time < timeout ->
  interval < 0 ->
  reports_outputs env self prompt_id (calls w) = false ->
  wait_loop env (S fuel) self prompt_id start_time timeout interval w =
  (Raise sleep_error,
   mkWorld (now w + Z.of_N (urlopen_ticks env (calls w))) (S (calls w))
           (trace w ++ history_request env self prompt_id
                       :: poll_log (classify_poll env self prompt_id (calls w)))
           (dirs w) (document w) (files w)).
Proof.
  intros Ht Hi Hc. simpl. unfold bind at 1, time_time. simpl.
  apply Z.ltb_lt in Ht. rewrite Ht.
  unfold bind at 1. rewrite poll_once_view.
  unfold reports_outputs in Hc.
  assert (Hv : poll_value (classify_poll env self prompt_id (calls w)) = None).
  { destruct (classify_poll env self prompt_id (calls w)); [discriminate| |]; reflexivity. }
  rewrite Hv. unfold bind at 1, time_sleep.
  apply Z.ltb_lt in Hi. simpl calls. now rewrite Hi.
Qed.

Lemma reports_outputs_classified (n : nat) :
  reports_outputs env self prompt_id n = true ->
  exists outputs, classify_poll env self prompt_id n = Outputs outputs.
Proof.
  unfold reports_outputs.
  destruct (classify_poll env self prompt_id n) as [o| |]; try discriminate.
  now exists o.
Qed.

(** What the loop can raise: the timeout, once the deadline has
    passed, or the error of a negative sleep. *)
Lemma wait_loop_raises (start_time timeout interval : Z) :
  forall (fuel : nat) (w w' : World) (e : exn),
    wait_loop env fuel self prompt_id start_time timeout interval w = (Raise e, w') ->
    (e = timed_out /\ timeout <= now w' - start_time)
    \/ (e = sleep_error /\ interval < 0).
Proof.
  induction fuel as [|fuel IH]; intros w w' e Hrun; [discriminate|].
  destruct (Z_lt_le_dec (now w - start_time) timeout) as [Hlt|Hge].
  - destruct (reports_outputs env self prompt_id (calls w)) eqn:Hrep.
    + destruct (reports_outputs_classified _ Hrep) as (o & Ho).
      rewrite (wait_loop_done env self prompt_id fuel _ _ _ w o Hlt Ho) in Hrun.
      discriminate.
    + destruct (Z_lt_le_dec interval 0) as [Hneg|Hpos].
      * rewrite wait_loop_negative in Hrun by assumption.
        injection Hrun as <- _. right. now split.
      * rewrite wait_loop_pending in Hrun by assumption.
        now apply IH in Hrun.
  - rewrite wait_loop_deadline in Hrun by assumption.
    injection Hrun as <- <-. left. now split.
Qed.

(** Whatever the server answers, the loop only adds polls, logs and
    sleeps to the trace, and with a positive interval the number of
    polls is bounded: the last poll starts before the deadline and
    every earlier one is followed by a sleep of at least [interval]. *)
Lemma wait_loop_poll_bound (start_time timeout interval : Z) :
  0 < interval ->
  forall (fuel : nat) (w : World),
    exists evs,
      trace (snd (wait_loop env fuel self prompt_id start_time timeout interval w))
      = (trace w ++ evs)%list
      /\ count_posts evs = 0%nat
      /\ (count_polls evs = 0%nat
          \/ (Z.of_nat (count_polls evs) - 1) * interval
             < timeout - (now w - start_time)).
Proof.
  intros Hi. induction fuel as [|fuel IH]; intros w.
  - exists []. simpl. rewrite app_nil_r. auto.
  - destruct (Z_lt_le_dec (now w - start_time) timeout) as [Hlt|Hge].
    + destruct (reports_outputs env self prompt_id (calls w)) eqn:Hrep.
      * destruct (reports_outputs_classified _ Hrep) as (o & Ho).
        rewrite (wait_loop_done env self prompt_id fuel _ _ _ w o Hlt Ho).
        eexists. split; [reflexivity|]. split; [reflexivity|].
        right. change (count_polls [history_request env self prompt_id;
                                    Log INFO "Prompt execution completed."])
                 with 1%nat. simpl. lia.
      * rewrite wait_loop_pending by (auto; lia).
        destruct (IH (after_pending env self prompt_id interval w))
          as (evs & Htr & Hposts & Hpolls).
        exists (pending_events env self prompt_id interval (calls w) ++ evs)%list.
        change (trace (after_pending env self prompt_id interval w))
          with (trace w ++ pending_events env self prompt_id interval (calls w))%list
          in Htr.
        change (now (after_pending env self prompt_id interval w))
          with (now w + iteration_ticks env interval (calls w)) in Hpolls.
        pose proof (iteration_ticks_lower env interval (calls w)) as Hlow.
        split; [rewrite Htr; now rewrite app_assoc|].
        split; [rewrite count_posts_app, count_posts_pending; exact Hposts|].
        right. rewrite count_polls_app, count_polls_pending.
        rewrite Nat2Z.inj_add. change (Z.of_nat 1) with 1.
        destruct Hpolls as [-> | Hb]; [change (Z.of_nat 0) with 0|]; lia.
    + rewrite wait_loop_deadline by assumption.
      exists []. simpl. rewrite app_nil_r. auto.
Qed.

(** X7. How one poll is read, for a history that is a mapping: the job
    is complete exactly when [history[prompt_id]] is a mapping whose
    ["outputs"] is present and truthy, and that value is returned; an
    unknown handle, a missing [outputs] and an empty [outputs] all
    count as pending; an entry that is not a mapping is an error
    ([AttributeError]), which the loop treats as a failed poll. *)
Theorem completed_decision (history : pydict json) (handle : string) :
  completed env (JDict history) (JStr handle) =
  match Dict.get history handle with
  | None => Return None
  | Some (JDict entry) =>
      match Dict.get entry "outputs" with
      | Some outputs => if Py.truthy outputs then Return (Some outputs) else Return None
      | None => Return None
      end
  | Some entry =>
      Raise (Exn AttributeError
               ("'" ++ PyOps.type_name entry ++ "' object has no attribute 'get'"))
  end.
Proof.
  unfold completed, PyOps.member, PyOps.subscript, Dict.has, PyOps.getitem, obind.
  destruct (Dict.get history handle) as [entry|]; [|reflexivity].
  destruct entry as [| | | | | |e]; try reflexivity.
  unfold PyOps.get.
  destruct (Dict.get e "outputs") as [o|]; [|reflexivity].
  destruct (Py.truthy o); reflexivity.
Qed.

(** X8. With a positive interval [wait_for_execution] never issues
    more than ceil(timeout / interval) polls, whatever the server
    answers and however the call ends: the number of polls times the
    interval stays below timeout + interval.  It never submits
    anything. *)
Theorem wait_poll_bound (timeout interval : Z) (fuel : nat) (w : World) :
  0 < interval ->
  exists evs,
    trace (snd (wait_for_execution env fuel self prompt_id timeout interval w))
    = (trace w ++ evs)%list
    /\ Z.of_nat (count_polls evs) * interval < Z.max timeout 0 + interval
    /\ count_posts evs = 0%nat.
Proof.
  intros Hi.
  set (w1 := emit (Log INFO ("Waiting for prompt " ++ py_str env prompt_id ++ " to complete...")) w).
  destruct (wait_loop_poll_bound (now w) timeout interval Hi fuel w1)
    as (evs & Htr & Hposts & Hpolls).
  exists (Log INFO ("Waiting for prompt " ++ py_str env prompt_id ++ " to complete...") :: evs).
  change (wait_for_execution env fuel self prompt_id timeout interval w)
    with (wait_loop env fuel self prompt_id (now w) timeout interval w1).
  split; [rewrite Htr; unfold w1, emit; simpl; now rewrite <- app_assoc|].
  change (count_polls (Log INFO ("Waiting for prompt " ++ py_str env prompt_id ++ " to complete...") :: evs))
    with (count_polls evs).
  change (count_posts (Log INFO ("Waiting for prompt " ++ py_str env prompt_id ++ " to complete...") :: evs))
    with (count_posts evs).
  split; [|exact Hposts].
  simpl in Hpolls. rewrite Z.sub_diag, Z.sub_0_r in Hpolls.
  destruct Hpolls as [-> | Hb]; simpl; lia.
Qed.

(** X9. [wait_for_execution] lets only two errors out: the
    [TimeoutError], and then at least [timeout] ticks have passed
    since the call, or, when the interval is negative, the
    [ValueError] of [time.sleep].  Errors of the polls themselves
    never leave it. *)
Theorem wait_raises_only
    (timeout interval : Z) (fuel : nat) (w w' : World) (e : exn) :
  wait_for_execution env fuel self prompt_id timeout interval w = (Raise e, w') ->
  (e = timed_out /\ timeout <= now w' - now w)
  \/ (e = sleep_error /\ interval < 0).
Proof.
  intros Hrun.
  change (wait_for_execution env fuel self prompt_id timeout interval w)
    with (wait_loop env fuel self prompt_id (now w) timeout interval
            (emit (Log INFO ("Waiting for prompt " ++ py_str env prompt_id ++ " to complete...")) w))
    in Hrun.
  now apply wait_loop_raises in Hrun.
Qed.

(** X10. A negative interval does not stop the first poll: when that
    poll does not complete, the call ends in the [ValueError] of
    [time.sleep] after exactly one poll and no sleep; it is not caught
    by the handler around the poll. *)
Theorem wait_negative_interval
    (timeout interval : Z) (fuel : nat) (w : World) :
  0 < timeout ->
  interval < 0 ->
  reports_outputs env self prompt_id (calls w) = false ->
  exists w' evs,
    wait_for_execution env (S fuel) self prompt_id timeout interval w
    = (Raise sleep_error, w')
    /\ trace w' = (trace w ++ evs)%list
    /\ count_polls evs = 1%nat
    /\ count_sleeps evs = 0%nat.
Proof.
  intros Ht Hi Hc.
  set (w1 := emit (Log INFO ("Waiting for prompt " ++ py_str env prompt_id ++ " to complete...")) w).
  change (wait_for_execution env (S fuel) self prompt_id timeout interval w)
    with (wait_loop env (S fuel) self prompt_id (now w) timeout interval w1).
  rewrite wait_loop_negative; auto; [|simpl; lia].
  eexists. eexists. split; [reflexivity|]. simpl.
  split; [now rewrite <- app_assoc|].
  unfold poll_log. destruct (classify_poll env self prompt_id (calls w));
    split; reflexivity.
Qed.

End PollingExtras.

Lemma wait_poll_bound_witness :
  exists evs,
    trace (snd (wait_for_execution Sample.flaky_env 4 Sample.client (JStr "p1") 300 5
                                   (Sample.world_with JNull)))
    = ([] ++ evs)%list
    /\ Z.of_nat (count_polls evs) * 5 < Z.max 300 0 + 5
    /\ count_posts evs = 0%nat.
Proof.
  apply (wait_poll_bound Sample.flaky_env Sample.client (JStr "p1") 300 5 4
           (Sample.world_with JNull)).
  lia.
Defined.

Lemma wait_raises_only_witness :
  (timed_out = timed_out /\ 10 <= now (snd (wait_for_execution Sample.idle_env 3
                                              Sample.client (JStr "p1") 10 5
                                              (Sample.world_with JNull))) - 0)
  \/ (timed_out = sleep_error /\ 5 < 0).
Proof.
  apply (wait_raises_only Sample.idle_env Sample.client (JStr "p1") 10 5 3
           (Sample.world_with JNull)).
  reflexivity.
Defined.

Lemma wait_negative_interval_witness :
  exists w' evs,
    wait_for_execution Sample.idle_env 1 Sample.client (JStr "p1") 10 (-1)
                       (Sample.world_with JNull)
    = (Raise sleep_error, w')
    /\ trace w' = ([] ++ evs)%list
    /\ count_polls evs = 1%nat
    /\ count_sleeps evs = 0%nat.
Proof.
  apply (wait_negative_interval Sample.idle_env Sample.client (JStr "p1") 10 (-1) 0
           (Sample.world_with JNull)).
  - lia.
  - lia.
  - reflexivity.
Defined.

(** ** More on submission and the composed run *)

Section SubmissionExtras.
Variable env : Env.
Variable self : ComfyUIClient.

(** X11. An answer with a status in 200..299 is handed to
    [json.loads] and the ["prompt_id"] of what it returns is returned,
    whatever it is; a body that [json.loads] rejects raises the error
    of [json.loads] ([JSONDecodeError], or [UnicodeDecodeError] for
    bytes that are not text), and a reply without the key raises
    [KeyError] (a reply that is not a mapping, [TypeError]).  One
    request was made, and none of these failures is logged by
    [queue_prompt]: its handler is for HTTP status errors only. *)
Theorem queue_prompt_accepted
    (prompt : json) (w : World) (status : Z) (reason body : string) :
  urlopen_reply env (calls w) (PostPrompt (server_address self) prompt)
  = Reply status reason body ->
  200 <= status < 300 ->
  queue_prompt env self prompt w =
  (match json_loads env body with
   | inl reply => PyOps.getitem reply "prompt_id"
   | inr err => Raise (loads_exn err)
   end,
   mkWorld (now w + Z.of_N (urlopen_ticks env (calls w))) (S (calls w))
           (trace w ++ [Http (PostPrompt (server_address self) prompt)])
           (dirs w) (document w) (files w)).
Proof.
  intros Hreply Hstatus.
  unfold queue_prompt, try_except, bind, urlopen. rewrite Hreply.
  assert (Hs : (200 <=? status) && (status <? 300) = true).
  { apply andb_true_intro. split; [apply Z.leb_le|apply Z.ltb_lt]; lia. }
  rewrite Hs. unfold loads.
  destruct (json_loads env body) as [reply|err]; [|destruct err; reflexivity].
  unfold ret, lift. simpl.
  destruct reply as [| | | | | |d]; try reflexivity.
  simpl. destruct (Dict.get d "prompt_id"); reflexivity.
Qed.

(** X12. When the server cannot be reached, the [URLError] of the
    transport leaves [queue_prompt] as it is: it is not an
    [HTTPError], so nothing is logged; and [get_images] ends there
    without polling. *)
Theorem queue_prompt_unreachable
    (prompt : json) (w : World) (reason : string) (fuel : nat) :
  urlopen_reply env (calls w) (PostPrompt (server_address self) prompt)
  = Unreachable reason ->
  let e := Exn URLError ("<urlopen error " ++ reason ++ ">") in
  let w' := mkWorld (now w + Z.of_N (urlopen_ticks env (calls w))) (S (calls w))
                    (trace w ++ [Http (PostPrompt (server_address self) prompt)])
                    (dirs w) (document w) (files w) in
  queue_prompt env self prompt w = (Raise e, w')
  /\ get_images env fuel self prompt w = (Raise e, w')
  /\ isinstance e HTTPError = false.
Proof.
  intros Hreply e w'.
  assert (Hq : queue_prompt env self prompt w = (Raise e, w')).
  { unfold queue_prompt, try_except, bind, urlopen. now rewrite Hreply. }
  split; [exact Hq|]. split; [|reflexivity].
  unfold get_images, bind. now rewrite Hq.
Qed.

(** Every submission makes exactly one request and no poll. *)
Lemma queue_prompt_trace (prompt : json) (w : World) :
  exists evs,
    trace (snd (queue_prompt env self prompt w)) = (trace w ++ evs)%list
    /\ count_posts evs = 1%nat
    /\ count_polls evs = 0%nat.
Proof.
  unfold queue_prompt, try_except, bind, urlopen.
  destruct (urlopen_reply env (calls w) _) as [status reason body|reason].
  - destruct ((200 <=? status) && (status <? 300)).
    + exists [Http (PostPrompt (server_address self) prompt)].
      split; [|split; reflexivity].
      unfold loads.
      destruct (json_loads env body) as [reply|err]; [|destruct err; reflexivity].
      unfold ret, lift. simpl.
      destruct (PyOps.getitem reply "prompt_id") as [v|e|] eqn:E; try reflexivity.
      assert (Hnot : isinstance e HTTPError = false).
      { unfold PyOps.getitem, PyOps.type_error in E.
        repeat (first [ discriminate | case_match ]).
        all: inject_outcomes; reflexivity. }
      rewrite Hnot. reflexivity.
    + simpl. unfold decode.
      destruct (utf8_decode env body) as [text|msg]; eexists;
        unfold logging, raise, ret, emit, interact; simpl;
        (split; [first [now rewrite <- app_assoc | reflexivity]|]);
        split; reflexivity.
  - exists [Http (PostPrompt (server_address self) prompt)].
    split; [|split; reflexivity]. reflexivity.
Qed.

(** The retrieval loops add only retrievals to the trace. *)
Lemma fetch_node_images_quiet (todo : list json) :
  forall (node_images : list bytes) (w : World),
    exists evs,
      trace (snd (fetch_node_images env self todo node_images w))
      = (trace w ++ evs)%list
      /\ count_posts evs = 0%nat
      /\ count_polls evs = 0%nat.
Proof.
  induction todo as [|image rest IH]; intros acc w.
  - exists []. simpl. now rewrite app_nil_r.
  - cbn [fetch_node_images]. unfold bind, lift.
    destruct (PyOps.getitem image "filename") as [f|e|];
      try (exists []; simpl; now rewrite app_nil_r).
    destruct (PyOps.getitem image "subfolder") as [sf|e|];
      try (exists []; simpl; now rewrite app_nil_r).
    destruct (PyOps.getitem image "type") as [ty|e|];
      try (exists []; simpl; now rewrite app_nil_r).
    unfold get_image_file. rewrite urlopen_retrieve.
    destruct (retrieve env (calls w) _) as [body|e].
    + destruct (IH (acc ++ [body])%list
                  (interact (Z.of_N (urlopen_ticks env (calls w)))
                     (emit (Http (GetView (server_address self) f sf ty)) w)))
        as (evs & Htr & Hp & Hq).
      exists (Http (GetView (server_address self) f sf ty) :: evs).
      split; [rewrite Htr; simpl; now rewrite <- app_assoc|]. split; assumption.
    + exists [Http (GetView (server_address self) f sf ty)].
      split; [reflexivity|]. split; reflexivity.
Qed.

Lemma fetch_outputs_quiet (todo : pydict json) :
  forall (images : pydict (list bytes)) (w : World),
    exists evs,
      trace (snd (fetch_outputs env self todo images w)) = (trace w ++ evs)%list
      /\ count_posts evs = 0%nat
      /\ count_polls evs = 0%nat.
Proof.
  induction todo as [|[node_id output] rest IH]; intros images w.
  - exists []. simpl. now rewrite app_nil_r.
  - cbn [fetch_outputs]. unfold bind at 1. unfold lift at 1.
    destruct (PyOps.get output "images" (JList [])) as [listed|e|];
      try (exists []; simpl; now rewrite app_nil_r).
    unfold bind at 1. unfold lift at 1.
    destruct (PyOps.iter listed) as [descriptors|e|];
      try (exists []; simpl; now rewrite app_nil_r).
    unfold bind at 1.
    destruct (fetch_node_images_quiet descriptors [] w) as (evs1 & Htr1 & Hp1 & Hq1).
    destruct (fetch_node_images env self descriptors [] w) as [[node_images|e|] w1];
      simpl in Htr1.
    + destruct (IH (Dict.set images node_id node_images) w1) as (evs & Htr & Hp & Hq).
      exists (evs1 ++ evs)%list.
      split; [rewrite Htr, Htr1; now rewrite <- app_assoc|].
      rewrite count_posts_app, count_polls_app, Hp1, Hq1, Hp, Hq. auto.
    + exists evs1. simpl. auto.
    + exists evs1. simpl. auto.
Qed.

(** X13. Whatever the server answers and however the run ends,
    [get_images] submits the workflow exactly once and, with its
    defaults of 300 and 5 seconds, polls the history endpoint at most
    60 times. *)
Theorem get_images_request_budget (fuel : nat) (prompt : json) (w : World) :
  0 < ticks_per_second env ->
  exists evs,
    trace (snd (get_images env fuel self prompt w)) = (trace w ++ evs)%list
    /\ count_posts evs = 1%nat
    /\ (count_polls evs <= 60)%nat.
Proof.
  intros Hz.
  destruct (queue_prompt_trace prompt w) as (evs0 & Htr0 & Hp0 & Hq0).
  unfold get_images. unfold bind at 1.
  destruct (queue_prompt env self prompt w) as [[prompt_id|e|] w1]; simpl in Htr0;
    try (exists evs0; simpl; repeat split; auto; lia).
  unfold bind at 1.
  assert (H5 : 0 < 5 * ticks_per_second env) by lia.
  set (w1' := emit (Log INFO ("Waiting for prompt " ++ py_str env prompt_id ++ " to complete...")) w1).
  destruct (wait_loop_poll_bound env self prompt_id (now w1)
              (300 * ticks_per_second env) (5 * ticks_per_second env) H5 fuel w1')
    as (evs1 & Htr1 & Hp1 & Hq1).
  change (wait_for_execution env fuel self prompt_id
            (300 * ticks_per_second env) (5 * ticks_per_second env) w1)
    with (wait_loop env fuel self prompt_id (now w1)
            (300 * ticks_per_second env) (5 * ticks_per_second env) w1').
  assert (Hbound : (count_polls evs1 <= 60)%nat).
  { change (now w1') with (now w1) in Hq1.
    rewrite Z.sub_diag, Z.sub_0_r in Hq1.
    destruct Hq1 as [-> | Hb]; [lia|].
    assert (Hlt : (Z.of_nat (count_polls evs1) - 1) * (5 * ticks_per_second env)
                  < 60 * (5 * ticks_per_second env)) by lia.
    apply Z.mul_lt_mono_pos_r in Hlt; lia. }
  assert (Htr1' : trace (snd (wait_loop env fuel self prompt_id (now w1)
                    (300 * ticks_per_second env) (5 * ticks_per_second env) w1'))
                  = (trace w ++ evs0
                     ++ Log INFO ("Waiting for prompt " ++ py_str env prompt_id ++ " to complete...")
                     :: evs1)%list).
  { rewrite Htr1. unfold w1', emit. simpl. rewrite Htr0.
    now rewrite <- !app_assoc. }
  assert (Hc : count_posts (evs0 ++ Log INFO ("Waiting for prompt " ++ py_str env prompt_id
                                               ++ " to complete...") :: evs1) = 1%nat
               /\ (count_polls (evs0 ++ Log INFO ("Waiting for prompt " ++ py_str env prompt_id
                                                ++ " to complete...") :: evs1) <= 60)%nat).
  { rewrite count_posts_app, count_polls_app, Hp0, Hq0.
    change (count_posts (Log INFO ("Waiting for prompt " ++ py_str env prompt_id
                                   ++ " to complete...") :: evs1))
      with (count_posts evs1).
    change (count_polls (Log INFO ("Waiting for prompt " ++ py_str env prompt_id
                                   ++ " to complete...") :: evs1))
      with (count_polls evs1).
    rewrite Hp1. split; lia. }
  destruct Hc as [Hc1 Hc2].
  destruct (wait_loop env fuel self prompt_id (now w1)
              (300 * ticks_per_second env) (5 * ticks_per_second env) w1')
    as [[outputs|e|] w2]; simpl in Htr1';
    try (eexists; simpl; split; [exact Htr1'|]; split; assumption).
  unfold bind at 1. unfold lift at 1.
  destruct (PyOps.items outputs) as [items|e|];
    try (eexists; simpl; split; [exact Htr1'|]; split; assumption).
  unfold bind at 1.
  destruct (fetch_outputs_quiet items [] w2) as (evs2 & Htr2 & Hp2 & Hq2).
  exists ((evs0 ++ Log INFO ("Waiting for prompt " ++ py_str env prompt_id ++ " to complete...")
                :: evs1) ++ evs2)%list.
  rewrite count_posts_app, count_polls_app, Hp2, Hq2, !Nat.add_0_r.
  split; [|split; assumption].
  destruct (fetch_outputs env self items [] w2) as [[images|e|] w3];
    simpl in Htr2; simpl; rewrite Htr2, Htr1'; now rewrite <- !app_assoc.
Qed.

End SubmissionExtras.

Lemma queue_prompt_accepted_witness :
  let w := Sample.world_with JNull in
  queue_prompt Sample.serving_env Sample.client (JDict Sample.workflow) w =
  (match json_loads Sample.serving_env "queued" with
   | inl reply => PyOps.getitem reply "prompt_id"
   | inr err => Raise (loads_exn err)
   end,
   mkWorld (0 + 0) 1 ([] ++ [Http (PostPrompt "127.0.0.1:8188" (JDict Sample.workflow))])
           [] JNull []).
Proof.
  apply (queue_prompt_accepted Sample.serving_env Sample.client
           (JDict Sample.workflow) (Sample.world_with JNull) 200 "OK" "queued").
  - reflexivity.
  - lia.
Defined.

Lemma queue_prompt_unreachable_witness :
  let w := Sample.world_with JNull in
  let e := Exn URLError ("<urlopen error " ++ "Connection refused" ++ ">") in
  let w' := mkWorld (0 + 1) 1
                    ([] ++ [Http (PostPrompt "127.0.0.1:8188" (JDict Sample.workflow))])
                    [] JNull [] in
  queue_prompt Sample.flaky_env Sample.client (JDict Sample.workflow) w = (Raise e, w')
  /\ get_images Sample.flaky_env 10 Sample.client (JDict Sample.workflow) w
     = (Raise e, w')
  /\ isinstance e HTTPError = false.
Proof.
  apply (queue_prompt_unreachable Sample.flaky_env Sample.client
           (JDict Sample.workflow) (Sample.world_with JNull) "Connection refused" 10).
  reflexivity.
Defined.

Lemma get_images_request_budget_witness :
  exists evs,
    trace (snd (get_images Sample.serving_env 10 Sample.client
                           (JDict Sample.workflow) (Sample.world_with JNull)))
    = ([] ++ evs)%list
    /\ count_posts evs = 1%nat
    /\ (count_polls evs <= 60)%nat.
Proof.
  apply (get_images_request_budget Sample.serving_env Sample.client 10
           (JDict Sample.workflow) (Sample.world_with JNull)).
  reflexivity.
Defined.

(** ** More on the artifact sink *)

Section SinkExtras.
Variable env : Env.

Lemma puts_app (a b : list event) : puts (a ++ b) = (puts a ++ puts b)%list.
Proof. induction a as [|[] a IH]; simpl; congruence. Qed.

(** Listing [NoCredentialsError] next to [BotoCoreError] adds nothing:
    the handler of [upload_to_s3] takes exactly the instances of
    [BotoCoreError]. *)
Lemma handled_by_upload (e : exn) :
  existsb (isinstance e) [BotoCoreError; NoCredentialsError]
  = isinstance e BotoCoreError.
Proof.
  unfold isinstance. destruct (class_of e); reflexivity.
Qed.

(** X14. [upload_to_s3] makes one upload attempt and either logs
    success, or logs the failure and returns when the error is a
    [BotoCoreError] (of which [NoCredentialsError] is one), or lets
    any other error out unlogged. *)
Theorem upload_to_s3_outcome (put : s3_put) (w : World) :
  upload_to_s3 env put w =
  let w1 := interact 0 (emit (PutObject put) w) in
  match s3_reply env (calls w) put with
  | None =>
      (Return tt,
       emit (Log INFO ("Uploaded to S3: s3://" ++ Str.of_opt (put_bucket put)
                       ++ "/" ++ put_key put)) w1)
  | Some e =>
      if isinstance e BotoCoreError
      then (Return tt, emit (Log ERROR ("Failed to upload to S3: " ++ exn_str e)) w1)
      else (Raise e, w1)
  end.
Proof.
  unfold upload_to_s3, try_except, bind, boto3_put_object.
  destruct (s3_reply env (calls w) put) as [e|]; [|reflexivity].
  rewrite handled_by_upload. destruct (isinstance e BotoCoreError); reflexivity.
Qed.

(** [save_images] on a string identifier, past [os.makedirs]. *)
Lemma save_images_cases (images : pydict (list bytes)) (prompt_id : string)
    (w : World) :
  let dir := path_join "saved_images" prompt_id in
  let s3 := if str2bool (getenv_default env "UPLOAD_TO_S3" "no")
            then Some (get_s3_config env) else None in
  save_images env images (JStr prompt_id) w =
  match makedirs_error env dir with
  | None => save_all env dir prompt_id s3 images
              (add_dirs (ancestors dir) (emit (Makedirs dir) w))
  | Some e => (Raise e, emit (Makedirs dir) w)
  end.
Proof.
  intros dir s3. unfold save_images, bind, ensure_folder. fold dir.
  destruct (makedirs_error env dir); reflexivity.
Qed.

Lemma reported_app (a b : list event) : reported a -> reported b -> reported (a ++ b).
Proof.
  intros Ha Hb put Hin. rewrite puts_app in Hin.
  apply in_or_app. apply in_app_or in Hin as [H|H]; [left; auto|right; auto].
Qed.

Lemma reported_quiet (evs : list event) : puts evs = [] -> reported evs.
Proof. intros H put Hin. rewrite H in Hin. contradiction. Qed.

Lemma upload_to_s3_put (put : s3_put) (w : World) :
  contained_uploads env ->
  exists w' evs,
    upload_to_s3 env put w = (Return tt, w')
    /\ trace w' = (trace w ++ evs)%list
    /\ puts evs = [put]
    /\ ((forall n p, s3_reply env n p = None) -> reported evs).
Proof.
  intros Hc. unfold upload_to_s3, try_except, bind, boto3_put_object.
  destruct (s3_reply env (calls w) put) as [e|] eqn:E.
  - rewrite (Hc _ _ _ E). unfold logging, emit, interact. simpl.
    eexists. eexists. split; [reflexivity|]. simpl.
    rewrite <- app_assoc. simpl. split; [reflexivity|]. split; [reflexivity|].
    intros Hok. rewrite Hok in E. discriminate.
  - unfold logging, emit, interact. simpl.
    eexists. eexists. split; [reflexivity|]. simpl.
    rewrite <- app_assoc. simpl. split; [reflexivity|]. split; [reflexivity|].
    intros _ p [<-|[]]. right. now left.
Qed.

Lemma save_node_images_puts
    (output_dir prompt_id node_id : string) (s3 : option s3_config) :
  s3 = None \/ contained_uploads env ->
  forall (image_list : list bytes) (idx : nat) (w : World),
    node_writable env output_dir node_id image_list idx ->
    forallb (decodable env) image_list = true ->
    exists w' evs,
      save_node_images env output_dir prompt_id node_id s3 image_list idx w
      = (Return tt, w')
      /\ trace w' = (trace w ++ evs)%list
      /\ puts evs = match s3 with
                    | Some cfg => node_puts cfg prompt_id node_id image_list idx
                    | None => []
                    end
      /\ ((forall n p, s3_reply env n p = None) -> reported evs).
Proof.
  intros Hc. induction image_list as [|data rest IH]; intros idx w Hw Hdec.
  - exists w, []. simpl. rewrite app_nil_r.
    split; [reflexivity|]. split; [reflexivity|].
    split; [now destruct s3|]. intros _ put [].
  - simpl in Hdec. apply andb_prop in Hdec as [Hd Hrest].
    unfold decodable in Hd.
    destruct (image_open env data) as [img|] eqn:Himg; [|discriminate].
    cbn [node_writable] in Hw. destruct Hw as [Hsave Hw].
    cbn [save_node_images].
    unfold bind at 1. unfold pil_open. rewrite Himg. unfold ret at 1.
    unfold bind at 1. unfold pil_save at 1. rewrite (Hsave img Himg).
    unfold bind at 1. unfold logging at 1.
    unfold bind at 1.
    set (path := path_join output_dir (node_id ++ "_" ++ Str.of_nat idx ++ ".png")).
    set (w2 := emit (Log INFO ("Saved image: " ++ path))
                    (emit (SaveImage path (png_encode env img)) w)).
    assert (Hhead : reported [SaveImage path (png_encode env img);
                              Log INFO ("Saved image: " ++ path)])
      by (now apply reported_quiet).
    destruct s3 as [cfg|].
    + destruct Hc as [Hnone|Hc]; [discriminate|].
      destruct (upload_to_s3_put
                  (mkPut (cfg_bucket cfg)
                         ("comfyui/" ++ prompt_id ++ "/" ++ node_id ++ "_"
                                     ++ Str.of_nat idx ++ ".png")
                         data (cfg_region cfg) (cfg_access_key cfg)
                         (cfg_secret_key cfg) (cfg_endpoint cfg)) w2 Hc)
        as (w3 & evs3 & Hrun3 & Htr3 & Hputs3 & Hrep3).
      rewrite Hrun3.
      destruct (IH (S idx) w3 Hw Hrest) as (w' & evs & Hrun & Htr & Hputs & Hrep).
      exists w', ([SaveImage path (png_encode env img);
                   Log INFO ("Saved image: " ++ path)] ++ evs3 ++ evs)%list.
      split; [exact Hrun|].
      split; [rewrite Htr, Htr3; unfold w2, emit; simpl; now rewrite <- !app_assoc|].
      split; [rewrite !puts_app, Hputs3, Hputs; reflexivity|].
      intros Hok. apply reported_app; [exact Hhead|].
      apply reported_app; auto.
    + unfold ret at 1.
      destruct (IH (S idx) w2 Hw Hrest) as (w' & evs & Hrun & Htr & Hputs & Hrep).
      exists w', ([SaveImage path (png_encode env img);
                   Log INFO ("Saved image: " ++ path)] ++ evs)%list.
      split; [exact Hrun|].
      split; [rewrite Htr; unfold w2, emit; simpl; now rewrite <- !app_assoc|].
      split; [rewrite puts_app, Hputs; reflexivity|].
      intros Hok. apply reported_app; auto.
Qed.

Lemma save_all_puts (output_dir prompt_id : string) (s3 : option s3_config) :
  s3 = None \/ contained_uploads env ->
  forall (images : pydict (list bytes)) (w : World),
    writable env output_dir images ->
    forallb (decodable env) (concat (map snd images)) = true ->
    exists w' evs,
      save_all env output_dir prompt_id s3 images w = (Return tt, w')
      /\ trace w' = (trace w ++ evs)%list
      /\ puts evs = match s3 with
                    | Some cfg => expected_puts cfg prompt_id images
                    | None => []
                    end
      /\ ((forall n p, s3_reply env n p = None) -> reported evs).
Proof.
  intros Hc. induction images as [|[node_id image_list] rest IH]; intros w Hw Hdec.
  - exists w, []. simpl. rewrite app_nil_r.
    split; [reflexivity|]. split; [reflexivity|].
    split; [now destruct s3|]. intros _ put [].
  - simpl in Hdec. rewrite forallb_app in Hdec. apply andb_prop in Hdec as [Hd Hdec].
    cbn [writable] in Hw. destruct Hw as [Hwn Hw].
    cbn [save_all]. unfold bind at 1.
    destruct (save_node_images_puts output_dir prompt_id node_id s3 Hc
                image_list 1 w Hwn Hd)
      as (w1 & evs1 & Hrun1 & Htr1 & Hputs1 & Hrep1).
    rewrite Hrun1.
    destruct (IH w1 Hw Hdec) as (w' & evs & Hrun & Htr & Hputs & Hrep).
    exists w', (evs1 ++ evs)%list.
    split; [exact Hrun|].
    split; [rewrite Htr, Htr1; now rewrite <- app_assoc|].
    split; [rewrite puts_app, Hputs1, Hputs; now destruct s3|].
    intros Hok. apply reported_app; auto.
Qed.

(** X15. When [os.makedirs] and every [image.save] succeed, every
    artifact decodes, and the object store fails, if at all, only in
    ways [upload_to_s3] catches, [save_images] returns and, with
    uploads switched on, has called [put_object] once per artifact, in
    order, under the key [comfyui/{run id}/{node id}_{index}.png], with
    the bytes as they were fetched (not the re-encoded file) and with
    the bucket, keys, region and endpoint of the environment, unset
    ones as [None]: an incomplete configuration does not switch
    uploads off.  When the store takes every object, each call is
    followed in the log by its "Uploaded to S3" line.  With uploads
    switched off [put_object] is never called. *)
Theorem save_images_remote_keys
    (images : pydict (list bytes)) (prompt_id : string) (w : World) :
  str2bool (getenv_default env "UPLOAD_TO_S3" "no") = false
  \/ contained_uploads env ->
  makedirs_error env (path_join "saved_images" prompt_id) = None ->
  writable env (path_join "saved_images" prompt_id) images ->
  forallb (decodable env) (concat (map snd images)) = true ->
  exists w' evs,
    save_images env images (JStr prompt_id) w = (Return tt, w')
    /\ trace w' = (trace w ++ evs)%list
    /\ puts evs =
       (if str2bool (getenv_default env "UPLOAD_TO_S3" "no")
        then expected_puts (get_s3_config env) prompt_id images
        else [])
    /\ ((forall n p, s3_reply env n p = None) ->
        forall put, In put (puts evs) -> In (Log INFO (uploaded_line put)) evs).
Proof.
  intros Hc Hmk Hw Hdec. rewrite save_images_cases. rewrite Hmk.
  set (dir := path_join "saved_images" prompt_id).
  set (s3 := if str2bool (getenv_default env "UPLOAD_TO_S3" "no")
             then Some (get_s3_config env) else None).
  assert (Hs3 : s3 = None \/ contained_uploads env).
  { destruct Hc as [Hoff|Hc]; [left|now right]. unfold s3. now rewrite Hoff. }
  destruct (save_all_puts dir prompt_id s3 Hs3 images
              (add_dirs (ancestors dir) (emit (Makedirs dir) w)) Hw Hdec)
    as (w' & evs & Hrun & Htr & Hputs & Hrep).
  exists w', (Makedirs dir :: evs).
  split; [exact Hrun|].
  split; [rewrite Htr, (proj1 (add_dirs_frame _ _)); unfold emit; simpl;
          now rewrite <- app_assoc|].
  split.
  - simpl. rewrite Hputs. unfold s3.
    destruct (str2bool (getenv_default env "UPLOAD_TO_S3" "no")); reflexivity.
  - intros Hok put Hin. right. apply (Hrep Hok). exact Hin.
Qed.

End SinkExtras.

(** X15, on a store that takes both images of node "9". *)
Lemma save_images_remote_keys_witness :
  exists w' evs,
    save_images Sample.serving_env Sample.two_images (JStr "p1") (Sample.world_with JNull)
    = (Return tt, w')
    /\ trace w' = ([] ++ evs)%list
    /\ puts evs =
       [mkPut (Some "renders") "comfyui/p1/9_1.png" "first" (Some "us-west-2")
              (Some "AKIA-revoked") (Some "secret") None;
        mkPut (Some "renders") "comfyui/p1/9_2.png" "second" (Some "us-west-2")
              (Some "AKIA-revoked") (Some "secret") None]
    /\ ((forall n p, s3_reply Sample.serving_env n p = None) ->
        forall put, In put (puts evs) -> In (Log INFO (uploaded_line put)) evs).
Proof.
  apply (save_images_remote_keys Sample.serving_env Sample.two_images "p1"
           (Sample.world_with JNull)).
  - right. intros n put e H. discriminate H.
  - reflexivity.
  - simpl. repeat split; intros img _; reflexivity.
  - reflexivity.
Defined.

Section SinkFailures.
Variable env : Env.

(** Saving one artifact that decodes: its file, its log line and the
    upload, then on to the next index. *)
Lemma save_one_artifact
    (prompt_id node_id : string) (s3 : option s3_config)
    (data : bytes) (idx : nat) (w : World) :
  s3 = None \/ contained_uploads env ->
  node_writable env (path_join "saved_images" prompt_id) node_id [data] idx ->
  plain_name prompt_id = true ->
  plain_name node_id = true ->
  decodable env data = true ->
  exists w1 evs,
    (forall rest,
        save_node_images env (path_join "saved_images" prompt_id) prompt_id node_id
                         s3 (data :: rest) idx w
        = save_node_images env (path_join "saved_images" prompt_id) prompt_id node_id
                           s3 rest (S idx) w1)
    /\ trace w1 = (trace w ++ evs)%list
    /\ dirs w1 = dirs w
    /\ saves evs = [(local_layout prompt_id node_id idx, reencode env data)].
Proof.
  intros Hc Hw Hp Hn Hd.
  destruct (save_node_images_layout env prompt_id node_id s3 Hc Hp Hn [data] idx w Hw)
    as (w1 & evs & Hrun & Htr & Hdirs & Hsaves).
  { simpl. now rewrite Hd. }
  exists w1, evs. split; [|auto].
  intros rest. cbn [save_node_images] in *.
  unfold bind in *.
  destruct (pil_open env data w) as [[img|e|] wa]; try discriminate.
  destruct (pil_save env img _ wa) as [[u|e|] wb]; try discriminate.
  destruct (logging INFO _ wb) as [[u'|e|] wc]; try discriminate.
  destruct (match s3 with Some cfg => _ | None => ret tt end wc) as [[u''|e|] wd];
    try discriminate.
  unfold ret in Hrun. injection Hrun as <-. reflexivity.
Qed.

Lemma save_node_images_stops
    (prompt_id node_id : string) (s3 : option s3_config)
    (bad : bytes) (e : exn) (post : list bytes) :
  s3 = None \/ contained_uploads env ->
  plain_name prompt_id = true ->
  plain_name node_id = true ->
  image_open env bad = inr e ->
  forall (pre : list bytes) (idx : nat) (w : World),
    node_writable env (path_join "saved_images" prompt_id) node_id pre idx ->
    forallb (decodable env) pre = true ->
    exists w' evs,
      save_node_images env (path_join "saved_images" prompt_id) prompt_id node_id
                       s3 (pre ++ bad :: post) idx w
      = (Raise e, w')
      /\ trace w' = (trace w ++ evs)%list
      /\ saves evs = node_files env prompt_id node_id pre idx.
Proof.
  intros Hc Hp Hn Hbad. induction pre as [|data pre IH]; intros idx w Hw Hdec.
  - exists w, []. rewrite app_nil_r. split; [|split; reflexivity].
    cbn [app save_node_images]. unfold bind, pil_open. now rewrite Hbad.
  - simpl in Hdec. apply andb_prop in Hdec as [Hd Hrest].
    cbn [node_writable] in Hw. destruct Hw as [Hsave Hw].
    destruct (save_one_artifact prompt_id node_id s3 data idx w Hc
                (conj Hsave I) Hp Hn Hd)
      as (w1 & evs1 & Hstep & Htr1 & _ & Hsaves1).
    destruct (IH (S idx) w1 Hw Hrest) as (w' & evs & Hrun & Htr & Hsaves).
    exists w', (evs1 ++ evs)%list.
    split; [cbn [app]; rewrite Hstep; exact Hrun|].
    split; [rewrite Htr, Htr1; now rewrite <- app_assoc|].
    rewrite saves_app, Hsaves1, Hsaves. reflexivity.
Qed.

Lemma expected_files_app (prompt_id : string) (a b : pydict (list bytes)) :
  expected_files env prompt_id (a ++ b)%list
  = (expected_files env prompt_id a ++ expected_files env prompt_id b)%list.
Proof.
  induction a as [|[n l] a IH]; simpl; [reflexivity|].
  now rewrite IH, app_assoc.
Qed.

(** X16. For plain identifiers, when [os.makedirs] and every
    [image.save] succeed and uploads are switched off or fail only in
    ways [upload_to_s3] catches: an artifact on which [Image.open]
    raises stops [save_images] with that error; the artifacts before
    it, in the nodes before and in its own node, have been written to
    their places; it and everything after it are not. *)
Theorem save_images_stops_at_bad_artifact
    (before after : pydict (list bytes)) (node_id : string)
    (pre post : list bytes) (bad : bytes) (e : exn)
    (prompt_id : string) (w : World) :
  str2bool (getenv_default env "UPLOAD_TO_S3" "no") = false
  \/ contained_uploads env ->
  makedirs_error env (path_join "saved_images" prompt_id) = None ->
  writable env (path_join "saved_images" prompt_id) (before ++ [(node_id, pre)])%list ->
  plain_name prompt_id = true ->
  forallb plain_name (Dict.keys before) = true ->
  plain_name node_id = true ->
  forallb (decodable env) (concat (map snd before) ++ pre) = true ->
  image_open env bad = inr e ->
  exists w' evs,
    save_images env (before ++ (node_id, pre ++ bad :: post) :: after)%list
                (JStr prompt_id) w
    = (Raise e, w')
    /\ trace w' = (trace w ++ evs)%list
    /\ saves evs = expected_files env prompt_id (before ++ [(node_id, pre)])%list.
Proof.
  intros Hc Hmk Hw Hp Hkeys Hn Hdec Hbad.
  rewrite forallb_app in Hdec. apply andb_prop in Hdec as [Hdb Hdp].
  rewrite save_images_cases. rewrite Hmk.
  set (dir := path_join "saved_images" prompt_id).
  set (s3 := if str2bool (getenv_default env "UPLOAD_TO_S3" "no")
             then Some (get_s3_config env) else None).
  assert (Hs3 : s3 = None \/ contained_uploads env).
  { destruct Hc as [Hoff|Hc]; [left|now right]. unfold s3. now rewrite Hoff. }
  set (w0 := add_dirs (ancestors dir) (emit (Makedirs dir) w)).
  assert (Hall : forall (bs : pydict (list bytes)) (v : World),
             writable env dir (bs ++ [(node_id, pre)])%list ->
             forallb plain_name (Dict.keys bs) = true ->
             forallb (decodable env) (concat (map snd bs)) = true ->
             exists v' evs,
               save_all env dir prompt_id s3
                        (bs ++ (node_id, pre ++ bad :: post) :: after)%list v
               = (Raise e, v')
               /\ trace v' = (trace v ++ evs)%list
               /\ saves evs = expected_files env prompt_id (bs ++ [(node_id, pre)])%list).
  { induction bs as [|[n l] bs IH]; intros v Hwr Hk Hd.
    - cbn [app writable] in Hwr. destruct Hwr as [Hwn _].
      cbn [app save_all]. unfold bind at 1.
      destruct (save_node_images_stops prompt_id node_id s3 bad e post Hs3 Hp Hn Hbad
                  pre 1 v Hwn Hdp) as (v' & evs & Hrun & Htr & Hsaves).
      fold dir in Hrun. rewrite Hrun.
      exists v', evs. split; [reflexivity|]. split; [exact Htr|].
      simpl. now rewrite app_nil_r.
    - simpl in Hk, Hd. apply andb_prop in Hk as [Hkn Hk].
      rewrite forallb_app in Hd. apply andb_prop in Hd as [Hdl Hd].
      cbn [app writable] in Hwr. destruct Hwr as [Hwn Hwr].
      cbn [app save_all]. unfold bind at 1.
      destruct (save_node_images_layout env prompt_id n s3 Hs3 Hp Hkn l 1 v Hwn Hdl)
        as (v1 & evs1 & Hrun1 & Htr1 & _ & Hsaves1).
      fold dir in Hrun1. rewrite Hrun1.
      destruct (IH v1 Hwr Hk Hd) as (v' & evs & Hrun & Htr & Hsaves).
      exists v', (evs1 ++ evs)%list.
      split; [exact Hrun|].
      split; [rewrite Htr, Htr1; now rewrite <- app_assoc|].
      rewrite saves_app, Hsaves1, Hsaves. reflexivity. }
  destruct (Hall before w0 Hw Hkeys Hdb) as (w' & evs & Hrun & Htr & Hsaves).
  exists w', (Makedirs dir :: evs).
  split; [exact Hrun|].
  split; [rewrite Htr; unfold w0; rewrite (proj1 (add_dirs_frame _ _));
          unfold emit; simpl; now rewrite <- app_assoc|].
  exact Hsaves.
Qed.



End SinkFailures.

(** X16, for three nodes: the second artifact of node "12" is empty
    and [Image.open] does not identify it. *)
Lemma save_images_stops_at_bad_artifact_witness :
  exists w' evs,
    save_images Sample.corrupt_env
      ([("9", ["first"])] ++ ("12", ["second"] ++ "" :: ["third"]) :: [("15", ["last"])])%list
      (JStr "p1") (Sample.world_with JNull)
    = (Raise Sample.unidentified, w')
    /\ trace w' = ([] ++ evs)%list
    /\ saves evs = [("saved_images/p1/9_1.png", "first");
                    ("saved_images/p1/12_1.png", "second")].
Proof.
  apply (save_images_stops_at_bad_artifact Sample.corrupt_env
           [("9", ["first"])] [("15", ["last"])] "12" ["second"] ["third"] ""
           Sample.unidentified "p1" (Sample.world_with JNull)).
  - left. reflexivity.
  - reflexivity.
  - simpl. repeat split; intros img _; reflexivity.
  - reflexivity.
  - reflexivity.
  - reflexivity.
  - reflexivity.
  - reflexivity.
Defined.


Section SinkPaths.
Variable env : Env.

Lemma upload_frame (put : s3_put) (w : World) :
  exists evs,
    trace (snd (upload_to_s3 env put w)) = (trace w ++ evs)%list
    /\ saves evs = [].
Proof.
  unfold upload_to_s3, try_except, bind, boto3_put_object.
  destruct (s3_reply env (calls w) put) as [e|].
  - destruct (existsb (isinstance e) [BotoCoreError; NoCredentialsError]).
    + eexists. unfold logging, emit, interact. simpl.
      split; [now rewrite <- app_assoc|reflexivity].
    + exists [PutObject put]. split; reflexivity.
  - eexists. unfold logging, emit, interact. simpl.
    split; [now rewrite <- app_assoc|reflexivity].
Qed.

(** Whatever happens, the files one node's loop writes are named by
    joining the node's file names to the run directory. *)
Lemma save_node_images_frame
    (dir prompt_id node_id : string) (s3 : option s3_config) :
  forall (image_list : list bytes) (idx : nat) (w : World),
    exists evs,
      trace (snd (save_node_images env dir prompt_id node_id s3 image_list idx w))
      = (trace w ++ evs)%list
      /\ Forall (fun file => exists i,
                   fst file = path_join dir (node_id ++ "_" ++ Str.of_nat i ++ ".png"))
                (saves evs).
Proof.
  induction image_list as [|data rest IH]; intros idx w.
  - exists []. simpl. rewrite app_nil_r. split; [reflexivity|constructor].
  - cbn [save_node_images]. unfold bind at 1. unfold pil_open.
    destruct (image_open env data) as [img|e0].
    + unfold ret at 1. unfold bind at 1. unfold pil_save at 1.
      set (path := path_join dir (node_id ++ "_" ++ Str.of_nat idx ++ ".png")).
      destruct (save_error env path img) as [e1|].
      { exists []. simpl. rewrite app_nil_r. split; [reflexivity|constructor]. }
      unfold bind at 1. unfold logging at 1. unfold bind at 1.
      set (w2 := emit (Log INFO ("Saved image: " ++ path))
                      (emit (SaveImage path (png_encode env img)) w)).
      assert (Hup : exists evs3,
                 trace (snd (match s3 with
                             | Some cfg =>
                                 upload_to_s3 env
                                   (mkPut (cfg_bucket cfg)
                                          ("comfyui/" ++ prompt_id ++ "/" ++ node_id
                                                      ++ "_" ++ Str.of_nat idx ++ ".png")
                                          data (cfg_region cfg) (cfg_access_key cfg)
                                          (cfg_secret_key cfg) (cfg_endpoint cfg))
                             | None => ret tt
                             end w2)) = (trace w2 ++ evs3)%list
                 /\ saves evs3 = []).
      { destruct s3 as [cfg|]; [apply upload_frame|].
        exists []. simpl. now rewrite app_nil_r. }
      destruct Hup as (evs3 & Htr3 & Hs3).
      assert (Hhead : exists i,
                 fst (path, png_encode env img)
                 = path_join dir (node_id ++ "_" ++ Str.of_nat i ++ ".png")).
      { now exists idx. }
      destruct (match s3 with Some cfg => _ | None => ret tt end w2)
        as [[u|e|] w3]; simpl in Htr3.
      * destruct (IH (S idx) w3) as (evs & Htr & Hsaves).
        exists ([SaveImage path (png_encode env img);
                 Log INFO ("Saved image: " ++ path)] ++ evs3 ++ evs)%list.
        split.
        -- rewrite Htr, Htr3. unfold w2, emit. simpl. now rewrite <- !app_assoc.
        -- rewrite !saves_app, Hs3. simpl. now constructor.
      * exists ([SaveImage path (png_encode env img);
                 Log INFO ("Saved image: " ++ path)] ++ evs3)%list.
        split.
        -- simpl. rewrite Htr3. unfold w2, emit. simpl. now rewrite <- !app_assoc.
        -- rewrite saves_app, Hs3. simpl. constructor; [exact Hhead|constructor].
      * exists ([SaveImage path (png_encode env img);
                 Log INFO ("Saved image: " ++ path)] ++ evs3)%list.
        split.
        -- simpl. rewrite Htr3. unfold w2, emit. simpl. now rewrite <- !app_assoc.
        -- rewrite saves_app, Hs3. simpl. constructor; [exact Hhead|constructor].
    + exists []. simpl. rewrite app_nil_r. split; [reflexivity|constructor].
Qed.

Lemma prefix_of_append (a b : string) : String.prefix a (a ++ b) = true.
Proof.
  induction a as [|c a IH]; simpl; [now destruct b|].
  destruct (ascii_dec c c) as [_|N]; [exact IH|now elim N].
Qed.

(** In a directory with a name, a plain file name is joined as an
    entry of the directory. *)
Lemma path_join_child (dir node_id rest : string) :
  dir <> "" ->
  plain_name node_id = true ->
  path_join dir (node_id ++ rest) = child dir (node_id ++ rest).
Proof.
  intros Hdir Hn. apply plain_name_parts in Hn as [Hn1 Hn2].
  unfold path_join, child.
  rewrite starts_with_slash_append by assumption.
  rewrite (no_slash_no_prefix _ Hn2).
  destruct (String.eqb dir "") eqn:E; [apply String.eqb_eq in E; contradiction|].
  reflexivity.
Qed.

Lemma save_all_frame (dir prompt_id : string) (s3 : option s3_config) :
  dir <> "" ->
  forall (images : pydict (list bytes)) (w : World),
    forallb plain_name (Dict.keys images) = true ->
    exists evs,
      trace (snd (save_all env dir prompt_id s3 images w)) = (trace w ++ evs)%list
      /\ Forall (entry_of dir (Dict.keys images)) (saves evs).
Proof.
  intros Hdir. induction images as [|[node_id image_list] rest IH]; intros w Hkeys.
  - exists []. simpl. rewrite app_nil_r. split; [reflexivity|constructor].
  - simpl in Hkeys. apply andb_prop in Hkeys as [Hn Hkeys].
    cbn [save_all]. unfold bind at 1.
    destruct (save_node_images_frame dir prompt_id node_id s3 image_list 1 w)
      as (evs1 & Htr1 & Hs1).
    assert (Hs1' : Forall (entry_of dir (Dict.keys ((node_id, image_list) :: rest)))
                          (saves evs1)).
    { eapply Forall_impl; [|exact Hs1]. intros file [i Hi].
      exists node_id, i. split; [now left|].
      rewrite Hi. now apply path_join_child. }
    assert (Hmono : forall l, Forall (entry_of dir (Dict.keys rest)) l ->
                      Forall (entry_of dir (Dict.keys ((node_id, image_list) :: rest))) l).
    { intros l. apply Forall_impl. intros file (n & i & Hin & Hf).
      exists n, i. split; [now right|exact Hf]. }
    destruct (save_node_images env dir prompt_id node_id s3 image_list 1 w)
      as [[u|e|] w1]; simpl in Htr1.
    + destruct (IH w1 Hkeys) as (evs & Htr & Hs).
      exists (evs1 ++ evs)%list.
      split; [rewrite Htr, Htr1; now rewrite <- app_assoc|].
      rewrite saves_app. apply Forall_app. split; [exact Hs1'|now apply Hmono].
    + exists evs1. simpl. now split.
    + exists evs1. simpl. now split.
Qed.

(** X18. A run identifier that is an absolute path takes the place of
    [saved_images]: [os.path.join] drops its first argument, so
    [save_images] calls [os.makedirs] on the identifier itself, and
    every file it writes for nodes with plain identifiers, however the
    call ends, is an entry [{node id}_{index}.png] of that directory:
    nothing is written under [saved_images]. *)
Theorem save_images_absolute_run_id
    (images : pydict (list bytes)) (prompt_id : string) (w : World) :
  Str.starts_with "/" prompt_id = true ->
  forallb plain_name (Dict.keys images) = true ->
  exists evs,
    trace (snd (save_images env images (JStr prompt_id) w))
    = (trace w ++ Makedirs prompt_id :: evs)%list
    /\ Forall (entry_of prompt_id (Dict.keys images)) (saves evs)
    /\ Forall (fun file => String.prefix prompt_id (fst file) = true
                           /\ String.prefix "saved_images" (fst file) = false)
              (saves evs).
Proof.
  intros Habs Hkeys.
  assert (Hdir : path_join "saved_images" prompt_id = prompt_id).
  { unfold path_join. now rewrite Habs. }
  assert (Hne : prompt_id <> "").
  { intros ->. discriminate Habs. }
  rewrite save_images_cases. rewrite Hdir.
  set (s3 := if str2bool (getenv_default env "UPLOAD_TO_S3" "no")
             then Some (get_s3_config env) else None).
  assert (Hgoal : exists evs,
             trace (snd (match makedirs_error env prompt_id with
                         | None => save_all env prompt_id prompt_id s3 images
                                     (add_dirs (ancestors prompt_id)
                                               (emit (Makedirs prompt_id) w))
                         | Some e => (Raise e, emit (Makedirs prompt_id) w)
                         end))
             = (trace w ++ Makedirs prompt_id :: evs)%list
             /\ Forall (entry_of prompt_id (Dict.keys images)) (saves evs)).
  { destruct (makedirs_error env prompt_id) as [e|].
    - exists []. split; [reflexivity|constructor].
    - destruct (save_all_frame prompt_id prompt_id s3 Hne images
                  (add_dirs (ancestors prompt_id) (emit (Makedirs prompt_id) w)) Hkeys)
        as (evs & Htr & Hs).
      exists evs. split; [|exact Hs].
      rewrite Htr, (proj1 (add_dirs_frame _ _)). unfold emit. simpl.
      now rewrite <- app_assoc. }
  destruct Hgoal as (evs & Htr & Hs).
  exists evs. split; [exact Htr|]. split; [exact Hs|].
  eapply Forall_impl; [|exact Hs].
  intros file (n & i & _ & Hf). rewrite Hf. split.
  - unfold child. destruct (Str.ends_with_char "/" prompt_id); apply prefix_of_append.
  - destruct prompt_id as [|c t]; [contradiction|].
    unfold Str.starts_with in Habs. rewrite prefix_slash in Habs.
    apply Ascii.eqb_eq in Habs. subst c.
    unfold child. destruct (Str.ends_with_char "/" (String "/" t)); reflexivity.
Qed.

End SinkPaths.

(** X18, for the run identifier ["/tmp/run"]. *)
Lemma save_images_absolute_run_id_witness :
  exists evs,
    trace (snd (save_images Sample.serving_env Sample.two_images (JStr "/tmp/run")
                            (Sample.world_with JNull)))
    = ([] ++ Makedirs "/tmp/run" :: evs)%list
    /\ Forall (entry_of "/tmp/run" (Dict.keys Sample.two_images)) (saves evs)
    /\ Forall (fun file => String.prefix "/tmp/run" (fst file) = true
                           /\ String.prefix "saved_images" (fst file) = false)
              (saves evs).
Proof.
  apply (save_images_absolute_run_id Sample.serving_env Sample.two_images
           "/tmp/run" (Sample.world_with JNull)).
  - reflexivity.
  - reflexivity.
Defined.

(** ** The client object *)

Section ClientExtras.

Lemma rstrip_slash_spec (s : string) :
  Str.ends_with_char "/" (rstrip_slash s) = false
  /\ exists n, s = rstrip_slash s ++ slashes n.
Proof.
  induction s as [|c t [IHend (n & IHeq)]].
  - split; [reflexivity|]. now exists 0%nat.
  - cbn [rstrip_slash].
    destruct (Ascii.eqb c "/") eqn:Ec; cbn [andb].
    + destruct (String.eqb (rstrip_slash t) "") eqn:Et.
      * split; [reflexivity|]. exists (S n).
        apply Ascii.eqb_eq in Ec. subst c.
        apply String.eqb_eq in Et. rewrite Et in IHeq.
        cbn [slashes append]. now rewrite IHeq at 1.
      * split.
        -- destruct (rstrip_slash t) as [|d t'] eqn:Er; [discriminate|].
           exact IHend.
        -- exists n. cbn [append]. now rewrite IHeq at 1.
    + split.
      * destruct (rstrip_slash t) as [|d t'] eqn:Er.
        -- cbn [Str.ends_with_char]. apply Ascii.eqb_neq.
           apply Ascii.eqb_neq in Ec. congruence.
        -- exact IHend.
      * exists n. cbn [append]. now rewrite IHeq at 1.
Qed.

(** X19. A client is created with the server address stripped of all
    trailing slashes: the stored address never ends in ["/"], and the
    given address is the stored one followed by slashes only (so an
    address without a trailing slash is stored as it is). *)
Theorem new_client_strips_slashes (env : Env) (server : string) :
  Str.ends_with_char "/" (server_address (new_client env server)) = false
  /\ exists n, server = server_address (new_client env server) ++ slashes n.
Proof. apply rstrip_slash_spec. Qed.

End ClientExtras.

(** ** The pipeline *)

Section PipelineExtras.
Variable env : Env.

Lemma patch_first_none (target : json -> bool) (update : json -> json)
    (doc : pydict json) :
  existsb target (Doc.nodes doc) = false ->
  patch_first target update doc = None.
Proof.
  induction doc as [|[i n] rest IH]; simpl; [reflexivity|].
  intros H. apply orb_false_elim in H as [Hn Hrest].
  now rewrite Hn, IH.
Qed.

(** X20. A workflow without a node that can take the prompt is never
    submitted: when a non-empty prompt is given (and no image), the
    pipeline stops at the patcher with its [ValueError] right after
    loading the file; no request has been made and nothing has been
    logged or written. *)
Theorem pipeline_stops_before_submission
    (fuel : nat) (args : Args) (doc : pydict json) (prompt_text : string)
    (w : World) :
  file_exists env (arg_workflow args) = true ->
  json_loads env (file_text env (arg_workflow args)) = inl (JDict doc) ->
  arg_upload_image args = None ->
  arg_prompt args = Some prompt_text ->
  Py.truthy_str prompt_text = true ->
  forallb Doc.record_or_scalar (Doc.nodes doc) = true ->
  existsb Doc.prompt_target (Doc.nodes doc) = false ->
  run_prompt_pipeline env fuel args w
  = (Raise no_prompt_node, set_document (JDict doc) w).
Proof.
  intros Hfile Hjson Hup Hprompt Htruthy Hty Hnone.
  unfold run_prompt_pipeline. unfold bind at 1.
  unfold load_workflow. rewrite Hfile. unfold loads. rewrite Hjson.
  unfold ret at 1. unfold bind at 1. unfold bind at 1.
  rewrite Hup. unfold ret at 1. unfold bind at 1.
  rewrite Hprompt, Htruthy.
  pose proof (prompt_patch_run doc prompt_text (set_document (JDict doc) w)
                eq_refl Hty) as Hrun.
  rewrite (patch_first_none _ _ _ Hnone) in Hrun. now rewrite Hrun.
Qed.

(** X21. [main] catches [Exception] only: an error outside that class
    (a [KeyboardInterrupt], say) leaves [main] as it left the pipeline,
    and nothing is logged for it: the world is the one the pipeline
    left behind. *)
Theorem main_passes_non_exceptions (fuel : nat) (w w' : World) (e : exn) :
  run_prompt_pipeline env fuel (parse_arguments env) w = (Raise e, w') ->
  isinstance e Exception = false ->
  main env fuel w = (Raise e, w').
Proof.
  intros Hrun Hexc.
  unfold main, try_except, bind, ret. rewrite Hrun. simpl. now rewrite Hexc.
Qed.

(** *** Computations without output *)

Variable extra : string -> Prop.






























End PipelineExtras.

Section PipelineOutputs.
Variable env : Env.


End PipelineOutputs.

Lemma pipeline_stops_before_submission_witness :
  run_prompt_pipeline Sample.bare_env 10 Sample.prompt_args (Sample.world_with JNull)
  = (Raise no_prompt_node,
     set_document (JDict Sample.bare_workflow) (Sample.world_with JNull)).
Proof.
  exact (pipeline_stops_before_submission Sample.bare_env 10 Sample.prompt_args
           Sample.bare_workflow "a dog" (Sample.world_with JNull)
           eq_refl eq_refl eq_refl eq_refl eq_refl eq_refl eq_refl).
Defined.

Lemma main_passes_non_exceptions_witness :
  main Sample.interrupted_env 10 (Sample.world_with JNull)
  = (Raise Sample.interrupted,
     snd (run_prompt_pipeline Sample.interrupted_env 10 Sample.args
                              (Sample.world_with JNull))).
Proof.
  apply (main_passes_non_exceptions Sample.interrupted_env 10
           (Sample.world_with JNull)).
  - reflexivity.
  - reflexivity.
Defined.


(** ** Uploading an input image *)

Section UploadExtras.
Variable host : Upload.Host.



(** X24. For an image given by a local path nothing on disk changes,
    however the call ends: the file is posted from where it is, under
    its base name and as [image/png], and is never removed; when it
    does not exist the call fails with [FileNotFoundError] before
    anything is posted. *)
Theorem upload_leaves_local_file
    (image_path server_address : string) (d : Upload.Disk) :
  Upload.is_remote host image_path = false ->
  let url := "http://" ++ rstrip_slash server_address ++ "/upload/image" in
  let r := Upload.upload_input_image host image_path server_address d in
  Upload.files (snd r) = Upload.files d
  /\ (Str.mem image_path (Upload.files d) = true ->
      fst r = Upload.post host url (Upload.basename image_path) "image/png"
      /\ Upload.posts (Upload.actions (snd r))
         = (Upload.posts (Upload.actions d)
            ++ [(url, Upload.basename image_path, "image/png")])%list)
  /\ (Str.mem image_path (Upload.files d) = false ->
      (exists msg, fst r = Raise (Exn FileNotFoundError msg))
      /\ snd r = d).
Proof.
  intros Hlocal url r.
  unfold r, Upload.upload_input_image, Upload.prepare_image_for_upload.
  unfold Upload.is_remote in Hlocal. rewrite Hlocal.
  unfold Upload.post_file. fold url.
  assert (Hposts : forall l a, Upload.posts (l ++ [a])
                               = (Upload.posts l ++ Upload.posts [a])%list).
  { intros l a. unfold Upload.posts. now rewrite flat_map_app. }
  destruct (Str.mem image_path (Upload.files d)) eqn:Hmem.
  - destruct (Upload.post host url (Upload.basename image_path) "image/png")
      as [result|e|];
      unfold Upload.clean_up; rewrite String.eqb_refl;
      cbn [negb andb fst snd Upload.files Upload.act Upload.actions];
      (split; [reflexivity|]);
      (split; [intros _; split; [reflexivity|];
               cbn [Upload.act Upload.actions]; rewrite !Hposts; simpl;
               now rewrite ?app_nil_r
              |discriminate]).
  - unfold Upload.clean_up. rewrite String.eqb_refl.
    cbn [negb andb fst snd].
    split; [reflexivity|]. split; [discriminate|].
    intros _. split; [eexists; reflexivity|reflexivity].
Qed.

(** X25. The temporary file is not removed when the download breaks
    off after the file was created: the error of [response.read()] is
    raised from [prepare_image_for_upload], outside the [try] of
    [upload_input_image], so the file stays and nothing is posted. *)
Theorem upload_keeps_temp_file_of_failed_download
    (image_path server_address : string) (e : exn) (d : Upload.Disk) :
  Upload.is_remote host image_path = true ->
  Upload.url_open host image_path = None ->
  Upload.url_read host image_path = Raise e ->
  let name := Upload.temp_name host (Upload.temp_suffix image_path) in
  Str.mem name (Upload.files d) = false ->
  Upload.upload_input_image host image_path server_address d
  = (Raise e,
     Upload.mkDisk (name :: Upload.files d)
                   (Upload.actions d ++ [Upload.CreateTemp name])).
Proof.
  intros Hremote Hopen Hread name Hfresh.
  unfold Upload.upload_input_image, Upload.prepare_image_for_upload.
  unfold Upload.is_remote in Hremote. rewrite Hremote, Hopen, Hread.
  fold (Upload.temp_suffix image_path). fold name. now rewrite Hfresh.
Qed.

End UploadExtras.


Lemma upload_leaves_local_file_witness :
  let host := Upload.sample_host (Return (JDict [("name", JStr "dog.png")])) in
  let url := "http://127.0.0.1:8188/upload/image" in
  let r := Upload.upload_input_image host "/home/u/dog.png" "127.0.0.1:8188/"
             Upload.sample_disk in
  Upload.files (snd r) = ["/home/u/dog.png"]
  /\ fst r = Return (JDict [("name", JStr "dog.png")])
  /\ Upload.posts (Upload.actions (snd r)) = [(url, "dog.png", "image/png")].
Proof.
  intros host url r.
  destruct (upload_leaves_local_file host "/home/u/dog.png" "127.0.0.1:8188/"
              Upload.sample_disk eq_refl) as (Hfiles & Hthere & _).
  destruct (Hthere eq_refl) as [Hres Hposts].
  split; [exact Hfiles|]. split; [exact Hres|exact Hposts].
Defined.

Lemma upload_keeps_temp_file_of_failed_download_witness :
  Upload.upload_input_image Upload.broken_host "https://h.org/art/cat.jpeg"
    "127.0.0.1:8188/" Upload.sample_disk
  = (Raise (Exn OSError "Connection reset by peer"),
     Upload.mkDisk ["/tmp/tmpq1w2.jpeg"; "/home/u/dog.png"]
                   ([] ++ [Upload.CreateTemp "/tmp/tmpq1w2.jpeg"])).
Proof.
  exact (upload_keeps_temp_file_of_failed_download Upload.broken_host
           "https://h.org/art/cat.jpeg" "127.0.0.1:8188/"
           (Exn OSError "Connection reset by peer") Upload.sample_disk
           eq_refl eq_refl eq_refl eq_refl).
Defined.

(** ** What the wait returns *)

Section WaitReturns.
Variable env : Env.
Variable self : ComfyUIClient.
Variable prompt_id : json.

Lemma wait_loop_returned (start_time timeout interval : Z) :
  forall (fuel : nat) (w w' : World) (outputs : json),
    wait_loop env fuel self prompt_id start_time timeout interval w
    = (Return outputs, w') ->
    exists n evs,
      classify_poll env self prompt_id n = Outputs outputs
      /\ now w <= now w'
      /\ trace w' = (trace w ++ evs ++ [history_request env self prompt_id;
                                        Log INFO "Prompt execution completed."])%list.
Proof.
  induction fuel as [|fuel IH]; intros w w' o Hrun; [discriminate|].
  destruct (Z_lt_le_dec (now w - start_time) timeout) as [Hlt|Hge].
  - destruct (reports_outputs env self prompt_id (calls w)) eqn:Hrep.
    + destruct (reports_outputs_classified env self prompt_id _ Hrep) as (o' & Ho).
      rewrite (wait_loop_done env self prompt_id fuel _ _ _ w o' Hlt Ho) in Hrun.
      injection Hrun as <- <-.
      exists (calls w), []. split; [exact Ho|]. simpl. split; [lia|reflexivity].
    + destruct (Z_lt_le_dec interval 0) as [Hneg|Hpos].
      * rewrite wait_loop_negative in Hrun by assumption. discriminate.
      * rewrite wait_loop_pending in Hrun by assumption.
        destruct (IH _ _ _ Hrun) as (n & evs & Hn & Hnow & Htr).
        exists n, (pending_events env self prompt_id interval (calls w) ++ evs)%list.
        split; [exact Hn|].
        change (now (after_pending env self prompt_id interval w))
          with (now w + iteration_ticks env interval (calls w)) in Hnow.
        pose proof (iteration_ticks_lower env interval (calls w)).
        split; [lia|].
        change (trace (after_pending env self prompt_id interval w))
          with (trace w ++ pending_events env self prompt_id interval (calls w))%list
          in Htr.
        rewrite Htr. now rewrite <- !app_assoc.
  - rewrite wait_loop_deadline in Hrun by assumption. discriminate.
Qed.

(** X26. Whatever [wait_for_execution] returns was reported by a poll
    of the history endpoint as the non-empty [outputs] of the handle,
    and that poll is the last thing it did: nothing but the completion
    log follows it, and the clock has not gone back. *)
Theorem wait_returns_what_was_reported
    (timeout interval : Z) (fuel : nat) (w w' : World) (outputs : json) :
  wait_for_execution env fuel self prompt_id timeout interval w
  = (Return outputs, w') ->
  Py.truthy outputs = true
  /\ (exists n, classify_poll env self prompt_id n = Outputs outputs)
  /\ now w <= now w'
  /\ exists evs,
       trace w' = (trace w ++ evs ++ [history_request env self prompt_id;
                                      Log INFO "Prompt execution completed."])%list.
Proof.
  intros Hrun.
  change (wait_for_execution env fuel self prompt_id timeout interval w)
    with (wait_loop env fuel self prompt_id (now w) timeout interval
            (emit (Log INFO ("Waiting for prompt " ++ py_str env prompt_id ++ " to complete...")) w))
    in Hrun.
  apply wait_loop_returned in Hrun as (n & evs & Hn & Hnow & Htr).
  split; [now apply (classified_outputs_truthy env self prompt_id n)|].
  split; [now exists n|]. split; [exact Hnow|].
  exists (Log INFO ("Waiting for prompt " ++ py_str env prompt_id ++ " to complete...") :: evs).
  rewrite Htr. simpl. now rewrite <- app_assoc.
Qed.

End WaitReturns.

Lemma wait_returns_what_was_reported_witness :
  Py.truthy Sample.outputs = true
  /\ (exists n, classify_poll Sample.flaky_env Sample.client (JStr "p1") n
                = Outputs Sample.outputs)
  /\ 0 <= now (snd (wait_for_execution Sample.flaky_env 4 Sample.client (JStr "p1") 300 5
                                       (Sample.world_with JNull)))
  /\ exists evs,
       trace (snd (wait_for_execution Sample.flaky_env 4 Sample.client (JStr "p1") 300 5
                                      (Sample.world_with JNull)))
       = ([] ++ evs ++ [history_request Sample.flaky_env Sample.client (JStr "p1");
                        Log INFO "Prompt execution completed."])%list.
Proof.
  apply (wait_returns_what_was_reported Sample.flaky_env Sample.client (JStr "p1")
           300 5 4 (Sample.world_with JNull)).
  vm_compute. reflexivity.
Defined.

(** ** The name and type the upload announces *)

Lemma no_slash_snoc (acc : string) (c : ascii) :
  Str.contains "/" acc = false -> Ascii.eqb c "/" = false ->
  Str.contains "/" (acc ++ String c "") = false.
Proof.
  intros Hacc Hc. induction acc as [|a acc IH].
  - change ("" ++ String c "")%string with (String c "").
    rewrite contains_unfold, prefix_slash, Ascii.eqb_sym, Hc. reflexivity.
  - change (String a acc ++ String c "")%string
      with (String a (acc ++ String c "")).
    rewrite contains_unfold, prefix_slash in Hacc |- *.
    destruct (Ascii.eqb "/" a); [discriminate|]. now apply IH.
Qed.

Lemma basename_from_no_slash (s : string) :
  forall acc, Str.contains "/" acc = false ->
              Str.contains "/" (Upload.basename_from acc s) = false.
Proof.
  induction s as [|c t IH]; intros acc Hacc; [exact Hacc|].
  cbn [Upload.basename_from].
  destruct (Ascii.eqb c "/") eqn:Hc.
  - now apply IH.
  - apply IH. now apply no_slash_snoc.
Qed.

Lemma basename_no_slash (p : string) :
  Str.contains "/" (Upload.basename p) = false.
Proof. now apply basename_from_no_slash. Qed.

(** X27. When [prepare_image_for_upload] returns, the file name it
    announces holds no ["/"] and the type is ["image/png"] whatever the
    extension; a local path is handed on as it is with the disk
    untouched, a URL gives the temporary file named after the suffix,
    and that file then exists. *)
Theorem prepare_announces_plain_png
    (host : Upload.Host) (image_path : string) (d d' : Upload.Disk)
    (upload_path filename mime_type : string) :
  Upload.prepare_image_for_upload host image_path d
  = (Return (upload_path, filename, mime_type), d') ->
  Str.contains "/" filename = false
  /\ mime_type = "image/png"
  /\ (Upload.is_remote host image_path = false ->
      upload_path = image_path /\ d' = d)
  /\ (Upload.is_remote host image_path = true ->
      upload_path = Upload.temp_name host (Upload.temp_suffix image_path)
      /\ Str.mem upload_path (Upload.files d') = true
      /\ Upload.actions d' = (Upload.actions d ++ [Upload.CreateTemp upload_path])%list).
Proof.
  unfold Upload.prepare_image_for_upload, Upload.is_remote, Upload.temp_suffix.
  destruct (Str.mem (Upload.scheme_of host image_path) ["http"; "https"]).
  - destruct (Upload.url_open host image_path); [discriminate|].
    destruct (Upload.url_read host image_path); try discriminate.
    intros H. injection H as <- <- <- <-.
    split; [apply basename_no_slash|]. split; [reflexivity|].
    split; [discriminate|]. intros _. split; [reflexivity|].
    split; [|reflexivity].
    cbn [Upload.act Upload.files].
    destruct (Str.mem _ (Upload.files d)) eqn:Hmem; [exact Hmem|].
    cbn [Str.mem]. now rewrite String.eqb_refl.
  - intros H. injection H as <- <- <- <-.
    split; [apply basename_no_slash|]. split; [reflexivity|].
    split; [now split|discriminate].
Qed.

Lemma prepare_announces_plain_png_witness :
  Str.contains "/" "cat.jpeg" = false
  /\ "image/png" = "image/png"
  /\ (Upload.is_remote (Upload.sample_host (Return JNull))
        "https://h.org/art/cat.jpeg" = false ->
      "/tmp/tmpq1w2.jpeg" = "https://h.org/art/cat.jpeg"
      /\ Upload.mkDisk ["/tmp/tmpq1w2.jpeg"; "/home/u/dog.png"]
                       [Upload.CreateTemp "/tmp/tmpq1w2.jpeg"]
         = Upload.sample_disk)
  /\ (Upload.is_remote (Upload.sample_host (Return JNull))
        "https://h.org/art/cat.jpeg" = true ->
      "/tmp/tmpq1w2.jpeg"
      = Upload.temp_name (Upload.sample_host (Return JNull))
          (Upload.temp_suffix "https://h.org/art/cat.jpeg")
      /\ Str.mem "/tmp/tmpq1w2.jpeg" ["/tmp/tmpq1w2.jpeg"; "/home/u/dog.png"] = true
      /\ [Upload.CreateTemp "/tmp/tmpq1w2.jpeg"]
         = ([] ++ [Upload.CreateTemp "/tmp/tmpq1w2.jpeg"])%list).
Proof.
  exact (prepare_announces_plain_png (Upload.sample_host (Return JNull))
           "https://h.org/art/cat.jpeg" Upload.sample_disk
           (Upload.mkDisk ["/tmp/tmpq1w2.jpeg"; "/home/u/dog.png"]
                          [Upload.CreateTemp "/tmp/tmpq1w2.jpeg"])
           "/tmp/tmpq1w2.jpeg" "cat.jpeg" "image/png" eq_refl).
Defined.
